(** * Collections extension: install driver and revision update

    A shallow embedding of [src/util/InstallDriver.ts] (the phase state
    machine that installs one collection) and of [src/eventHandlers.ts]
    (the workflow that replaces an installed revision by a newer one).

    Conventions of the embedding:
    - a value that may be [undefined] is an [option]; a JavaScript object
      used as a dictionary is an association list in insertion order;
    - every method of the driver is a function in the monad [M], which
      threads the driver's private fields and collects, in order, the calls
      the method makes on the host application (notifications, events,
      store dispatches, observer callbacks);
    - the update workflow runs in the monad [W], which collects its host
      calls and may throw;
    - what the host answers during one call (store contents, remote
      metadata, dialog choices, directory listings) is read from an [Env],
      resp. an [UpdateEnv];
    - helper functions of vortex-api and of the extension's own [util]
      module, which are not part of the two files, are the fields of the
      class [Externals];
    - a method runs from its call to its completion: other handlers that
      the event loop could run at an [await] are not interleaved, and
      logging is left out.  The listeners the constructor registers
      ([did-install-mod] and the like) are functions of their own, named
      after their events; the facts below about states of the driver hold
      for every value of its fields, whichever call produced it. *)

From Stdlib Require Import List Permutation String Ascii DecimalString.
From Stdlib Require Import ZArith QArith Bool Lia Lqa.
Import ListNotations.
Close Scope Q_scope.
Open Scope string_scope.
Open Scope list_scope.

(** ** JavaScript numbers

    Byte counts and list lengths are integers, so the only operations whose
    special values matter are the two divisions of [installProgress].  A
    number is an exact rational or one of the three IEEE special values;
    rounding of finite results is not modelled, the special values follow
    IEEE 754 (a zero divisor is taken to be [+0]). *)
Module Js.
Local Open Scope Q_scope.

Inductive number : Type :=
| Fin (q : Q)
| PosInf
| NegInf
| NaN.

Definition ofZ (z : Z) : number := Fin (inject_Z z).

Definition ofNat (n : nat) : number := ofZ (Z.of_nat n).

Definition sgn (q : Q) : Z := Z.sgn (Qnum q).

Definition signed_inf (s : Z) : number :=
  if (s <? 0)%Z then NegInf else PosInf.

Definition div (x y : number) : number :=
  match x, y with
  | NaN, _ | _, NaN => NaN
  | Fin a, Fin b =>
      if (sgn b =? 0)%Z
      then (if (sgn a =? 0)%Z then NaN else signed_inf (sgn a))
      else Fin (a / b)
  | Fin _, (PosInf | NegInf) => Fin 0
  | PosInf, Fin b => signed_inf (if (sgn b =? 0)%Z then 1 else sgn b)
  | NegInf, Fin b => signed_inf (- (if (sgn b =? 0)%Z then 1 else sgn b))
  | (PosInf | NegInf), (PosInf | NegInf) => NaN
  end.

Definition add (x y : number) : number :=
  match x, y with
  | NaN, _ | _, NaN => NaN
  | Fin a, Fin b => Fin (a + b)
  | PosInf, NegInf | NegInf, PosInf => NaN
  | PosInf, _ | _, PosInf => PosInf
  | NegInf, _ | _, NegInf => NegInf
  end.

Definition mul (x y : number) : number :=
  match x, y with
  | NaN, _ | _, NaN => NaN
  | Fin a, Fin b => Fin (a * b)
  | Fin a, PosInf | PosInf, Fin a =>
      if (sgn a =? 0)%Z then NaN else signed_inf (sgn a)
  | Fin a, NegInf | NegInf, Fin a =>
      if (sgn a =? 0)%Z then NaN else signed_inf (- sgn a)
  | PosInf, PosInf | NegInf, NegInf => PosInf
  | PosInf, NegInf | NegInf, PosInf => NegInf
  end.

(** [x] is a finite number between [lo] and [hi]. *)
Definition between (lo hi : Q) (x : number) : Prop :=
  match x with
  | Fin q => lo <= q /\ q <= hi
  | _ => False
  end.

Definition isFinite (x : number) : bool :=
  match x with Fin _ => true | _ => false end.

(** [x || 0] on a possibly missing byte count: [undefined] and [0] are
    both falsy. *)
Definition orZero (x : option Z) : Z :=
  match x with Some z => z | None => 0%Z end.

(** [a || b] on possibly missing strings: [undefined] and the empty string
    are falsy. *)
Definition orStr (a b : option string) : option string :=
  match a with
  | Some "" | None => b
  | Some _ => a
  end.

(** [a || b] on possibly missing integers. *)
Definition orNum (a b : option Z) : option Z :=
  match a with
  | Some 0%Z | None => b
  | Some _ => a
  end.

(** [a ?? b]. *)
Definition nullish {A} (a b : option A) : option A :=
  match a with Some _ => a | None => b end.

(** A field that can be [undefined], [null] or hold a value. *)
Inductive nullable (A : Type) : Type :=
| Undefined
| Null
| Val (a : A).
Arguments Undefined {A}.
Arguments Null {A}.
Arguments Val {A} a.

Set Warnings "-register-all".

(** A value the code does not look into but passes on or compares, as
    JSON has it.  An object lists its own fields; as in JavaScript, no key
    occurs twice, and the order of the keys is the order of insertion. *)
Inductive value : Type :=
| VNull
| VBool (b : bool)
| VNum (z : Z)
| VStr (s : string)
| VArr (items : list value)
| VObj (fields : list (string * value)).

(** [o[k]] on the fields of an object. *)
Definition field (k : string) (fields : list (string * value)) : option value :=
  match find (fun kv => String.eqb (fst kv) k) fields with
  | Some kv => Some (snd kv)
  | None => None
  end.

(** [_.isEqual] of lodash: a deep comparison.  Arrays are equal when they
    have the same length and equal elements at each index; objects are
    equal when they have the same number of keys and each key of the one
    is a key of the other with an equal value, in whatever order the keys
    were inserted.  An array is never equal to an object. *)
Fixpoint isEqual (a b : value) {struct a} : bool :=
  match a, b with
  | VNull, VNull => true
  | VBool x, VBool y => Bool.eqb x y
  | VNum x, VNum y => Z.eqb x y
  | VStr x, VStr y => String.eqb x y
  | VArr xs, VArr ys =>
      (fix elements (xs ys : list value) {struct xs} : bool :=
         match xs, ys with
         | [], [] => true
         | x :: xs', y :: ys' => isEqual x y && elements xs' ys'
         | _, _ => false
         end) xs ys
  | VObj fs, VObj gs =>
      Nat.eqb (List.length fs) (List.length gs)
      && (fix fields (fs : list (string * value)) {struct fs} : bool :=
            match fs with
            | [] => true
            | (k, v) :: fs' =>
                match field k gs with
                | Some w => isEqual v w
                | None => false
                end && fields fs'
            end) fs
  | _, _ => false
  end.

Set Warnings "register-all".

(** [n.toString()] and the rendering of an integer in a template
    literal: decimal digits, with a minus sign for a negative number. *)
Definition toString (z : Z) : string := NilZero.string_of_int (Z.to_int z).

(** The double quote character, as a string. *)
Definition quote : string := String (ascii_of_nat 34) EmptyString.

(** [x ?? {}]: [undefined] and [null] give the empty object. *)
Definition orEmptyObject (x : option value) : value :=
  match x with
  | None | Some VNull => VObj []
  | Some v => v
  end.

End Js.

(** ** Data model (types of vortex-api and nexus-api, as far as the two
    files read them) *)

(** [IModReference.repo]; [matchRepo] compares the ids of a rule and of a
    revision file through [toString()], which on integer ids is equality
    of the integers. *)
Record Repo : Type := mkRepo {
  repo_modId : option Z;
  repo_fileId : option Z
}.

(** [IModReference]: the descriptor a rule uses to name a mod.  Matching it
    against mods is the business of vortex-api ([findModByRef],
    [testModReference]). *)
Record Reference : Type := mkReference {
  ref_id : option string;
  ref_fileMD5 : option string;
  ref_logicalFileName : option string;
  ref_description : option string;
  ref_repo : option Repo
}.

(** One entry of a rule's [fileList]: [{ path, md5 }]. *)
Definition FileListItem : Type := (string * string)%type.

(** [installerChoices.options]: the driver compares the options and does
    not look into them. *)
Definition InstallerOptions : Type := Js.value.

(** [IModRule]. *)
Record ModRule : Type := mkRule {
  rule_type : string;
  rule_reference : Reference;
  rule_fileList : option (list FileListItem);
  rule_installerChoices : option InstallerOptions;
  rule_fileName : option string; (* extra.fileName *)
  rule_ignored : bool
}.

(** [IMod]; [rules] is [[]] where the source reads [rules ?? []]. *)
Record Mod : Type := mkMod {
  mod_id : string;
  mod_state : Js.nullable string;
  mod_type : string;
  mod_archiveId : option string;
  mod_installationPath : string;
  mod_fileSize : option Z; (* attributes?.fileSize *)
  mod_installedAsDependency : option bool; (* attributes?.installedAsDependency *)
  mod_installerChoices : option InstallerOptions; (* attributes?.installerChoices?.options *)
  mod_rules : list ModRule
}.

(** [IProfile]. *)
Record Profile : Type := mkProfile {
  profile_id : string;
  profile_gameId : string
}.

(** [nexusApi.ICollection], reduced to what the two files read. *)
Record CollectionInfo : Type := mkCollectionInfo {
  col_slug : string;
  col_name : string;
  col_memberId : option Z (* user?.memberId *)
}.

(** [nexusApi.IModFile] inside [IRevision.modFiles]. *)
Record ModFile : Type := mkModFile {
  file_modId : option Z;
  file_fileId : option Z;
  file_uri : string
}.

(** [nexusApi.IRevision]; [rev_modFiles] lists the [file] of each entry
    ([None] is [null]). *)
Record RevisionInfo : Type := mkRevisionInfo {
  rev_id : string;
  rev_revision : Z;
  rev_collection : option CollectionInfo;
  rev_gameVersions : list string; (* the [reference] of each game version *)
  rev_modFiles : list (option ModFile);
  rev_downloadLink : string
}.

(** The [ids] block of a download's [modInfo]. *)
Record Ids : Type := mkIds {
  ids_collectionId : option string;
  ids_collectionSlug : option string;
  ids_revisionNumber : option Z;
  ids_revisionId : option string
}.

(** [state.persistent.downloads.files[archiveId].modInfo]. *)
Record ModInfo : Type := mkModInfo {
  nexus_ids : option Ids; (* modInfo.nexus?.ids *)
  nexus_revisionInfo : option RevisionInfo;
  nexus_collectionInfo : option CollectionInfo;
  plain_ids : option Ids (* modInfo.ids *)
}.

(** An entry of [getModsEx]: [{ ...mod, collectionRule: rule }], where
    [mod] is [undefined] when the rule matches no installed mod. *)
Record ModEx : Type := mkModEx {
  ex_mod : option Mod;
  collectionRule : ModRule
}.

Definition ex_state (m : ModEx) : Js.nullable string :=
  match ex_mod m with
  | Some md => mod_state md
  | None => Js.Undefined
  end.

Definition ex_archiveId (m : ModEx) : option string :=
  match ex_mod m with Some md => mod_archiveId md | None => None end.

Definition ex_fileSize (m : ModEx) : option Z :=
  match ex_mod m with Some md => mod_fileSize md | None => None end.

(** A JavaScript object used as a dictionary with string keys. *)
Definition Dict (V : Type) : Type := list (string * V).

Fixpoint dict_set {V} (k : string) (v : V) (d : Dict V) : Dict V :=
  match d with
  | [] => [(k, v)]
  | (k', v') :: rest =>
      if String.eqb k k' then (k, v) :: rest else (k', v') :: dict_set k v rest
  end.

Definition dict_values {V} (d : Dict V) : list V := map snd d.

(** [Step], the phases of the driver. *)
Inductive Step : Type :=
| Prepare | Changelog | Query | Start | Disclaimer
| Installing | Recommendations | Review.

Definition Step_eqb (a b : Step) : bool :=
  match a, b with
  | Prepare, Prepare | Changelog, Changelog | Query, Query
  | Start, Start | Disclaimer, Disclaimer | Installing, Installing
  | Recommendations, Recommendations | Review, Review => true
  | _, _ => false
  end.

(** What an awaited host operation settles to. *)
Inductive Outcome (A : Type) : Type :=
| Resolved (a : A)
| Rejected (message : string).
Arguments Resolved {A} a.
Arguments Rejected {A} message.

(** An entry reported by [turbowalk], with its path relative to the walked
    directory and the MD5 sum [fileMD5Async] computes for it. *)
Record Entry : Type := mkEntry {
  entry_path : string;
  entry_isDirectory : bool;
  entry_md5 : string
}.

(** What the host application answers during one call of a driver method. *)
Record Env : Type := mkEnv {
  (* state.persistent.mods[gameId] *)
  persistent_mods : string -> option (list Mod);
  (* state.persistent.downloads.files[archiveId]?.modInfo *)
  download_modInfo : string -> option ModInfo;
  (* state.persistent.downloads.files[archiveId]?.received *)
  download_received : string -> option Z;
  (* state.persistent.nexus?.userInfo?.userId *)
  nexus_userId : option Z;
  (* mInfoCache.getRevisionInfo(revisionId, slug, revisionNumber) *)
  getRevisionInfo :
    string -> option string -> option Z -> Outcome (option RevisionInfo);
  (* mInfoCache.getCollectionInfo(slug) *)
  getCollectionInfo : option string -> option CollectionInfo;
  (* util.getGame(gameMode).getInstalledVersion(discovery) *)
  getInstalledVersion : string;
  (* the action of the "Different version" dialog *)
  versionDialogAction : string;
  (* turbowalk over the install directory of a mod, keyed by its
     installationPath; [None] when the walk fails or reports no batch, in
     which case the promise built around it is never resolved *)
  turbowalk : string -> option (list Entry);
  (* mApi.ext.withSuppressedTests is there; when called it runs its
     callback at once, which stores the release in mOnStop *)
  withSuppressedTests : bool;
  (* Date.now() *)
  now : Z
}.

(** ** Helpers that live outside the two files

    [findModByRef], [testModReference] and [renderModName] belong to
    vortex-api; the others are exported by the extension's [constants] and
    [util/util] modules. *)
Class Externals : Type := {
  INSTALLING_NOTIFICATION_ID : string;
  MOD_TYPE : string;
  findModByRef : Reference -> list Mod -> option Mod;
  testModReference : Mod -> Reference -> bool;
  renderModName : Mod -> string;
  modRuleId : ModRule -> string;
  isRelevant : ModEx -> bool;
  calculateCollectionSize : Dict ModEx -> Z;
  getUnfulfilledNotificationId : string -> string
}.

(** ** Calls the driver makes on the host *)

Record Notification : Type := mkNotification {
  noti_id : option string;
  noti_type : string;
  noti_title : option string;
  noti_message : string;
  noti_progress : option Js.number;
  noti_displayMS : option Z
}.

(** Redux actions the driver dispatches. *)
Inductive Action : Type :=
| setPendingVote (revisionId slug : option string) (revisionNumber : option Z) (time : Z)
| setModEnabled (profileId modId : string) (enabled : bool)
| addModRule (gameId modId : string) (rule : ModRule).

Inductive Event : Type :=
| SendNotification (n : Notification)
| DismissNotification (id : string)
| EmitInstallDependencies (profileId gameId : string) (modIds : list string) (silent : bool)
| EmitViewCollection (modId : string)
| EmitInstallFromDependencies (modId : string) (rules : list ModRule) (recommended : bool)
| Dispatch (a : Action)
| BatchDispatch (l : list Action)
| ShowVersionDialog (actual : string) (intended : list string)
| WithSuppressedTests (tests : list string)
| SuppressedTestsReleased
| UpdateCB (handler : nat).

Definition isInstallDependencies (e : Event) : bool :=
  match e with EmitInstallDependencies _ _ _ _ => true | _ => false end.

Definition isNotification (e : Event) : bool :=
  match e with SendNotification _ => true | _ => false end.

(** ** The driver's private fields *)
Record Driver : Type := mkDriver {
  mProfile : option Profile;
  mCollection : option Mod;
  mStep : Step;
  mUpdateHandlers : list nat;
  mInstalledMods : list Mod;
  mRequiredMods : list ModRule;
  mInstallingMod : option string;
  mInstallDone : bool;
  mCollectionInfo : option CollectionInfo;
  mRevisionInfo : option RevisionInfo;
  mTotalSize : option Z;
  (* whether [mOnStop] holds the callback installed by [startInstall] *)
  mOnStop : bool;
  (* the number of operations chained on [mPrepare] and not yet awaited *)
  mPrepare : nat
}.

(** The field initialisers of the class. *)
Definition newDriver : Driver :=
  {| mProfile := None; mCollection := None; mStep := Prepare;
     mUpdateHandlers := []; mInstalledMods := []; mRequiredMods := [];
     mInstallingMod := None; mInstallDone := false;
     mCollectionInfo := None; mRevisionInfo := None; mTotalSize := None;
     mOnStop := false; mPrepare := 0 |}.

Definition set_mProfile (v : option Profile) (d : Driver) : Driver :=
  mkDriver v (mCollection d) (mStep d) (mUpdateHandlers d) (mInstalledMods d)
    (mRequiredMods d) (mInstallingMod d) (mInstallDone d) (mCollectionInfo d)
    (mRevisionInfo d) (mTotalSize d) (mOnStop d) (mPrepare d).

Definition set_mCollection (v : option Mod) (d : Driver) : Driver :=
  mkDriver (mProfile d) v (mStep d) (mUpdateHandlers d) (mInstalledMods d)
    (mRequiredMods d) (mInstallingMod d) (mInstallDone d) (mCollectionInfo d)
    (mRevisionInfo d) (mTotalSize d) (mOnStop d) (mPrepare d).

Definition set_mStep (v : Step) (d : Driver) : Driver :=
  mkDriver (mProfile d) (mCollection d) v (mUpdateHandlers d) (mInstalledMods d)
    (mRequiredMods d) (mInstallingMod d) (mInstallDone d) (mCollectionInfo d)
    (mRevisionInfo d) (mTotalSize d) (mOnStop d) (mPrepare d).

Definition set_mUpdateHandlers (v : list nat) (d : Driver) : Driver :=
  mkDriver (mProfile d) (mCollection d) (mStep d) v (mInstalledMods d)
    (mRequiredMods d) (mInstallingMod d) (mInstallDone d) (mCollectionInfo d)
    (mRevisionInfo d) (mTotalSize d) (mOnStop d) (mPrepare d).

Definition set_mInstalledMods (v : list Mod) (d : Driver) : Driver :=
  mkDriver (mProfile d) (mCollection d) (mStep d) (mUpdateHandlers d) v
    (mRequiredMods d) (mInstallingMod d) (mInstallDone d) (mCollectionInfo d)
    (mRevisionInfo d) (mTotalSize d) (mOnStop d) (mPrepare d).

Definition set_mRequiredMods (v : list ModRule) (d : Driver) : Driver :=
  mkDriver (mProfile d) (mCollection d) (mStep d) (mUpdateHandlers d)
    (mInstalledMods d) v (mInstallingMod d) (mInstallDone d) (mCollectionInfo d)
    (mRevisionInfo d) (mTotalSize d) (mOnStop d) (mPrepare d).

Definition set_mInstallingMod (v : option string) (d : Driver) : Driver :=
  mkDriver (mProfile d) (mCollection d) (mStep d) (mUpdateHandlers d)
    (mInstalledMods d) (mRequiredMods d) v (mInstallDone d) (mCollectionInfo d)
    (mRevisionInfo d) (mTotalSize d) (mOnStop d) (mPrepare d).

Definition set_mInstallDone (v : bool) (d : Driver) : Driver :=
  mkDriver (mProfile d) (mCollection d) (mStep d) (mUpdateHandlers d)
    (mInstalledMods d) (mRequiredMods d) (mInstallingMod d) v (mCollectionInfo d)
    (mRevisionInfo d) (mTotalSize d) (mOnStop d) (mPrepare d).

Definition set_mCollectionInfo (v : option CollectionInfo) (d : Driver) : Driver :=
  mkDriver (mProfile d) (mCollection d) (mStep d) (mUpdateHandlers d)
    (mInstalledMods d) (mRequiredMods d) (mInstallingMod d) (mInstallDone d) v
    (mRevisionInfo d) (mTotalSize d) (mOnStop d) (mPrepare d).

Definition set_mRevisionInfo (v : option RevisionInfo) (d : Driver) : Driver :=
  mkDriver (mProfile d) (mCollection d) (mStep d) (mUpdateHandlers d)
    (mInstalledMods d) (mRequiredMods d) (mInstallingMod d) (mInstallDone d)
    (mCollectionInfo d) v (mTotalSize d) (mOnStop d) (mPrepare d).

Definition set_mTotalSize (v : option Z) (d : Driver) : Driver :=
  mkDriver (mProfile d) (mCollection d) (mStep d) (mUpdateHandlers d)
    (mInstalledMods d) (mRequiredMods d) (mInstallingMod d) (mInstallDone d)
    (mCollectionInfo d) (mRevisionInfo d) v (mOnStop d) (mPrepare d).

Definition set_mOnStop (v : bool) (d : Driver) : Driver :=
  mkDriver (mProfile d) (mCollection d) (mStep d) (mUpdateHandlers d)
    (mInstalledMods d) (mRequiredMods d) (mInstallingMod d) (mInstallDone d)
    (mCollectionInfo d) (mRevisionInfo d) (mTotalSize d) v (mPrepare d).

Definition set_mPrepare (v : nat) (d : Driver) : Driver :=
  mkDriver (mProfile d) (mCollection d) (mStep d) (mUpdateHandlers d)
    (mInstalledMods d) (mRequiredMods d) (mInstallingMod d) (mInstallDone d)
    (mCollectionInfo d) (mRevisionInfo d) (mTotalSize d) (mOnStop d) v.

(** ** The monad of driver methods: private fields in, result, fields and
    host calls out *)
Definition M (A : Type) : Type := Driver -> A * Driver * list Event.

Definition ret {A} (a : A) : M A := fun d => (a, d, []).

Definition bind {A B} (m : M A) (k : A -> M B) : M B :=
  fun d =>
    let r1 := m d in
    let r2 := k (fst (fst r1)) (snd (fst r1)) in
    (fst (fst r2), snd (fst r2), snd r1 ++ snd r2).

Definition get : M Driver := fun d => (d, d, []).

Definition modify (f : Driver -> Driver) : M unit := fun d => (tt, f d, []).

Definition call (e : Event) : M unit := fun d => (tt, d, [e]).

Definition calls (l : list Event) : M unit := fun d => (tt, d, l).

Declare Scope driver_scope.
Delimit Scope driver_scope with driver.
Notation "x <- m ;; k" := (bind m (fun x => k))
  (at level 61, m at next level, right associativity) : driver_scope.
Notation "m ;; k" := (bind m (fun _ => k))
  (at level 61, right associativity) : driver_scope.

(** The fields after, and the host calls made by, running [m] from [d]. *)
Definition fieldsAfter {A} (m : M A) (d : Driver) : Driver := snd (fst (m d)).
Definition hostCalls {A} (m : M A) (d : Driver) : list Event := snd (m d).
Definition result {A} (m : M A) (d : Driver) : A := fst (fst (m d)).

(** The outcome [r] of a run, with the host calls [t] made before it. *)
Definition after {A} (t : list Event) (r : A * Driver * list Event)
    : A * Driver * list Event :=
  (fst (fst r), snd (fst r), t ++ snd r).

(** ** Small helpers standing for JavaScript idioms *)

Definition isSome {A} (o : option A) : bool :=
  match o with Some _ => true | None => false end.

Definition andThen {A B} (o : option A) (f : A -> option B) : option B :=
  match o with Some a => f a | None => None end.

Definition orElse {A} (o : option A) (a : A) : A :=
  match o with Some x => x | None => a end.

(** Structural equality of lists, as [_.isEqual] decides it on arrays. *)
Fixpoint list_eqb {A} (eqb : A -> A -> bool) (xs ys : list A) : bool :=
  match xs, ys with
  | [], [] => true
  | x :: xs', y :: ys' => eqb x y && list_eqb eqb xs' ys'
  | _, _ => false
  end.

Definition pair_eqb (a b : string * string) : bool :=
  String.eqb (fst a) (fst b) && String.eqb (snd a) (snd b).

(** [_.isEqual] on two file lists, arrays of [{ path, md5 }] records. *)
Definition isEqual (xs ys : list (string * string)) : bool :=
  list_eqb pair_eqb xs ys.

Definition optZ_eqb (a b : option Z) : bool :=
  match a, b with
  | Some x, Some y => Z.eqb x y
  | None, None => true
  | _, _ => false
  end.

(** [!!x] on a possibly missing integer. *)
Definition truthy (x : option Z) : bool :=
  match x with Some z => negb (Z.eqb z 0) | None => false end.

(** [state === s]. *)
Definition state_is (s : string) (st : Js.nullable string) : bool :=
  match st with Js.Val v => String.eqb v s | _ => false end.

(** [['requires', 'recommends'].includes(rule.type)]. *)
Definition isDependency (rule : ModRule) : bool :=
  String.eqb (rule_type rule) "requires" || String.eqb (rule_type rule) "recommends".

(** What a step function of [continue] hands back: nothing, a boolean, or
    a promise that never settles. *)
Inductive Ret : Type :=
| RetUndefined
| RetBool (b : bool)
| NeverSettles.

(** How the loop over the rules in [startImpl] ends: it runs to the end
    with the rules collected so far, or it leaves [startImpl] through the
    [return] in its body, or it waits forever for a directory listing. *)
Inductive LoopResult : Type :=
| LoopDone (required : list ModRule)
| LoopReturned (b : bool)
| LoopStuck.

(** ** [class InstallDriver] *)
Module InstallDriver.
Section Methods.
Context {ext : Externals}.
Local Open Scope driver_scope.

(** [triggerUpdate]: every registered observer is called, in order. *)
Definition triggerUpdate : M unit :=
  d <- get ;;
  calls (map UpdateCB (mUpdateHandlers d)).

Definition onUpdate (cb : nat) : M unit :=
  modify (fun d => set_mUpdateHandlers (mUpdateHandlers d ++ [cb]) d).

(** [prepare(func)] chains [func] on [mPrepare]. *)
Definition prepare : M unit :=
  modify (fun d => set_mPrepare (S (mPrepare d)) d).

(** [await this.mPrepare; this.mPrepare = Promise.resolve()]. *)
Definition awaitPrepare : M unit := modify (set_mPrepare 0).

(** [state.persistent.downloads.files[this.mCollection.archiveId]?.modInfo]. *)
Definition modInfoOf (env : Env) (d : Driver) : option ModInfo :=
  andThen (andThen (mCollection d) mod_archiveId) (download_modInfo env).

Definition idsOf {A} (field : Ids -> option A) (ids : option Ids) : option A :=
  andThen ids field.

Definition collectionSlug (env : Env) (d : Driver) : option string :=
  let modInfo := modInfoOf env d in
  Js.orStr (idsOf ids_collectionSlug (andThen modInfo nexus_ids))
           (idsOf ids_collectionSlug (andThen modInfo plain_ids)).

Definition revisionNumber (env : Env) (d : Driver) : option Z :=
  let modInfo := modInfoOf env d in
  Js.orNum (idsOf ids_revisionNumber (andThen modInfo nexus_ids))
           (idsOf ids_revisionNumber (andThen modInfo plain_ids)).

Definition revisionId (env : Env) (d : Driver) : option string :=
  let modInfo := modInfoOf env d in
  Js.orStr (idsOf ids_revisionId (andThen modInfo nexus_ids))
           (idsOf ids_revisionId (andThen modInfo plain_ids)).

Definition canContinue (d : Driver) : bool :=
  match mCollection d with
  | None => false
  | Some _ =>
      match mStep d with
      | Installing => mInstallDone d
      | Disclaimer => (0 <? List.length (mInstalledMods d))%nat || mInstallDone d
      | _ => true
      end
  end.

Definition canClose (d : Driver) : bool := Step_eqb (mStep d) Start.

Definition canHide (d : Driver) : bool :=
  Step_eqb (mStep d) Disclaimer || Step_eqb (mStep d) Installing.

Definition initCollectionInfo (env : Env) : M unit :=
  d <- get ;;
  match andThen (mCollection d) mod_archiveId with
  | None => ret tt
  | Some _ =>
      let slug := collectionSlug env d in
      let nexusInfo := andThen (modInfoOf env d) nexus_collectionInfo in
      modify (set_mCollectionInfo
                (Js.nullish nexusInfo
                   (Js.nullish (getCollectionInfo env slug)
                      (andThen (mRevisionInfo d) rev_collection))))
  end.

Definition onStop : M unit :=
  d <- get ;;
  match mCollection d with
  | Some c => call (DismissNotification (INSTALLING_NOTIFICATION_ID ++ mod_id c)%string)
  | None => ret tt
  end ;;
  modify (set_mCollection None) ;;
  modify (set_mProfile None) ;;
  modify (set_mInstalledMods []) ;;
  modify (set_mStep Prepare) ;;
  d1 <- get ;;
  if mOnStop d1
  then call SuppressedTestsReleased ;; modify (set_mOnStop false)
  else ret tt.

Definition cancel : M unit :=
  onStop ;;
  triggerUpdate.

Definition getModsEx (env : Env) (d : Driver)
    (profile : option Profile) (collection : Mod) : Dict ModEx :=
  match Js.nullish profile (mProfile d) with
  | None => []
  | Some p =>
      match persistent_mods env (profile_gameId p) with
      | None => []
      | Some mods =>
          fold_left
            (fun prev rule =>
               if isDependency rule
               then dict_set (modRuleId rule)
                      (mkModEx (findModByRef (rule_reference rule) mods) rule) prev
               else prev)
            (mod_rules collection) []
      end
  end.

(** The bytes one entry contributes to [downloadProgress]. *)
Definition entrySize (env : Env) (m : ModEx) : Z :=
  match ex_state m with
  | Js.Null => Js.orZero (andThen (ex_archiveId m) (download_received env))
  | st =>
      if state_is "downloading" st
      then Js.orZero (andThen (ex_archiveId m) (download_received env))
      else Js.orZero (ex_fileSize m)
  end.

Definition downloadProgress (env : Env) (mods : list ModEx) : Z :=
  fold_left (fun prev m => (prev + entrySize env m)%Z) mods 0%Z.

Definition installedMods (mods : list ModEx) : list ModEx :=
  filter (fun m => state_is "installed" (ex_state m)) mods.

Definition totalMods (mods : list ModEx) : list ModEx :=
  filter isRelevant mods.

(** [this.mTotalSize] read as a number. *)
Definition totalSizeNumber (d : Driver) : Js.number :=
  match mTotalSize d with
  | Some t => Js.ofZ t
  | None => Js.NaN
  end.

Definition installProgress (env : Env) (d : Driver)
    (profile : option Profile) (collection : Mod) : Js.number :=
  let mods := dict_values (getModsEx env d profile collection) in
  let dlPerc := Js.div (Js.ofZ (downloadProgress env mods)) (totalSizeNumber d) in
  let instPerc :=
    Js.div (Js.ofNat (List.length (installedMods mods)))
           (Js.ofNat (List.length (totalMods mods))) in
  Js.mul (Js.add dlPerc instPerc) (Js.Fin 50%Q).

Definition updateProgress (env : Env)
    (profile : option Profile) (collection : option Mod) : M unit :=
  match collection with
  | None => ret tt
  | Some c =>
      d <- get ;;
      match mTotalSize d with
      | None =>
          modify (set_mTotalSize
                    (Some (calculateCollectionSize (getModsEx env d profile c))))
      | Some _ => ret tt
      end ;;
      d1 <- get ;;
      call (SendNotification
              {| noti_id := Some (INSTALLING_NOTIFICATION_ID ++ mod_id c)%string;
                 noti_type := "activity";
                 noti_title := Some "Installing Collection";
                 noti_message := renderModName c;
                 noti_progress := Some (installProgress env d1 profile c);
                 noti_displayMS := None |})
  end.

Definition matchRepo (rule : ModRule) (ref : option ModFile) : bool :=
  match ref with
  | None => false
  | Some file =>
      let repo := ref_repo (rule_reference rule) in
      match andThen repo repo_modId, andThen repo repo_fileId with
      | Some modId, Some fileId =>
          if truthy (file_modId file) && truthy (file_fileId file)
          then optZ_eqb (Some modId) (file_modId file)
               && optZ_eqb (Some fileId) (file_fileId file)
          else false
      | _, _ => false
      end
  end.

(** The action [augmentRules] builds for one rule, if any. *)
Definition augmentRule (d : Driver) (profile : Profile) (collection : Mod)
    (rule : ModRule) : option Action :=
  match ref_repo (rule_reference rule) with
  | None => None
  | Some _ =>
      let modFiles := match mRevisionInfo d with
                      | Some r => rev_modFiles r
                      | None => []
                      end in
      match find (fun iter => matchRepo rule iter) modFiles with
      | Some (Some file) =>
          Some (addModRule (profile_gameId profile) (mod_id collection)
                  (mkRule (rule_type rule) (rule_reference rule) (rule_fileList rule)
                     (rule_installerChoices rule) (Some (file_uri file))
                     (rule_ignored rule)))
      | _ => None
      end
  end.

Fixpoint definedOnly {A} (l : list (option A)) : list A :=
  match l with
  | [] => []
  | Some a :: rest => a :: definedOnly rest
  | None :: rest => definedOnly rest
  end.

Definition augmentRules (profile : Profile) (collection : Mod) : M unit :=
  d <- get ;;
  call (BatchDispatch
          (definedOnly (map (augmentRule d profile collection) (mod_rules collection)))).

(** The files [turbowalk] found below a mod's install directory, as
    [{ path, md5 }] records. *)
Definition presentFiles (entries : list Entry) : list FileListItem :=
  map (fun iter => (entry_path iter, entry_md5 iter))
      (filter (fun iter => negb (entry_isDirectory iter)) entries).

(** [rule.fileList?.length ?? 0 > 0], which JavaScript reads as
    [rule.fileList?.length ?? (0 > 0)]: truthy exactly for a non-empty
    list. *)
Definition hasFileList (rule : ModRule) : bool :=
  match rule_fileList rule with
  | Some (_ :: _) => true
  | _ => false
  end.

Definition installerChoicesMatch (rule : ModRule) (modByRef : Mod) : bool :=
  Js.isEqual (Js.orEmptyObject (rule_installerChoices rule))
             (Js.orEmptyObject (mod_installerChoices modByRef)).

(** The [for ... of] loop of [startImpl] over the collection's rules;
    [required] is the local array the loop pushes to. *)
Fixpoint requiredLoop (env : Env) (mods : list Mod)
    (rules : list ModRule) (required : list ModRule) : LoopResult :=
  match rules with
  | [] => LoopDone required
  | rule :: rest =>
      if negb (String.eqb (rule_type rule) "requires")
      then requiredLoop env mods rest required
      else
        match findModByRef (rule_reference rule) mods with
        | None => requiredLoop env mods rest (required ++ [rule])
        | Some modByRef =>
            if hasFileList rule
            then
              match turbowalk env (mod_installationPath modByRef) with
              | None => LoopStuck
              | Some entries =>
                  if negb (isEqual (presentFiles entries)
                                   (orElse (rule_fileList rule) []))
                  then requiredLoop env mods rest (required ++ [rule])
                  else LoopReturned (negb (installerChoicesMatch rule modByRef))
              end
            else LoopReturned (negb (installerChoicesMatch rule modByRef))
        end
  end.

(** [startImpl] from the [view-collection] event on. *)
Definition startImplInstall (env : Env) (profile : Profile) (collection : Mod)
    (mods : list Mod) : M Ret :=
  call (EmitViewCollection (mod_id collection)) ;;
  updateProgress env (Some profile) (Some collection) ;;
  augmentRules profile collection ;;
  call (DismissNotification (getUnfulfilledNotificationId (mod_id collection))) ;;
  call (Dispatch (setModEnabled (profile_id profile) (mod_id collection) true)) ;;
  match requiredLoop env mods (mod_rules collection) [] with
  | LoopDone required =>
      modify (set_mRequiredMods required) ;;
      (if (List.length required =? 0)%nat
       then modify (set_mInstallDone false)
       else ret tt) ;;
      ret RetUndefined
  | LoopReturned b => ret (RetBool b)
  | LoopStuck => ret NeverSettles
  end.

(** The dialog is shown when the revision lists game versions and none of
    them is the installed one. *)
Definition versionMismatch (gameVersion : string) (revGameVersions : list string) : bool :=
  negb (List.length revGameVersions =? 0)%nat
  && negb (existsb (fun gv => String.eqb gv gameVersion) revGameVersions).

Definition startImpl (env : Env) : M Ret :=
  d0 <- get ;;
  match mCollection d0, mProfile d0 with
  | Some collection, Some profile =>
      match mod_archiveId collection with
      | None => ret (RetBool false)
      | Some _ =>
          modify (set_mInstalledMods []) ;;
          modify (set_mInstallingMod None) ;;
          modify (set_mInstallDone false) ;;
          modify (set_mStep Start) ;;
          let mods := orElse (persistent_mods env (profile_gameId profile)) [] in
          let nexusRevision := andThen (modInfoOf env d0) nexus_revisionInfo in
          let slug := collectionSlug env d0 in
          let revId := revisionId env d0 in
          match revId with
          | None => ret tt
          | Some rid =>
              match nexusRevision with
              | Some r => modify (set_mRevisionInfo (Some r))
              | None =>
                  match getRevisionInfo env rid slug (revisionNumber env d0) with
                  | Resolved r => modify (set_mRevisionInfo r)
                  | Rejected _ => ret tt
                  end
              end
          end ;;
          d1 <- get ;;
          (if optZ_eqb (andThen (andThen (mRevisionInfo d1) rev_collection) col_memberId)
                       (nexus_userId env)
           then ret tt
           else call (Dispatch (setPendingVote revId slug (revisionNumber env d0) (now env)))) ;;
          let gameVersion := getInstalledVersion env in
          let revGameVersions := match mRevisionInfo d1 with
                                 | Some r => rev_gameVersions r
                                 | None => []
                                 end in
          if versionMismatch gameVersion revGameVersions
          then
            call (ShowVersionDialog gameVersion revGameVersions) ;;
            if String.eqb (versionDialogAction env) "Cancel"
            then modify (set_mInstallDone true) ;; ret (RetBool false)
            else startImplInstall env profile collection mods
          else startImplInstall env profile collection mods
      end
  | _, _ => ret (RetBool false)
  end.

Definition startInstall (env : Env) : M Ret :=
  (if withSuppressedTests env
   then call (WithSuppressedTests ["plugins-changed"]) ;; modify (set_mOnStop true)
   else ret tt) ;;
  startImpl env.

Definition begin : M Ret :=
  d <- get ;;
  match mCollection d, mProfile d with
  | Some collection, Some profile =>
      call (EmitInstallDependencies (profile_id profile) (profile_gameId profile)
              [mod_id collection] true) ;;
      modify (set_mStep Installing) ;;
      ret RetUndefined
  | _, _ => ret RetUndefined
  end.

Definition closeDisclaimers : M Ret :=
  modify (set_mStep Installing) ;; ret RetUndefined.

Definition finishInstalling : M Ret :=
  modify (set_mStep Review) ;; ret RetUndefined.

Definition close : M Ret :=
  modify (set_mCollection None) ;;
  modify (set_mInstallDone true) ;;
  triggerUpdate ;;
  ret RetUndefined.

(** The table [steps] of [continue]; phases without an entry yield
    [undefined]. *)
Definition steps (env : Env) (s : Step) : M Ret :=
  match s with
  | Query => startInstall env
  | Start => begin
  | Disclaimer => closeDisclaimers
  | Installing | Recommendations => finishInstalling
  | Review => close
  | Prepare | Changelog => ret RetUndefined
  end.

Definition continue (env : Env) : M unit :=
  d <- get ;;
  if canContinue d && isSome (andThen (mCollection d) mod_archiveId)
  then
    initCollectionInfo env ;;
    d1 <- get ;;
    res <- steps env (mStep d1) ;;
    match res with
    | RetBool false | NeverSettles => ret tt
    | _ => triggerUpdate
    end
  else ret tt.

Definition alreadyInstalling (displayMS : option Z) : Notification :=
  {| noti_id := None; noti_type := "warning"; noti_title := None;
     noti_message := "Already installing a collection";
     noti_progress := None; noti_displayMS := displayMS |}.

Definition query (env : Env) (profile : option Profile) (collection : option Mod)
    : M unit :=
  awaitPrepare ;;
  match andThen collection mod_archiveId with
  | None => ret tt
  | Some _ =>
      d <- get ;;
      if negb (mInstallDone d) && isSome (mCollection d)
      then call (SendNotification (alreadyInstalling None))
      else
        modify (set_mProfile profile) ;;
        modify (set_mCollection collection) ;;
        modify (set_mStep Query) ;;
        initCollectionInfo env ;;
        triggerUpdate
  end.

Definition start (env : Env) (profile : option Profile) (collection : option Mod)
    : M unit :=
  awaitPrepare ;;
  match collection with
  | None => ret tt
  | Some c =>
      match mod_archiveId c with
      | None => ret tt
      | Some _ =>
          d <- get ;;
          if negb (mInstallDone d) && isSome (mCollection d)
          then call (SendNotification (alreadyInstalling (Some 5000%Z)))
          else
            modify (set_mProfile profile) ;;
            modify (set_mCollection collection) ;;
            d1 <- get ;;
            modify (set_mTotalSize
                      (Some (calculateCollectionSize (getModsEx env d1 profile c)))) ;;
            res <- startInstall env ;;
            match res with
            | NeverSettles => ret tt
            | _ => initCollectionInfo env ;; triggerUpdate
            end
      end
  end.

(** *** The listeners the constructor registers, and [installRecommended] *)

(** How a listener ends: it runs to its end, or it throws because it reads
    a property of [undefined]. *)
Inductive Ending : Type :=
| Finished
| Throws.

(** [mods[modId]] on the mods of one game. *)
Definition storeMod (mods : list Mod) (modId : string) : option Mod :=
  find (fun m => String.eqb (mod_id m) modId) mods.

(** ['will-install-mod']; [download] is
    [state.persistent.downloads.files[archiveId]], given by its
    [localPath]. *)
Definition willInstallMod (download : option (option string)) : M unit :=
  match download with
  | Some localPath => modify (set_mInstallingMod localPath)
  | None => ret tt
  end.

(** The arguments of a call of [applyPatches]: the collection's install
    path, the game, the description of the reference, the installed mod and
    the rule whose [extra.patches] are applied. *)
Record PatchCall : Type := mkPatchCall {
  patch_installationPath : string;
  patch_gameId : string;
  patch_description : string;
  patch_modId : string;
  patch_rule : ModRule
}.

(** ['did-install-mod'].  [hasExtra] tells whether a rule has an [extra]
    block; reading [required.extra.patches] throws when it has none.  The
    result holds the call of [applyPatches], if one is made. *)
Definition didInstallMod (env : Env) (hasExtra : ModRule -> bool)
    (gameId modId : string) : M (Ending * option PatchCall) :=
  d <- get ;;
  match andThen (persistent_mods env gameId) (fun mods => storeMod mods modId) with
  | None => triggerUpdate ;; ret (Finished, None)
  | Some m =>
      match find (fun iter => testModReference m (rule_reference iter))
                 (mRequiredMods d) with
      | None => triggerUpdate ;; ret (Finished, None)
      | Some required =>
          modify (fun d' => set_mInstalledMods (mInstalledMods d' ++ [m]) d') ;;
          match mCollection d, ref_description (rule_reference required) with
          | Some collection, Some description =>
              updateProgress env (mProfile d) (mCollection d) ;;
              if hasExtra required
              then
                triggerUpdate ;;
                ret (Finished,
                     Some (mkPatchCall (mod_installationPath collection) gameId
                             description modId required))
              else ret (Throws, None)
          | _, _ => triggerUpdate ;; ret (Finished, None)
          end
      end
  end.

(** ['did-finish-download']. *)
Definition didFinishDownload (env : Env) : M unit :=
  d <- get ;;
  updateProgress env (mProfile d) (mCollection d).

(** ['will-install-dependencies']; [profileById] is
    [selectors.profileById(state, profileId)]. *)
Definition willInstallDependencies (env : Env) (profileById : option Profile)
    (modId : string) (recommendations : bool) : M Ending :=
  d <- get ;;
  match Js.nullish (mProfile d) profileById with
  | None => ret Finished
  | Some profile =>
      match mCollection d with
      | Some _ => ret Finished
      | None =>
          match persistent_mods env (profile_gameId profile) with
          | None => ret Throws
          | Some mods =>
              match storeMod mods modId with
              | Some m =>
                  if String.eqb (mod_type m) MOD_TYPE && recommendations
                  then
                    modify (set_mCollection (Some m)) ;;
                    modify (set_mStep Installing) ;;
                    ret Finished
                  else ret Finished
              | None => ret Finished
              end
          end
      end
  end.

(** The filter of [onDidInstallDependencies]: a rule of the pass that is
    not ignored and matches no installed mod. *)
Definition incompleteRule (recommendations : bool) (mods : list Mod)
    (rule : ModRule) : bool :=
  (if recommendations
   then isDependency rule
   else String.eqb (rule_type rule) "requires")
  && negb (rule_ignored rule)
  && negb (isSome (findModByRef (rule_reference rule) mods)).

(** ['did-install-dependencies'].  The boolean of the result tells whether
    the rules of the collection are applied to the mods afterwards
    ([readCollection] and [postprocessCollection], whose failure is only
    logged). *)
Definition onDidInstallDependencies (env : Env) (gameId modId : string)
    (recommendations : bool) : M (Ending * bool) :=
  match persistent_mods env gameId with
  | None => ret (Throws, false)
  | Some mods =>
      d <- get ;;
      (if match mCollection d with
          | Some c => String.eqb modId (mod_id c)
          | None => false
          end
       then
         modify (set_mCollection (storeMod mods modId)) ;;
         match storeMod mods modId with
         | None => ret tt
         | Some collection =>
             let incomplete :=
               find (incompleteRule recommendations mods) (mod_rules collection) in
             if negb recommendations
             then
               match incomplete with
               | None => initCollectionInfo env ;; modify (set_mStep Review)
               | Some _ =>
                   modify (set_mInstallDone true) ;;
                   modify (set_mInstallingMod None)
               end ;;
               call (DismissNotification (INSTALLING_NOTIFICATION_ID ++ modId)%string) ;;
               triggerUpdate
             else
               call (DismissNotification (INSTALLING_NOTIFICATION_ID ++ modId)%string) ;;
               match incomplete with
               | None => initCollectionInfo env ;; modify (set_mStep Review)
               | Some _ => onStop
               end
         end
       else ret tt) ;;
      ret (Finished,
           match storeMod mods modId with
           | Some m => String.eqb (mod_type m) MOD_TYPE
           | None => false
           end)
  end.

Definition installRecommended : M Ending :=
  d <- get ;;
  match mCollection d with
  | None => ret Throws
  | Some collection =>
      call (EmitInstallFromDependencies (mod_id collection) (mod_rules collection) true) ;;
      modify (set_mStep Recommendations) ;;
      triggerUpdate ;;
      ret Finished
  end.

End Methods.
End InstallDriver.

(** ** [eventHandlers.ts]: updating an installed collection to a newer
    revision *)

(** A thrown JavaScript value, as far as the handlers inspect it. *)
Record Error : Type := mkError {
  err_isUserCanceled : bool; (* err instanceof util.UserCanceled *)
  err_name : string;
  err_fileName : option string;
  err_message : string
}.

Definition plainError (message : string) : Error :=
  mkError false "Error" None message.

(** Reading a property of [undefined]. *)
Definition typeError (what : string) : Error :=
  mkError false "TypeError" None what.

(** [IDialogResult]. *)
Record DialogResult : Type := mkDialogResult {
  dlg_action : string;
  dlg_input : option (Dict bool)
}.

(** The arrays [ops.keep] and [ops.remove] hold mod objects when filled
    from [obsolete] and mod ids when filled from the dialog's input. *)
Inductive OpItem : Type :=
| ItemMod (m : Mod)
| ItemId (id : string).

Inductive HostCall : Type :=
| GetRevision (slug : string) (revisionNumber : Z)
| ResolveCollectionUrl (downloadLink : string)
| StartDownload (urls : list string) (name : string) (revision : Z)
| AnalyticsClick
| StartInstallDownload (dlId : string)
| ShowRemoveDialog (count : nat) (collectionName : string)
| ShowReviewDialog (checkboxes : list string) (collectionName : string)
| MarkNotDependency (gameId : string) (items : list OpItem)
| RemoveMods (gameId : string) (items : list OpItem)
| ShowErrorNotification (title : string) (err : Error).

(** A step either returns or throws. *)
Inductive Thrown (A : Type) : Type :=
| Returned (a : A)
| Threw (e : Error).
Arguments Returned {A} a.
Arguments Threw {A} e.

(** What the host answers during one run of the workflow. *)
Record UpdateEnv : Type := mkUpdateEnv {
  (* (await emitAndAwait('get-nexus-collection-revision', ...))[0] *)
  revisionReply : Thrown (option RevisionInfo);
  (* (await emitAndAwait('resolve-collection-url', ...))[0], as URIs *)
  resolveUrlReply : Thrown (option (list string));
  (* the download id 'start-download' calls back with *)
  startDownloadReply : Thrown string;
  (* state.persistent.downloads.files: id and localPath of each download *)
  downloadFiles : Dict (option string);
  (* state.persistent.mods[gameId] before the new revision is installed *)
  modsBefore : option (list Mod);
  (* the mod id 'start-install-download' calls back with *)
  installReply : Thrown string;
  (* state.persistent.mods[gameId] after the installation *)
  modsAfter : list Mod;
  removeDialogReply : Thrown DialogResult;
  reviewDialogReply : Thrown DialogResult;
  (* how 'remove-mods' calls back *)
  removeReply : Thrown unit
}.

(** Computations that make host calls and may throw. *)
Definition W (A : Type) : Type := (Thrown A * list HostCall)%type.

Definition wret {A} (a : A) : W A := (Returned a, []).

Definition throw {A} (e : Error) : W A := (Threw e, []).

Definition wbind {A B} (m : W A) (k : A -> W B) : W B :=
  match m with
  | (Returned a, t) => let '(r, t') := k a in (r, t ++ t')
  | (Threw e, t) => (Threw e, t)
  end.

Definition hostCall (c : HostCall) : W unit := (Returned tt, [c]).

Definition await {A} (reply : Thrown A) : W A := (reply, []).

(** [try { m } catch (err) { handler err }]. *)
Definition tryCatch {A} (m : W A) (handler : Error -> W A) : W A :=
  match m with
  | (Returned a, t) => (Returned a, t)
  | (Threw e, t) => let '(r, t') := handler e in (r, t ++ t')
  end.

Declare Scope workflow_scope.
Delimit Scope workflow_scope with workflow.
Notation "x <- m ;; k" := (wbind m (fun x => k))
  (at level 61, m at next level, right associativity) : workflow_scope.
Notation "m ;; k" := (wbind m (fun _ => k))
  (at level 61, right associativity) : workflow_scope.

Module EventHandlers.
Section Handlers.
Context {ext : Externals}.
Local Open Scope workflow_scope.

(** [mods[id]]. *)
Definition modById (mods : list Mod) (id : string) : option Mod :=
  find (fun m => String.eqb (mod_id m) id) mods.

(** [candidates.includes(mod)]: objects of one snapshot of the store are
    told apart by their id. *)
Definition includesMod (l : list Mod) (m : Mod) : bool :=
  existsb (fun c => String.eqb (mod_id c) (mod_id m)) l.

Definition candidates (oldRules : list ModRule) (mods : list Mod) : list Mod :=
  filter (fun m => match mod_installedAsDependency m with
                   | Some true => true
                   | _ => false
                   end)
    (InstallDriver.definedOnly
       (map (fun rule => findModByRef (rule_reference rule) mods)
            (filter isDependency oldRules))).

Definition notCandidates (oldRules : list ModRule) (mods : list Mod)
    (oldModId newModId : string) : list Mod :=
  filter (fun m => negb (includesMod (candidates oldRules mods) m)
                   && negb (String.eqb oldModId (mod_id m)
                            || String.eqb newModId (mod_id m)))
    mods.

Definition references (rules : list ModRule) (m : Mod) : bool :=
  isSome (find (fun rule => isDependency rule
                            && testModReference m (rule_reference rule)) rules).

(** The two filters over [candidates], given the rules of the new
    revision's mod. *)
Definition obsoleteOf (newRules : list ModRule) (cands others : list Mod) : list Mod :=
  filter (fun m => negb (isSome (find (fun other => references (mod_rules other) m) others)))
    (filter (fun m => negb (references newRules m)) cands).

(** [obsolete]; reading [mods[newModId].rules] throws when the new mod is
    not in the store, which happens once the first filter looks at a
    candidate. *)
Definition obsolete (oldRules : list ModRule) (mods : list Mod)
    (oldModId newModId : string) : Thrown (list Mod) :=
  match candidates oldRules mods with
  | [] => Returned []
  | cands =>
      match modById mods newModId with
      | None => Threw (typeError "mods[newModId] is undefined")
      | Some newMod =>
          Returned (obsoleteOf (mod_rules newMod) cands
                      (notCandidates oldRules mods oldModId newModId))
      end
  end.

(** [Object.keys(files).find(iter => files[iter].localPath === err.fileName)]. *)
Definition optStr_eqb (a b : option string) : bool :=
  match a, b with
  | Some x, Some y => String.eqb x y
  | None, None => true
  | _, _ => false
  end.

Definition findDownload (files : Dict (option string)) (fileName : option string)
    : option string :=
  option_map fst (find (fun kv => optStr_eqb (snd kv) fileName) files).

(** The inner [try]/[catch] around 'start-download'. *)
Definition startDownload (env : UpdateEnv) (latest : RevisionInfo)
    (collection : CollectionInfo) (downloadURLs : option (list string)) : W string :=
  tryCatch
    (match downloadURLs with
     | None => throw (typeError "downloadURLs is undefined")
     | Some urls =>
         hostCall (StartDownload urls (col_name collection) (rev_revision latest)) ;;
         await (startDownloadReply env)
     end)
    (fun err =>
       let dlId := if String.eqb (err_name err) "AlreadyDownloaded"
                   then findDownload (downloadFiles env) (err_fileName err)
                   else None in
       match dlId with
       | Some id => wret id
       | None => throw err
       end).

(** The reduction over [Object.keys(result.input)]. *)
Definition splitByInput (input : Dict bool) : list OpItem * list OpItem :=
  fold_left
    (fun prev kv =>
       if (snd kv : bool)
       then (fst prev ++ [ItemId (fst kv)], snd prev)
       else (fst prev, snd prev ++ [ItemId (fst kv)]))
    input ([], []).

(** The dialogs shown when [obsolete] is not empty; the result is
    [(ops.remove, ops.keep)]. *)
Definition askAboutObsolete (env : UpdateEnv) (collectionName : string)
    (obs : list Mod) : W (list OpItem * list OpItem) :=
  hostCall (ShowRemoveDialog (List.length obs) collectionName) ;;
  result <- await (removeDialogReply env) ;;
  if String.eqb (dlg_action result) "Keep All"
  then wret ([], map ItemMod obs)
  else if String.eqb (dlg_action result) "Remove All"
  then wret (map ItemMod obs, [])
  else
    hostCall (ShowReviewDialog (map mod_id obs) collectionName) ;;
    reviewResult <- await (reviewDialogReply env) ;;
    if String.eqb (dlg_action reviewResult) "Keep All"
    then wret ([], map ItemMod obs)
    else
      match dlg_input result with
      | None => throw (typeError "result.input is undefined")
      | Some input => wret (splitByInput input)
      end.

(** [new Error(`Invalid revision "${collectionSlug}:${revisionNumber}"`)]. *)
Definition invalidRevision (collectionSlug : string) (revisionNumber : Z) : Error :=
  plainError ("Invalid revision " ++ Js.quote ++ collectionSlug ++ ":"
              ++ Js.toString revisionNumber ++ Js.quote)%string.

(** [new Error(`Invalid collection "${collectionSlug}"`)]. *)
Definition invalidCollection (collectionSlug : string) : Error :=
  plainError ("Invalid collection " ++ Js.quote ++ collectionSlug ++ Js.quote)%string.

(** The body of the [try] block of [collectionUpdate]; [revisionNumber] is
    the integer that [parseInt] reads back from the decimal string the
    handler passes. *)
Definition collectionUpdateBody (env : UpdateEnv) (gameId collectionSlug : string)
    (revisionNumber : Z) (oldModId : string) : W unit :=
  hostCall (GetRevision collectionSlug revisionNumber) ;;
  latest <- await (revisionReply env) ;;
  match latest with
  | None => throw (invalidRevision collectionSlug revisionNumber)
  | Some latest =>
      match rev_collection latest with
      | None => throw (typeError "collection is undefined")
      | Some collection =>
          if negb (String.eqb collectionSlug (col_slug collection))
          then throw (invalidCollection collectionSlug)
          else
            hostCall (ResolveCollectionUrl (rev_downloadLink latest)) ;;
            downloadURLs <- await (resolveUrlReply env) ;;
            dlId <- startDownload env latest collection downloadURLs ;;
            hostCall AnalyticsClick ;;
            oldMod <- match andThen (modsBefore env) (fun mods => modById mods oldModId) with
                      | None => throw (typeError "oldMod is undefined")
                      | Some m => wret m
                      end ;;
            let oldRules := mod_rules oldMod in
            hostCall (StartInstallDownload dlId) ;;
            newModId <- await (installReply env) ;;
            let mods := modsAfter env in
            obs <- await (obsolete oldRules mods oldModId newModId) ;;
            ops <- (if (0 <? List.length obs)%nat
                    then askAboutObsolete env (col_name collection) obs
                    else wret ([], [])) ;;
            hostCall (MarkNotDependency gameId (snd ops)) ;;
            hostCall (RemoveMods gameId (ItemId oldModId :: fst ops)) ;;
            await (removeReply env)
      end
  end.

(** [collectionUpdate]: the body under its [catch]. *)
Definition collectionUpdate (env : UpdateEnv) (gameId collectionSlug : string)
    (revisionNumber : Z) (oldModId : string) : W unit :=
  tryCatch (collectionUpdateBody env gameId collectionSlug revisionNumber oldModId)
    (fun err =>
       if err_isUserCanceled err
       then wret tt
       else hostCall (ShowErrorNotification "Failed to download collection" err)).

(** The handler [onCollectionUpdate] returns: it queues the workflow on the
    driver's [mPrepare] chain, where it runs with its own [catch].  The
    result is the driver after queuing and the host calls of the run. *)
Definition onCollectionUpdate (env : UpdateEnv) (gameId collectionSlug : string)
    (revisionNumber : option Z) (source : string) (oldModId : string)
    (d : Driver) : Driver * list HostCall :=
  match revisionNumber with
  | None => (d, [])
  | Some rev =>
      if negb (String.eqb source "nexus")
      then (d, [])
      else
        (fieldsAfter InstallDriver.prepare d,
         snd (tryCatch (collectionUpdate env gameId collectionSlug rev oldModId)
                (fun err => hostCall (ShowErrorNotification "Failed to update collection" err))))
  end.

End Handlers.
End EventHandlers.

(** ** A sample host and sample data, for concrete runs *)
Module Sample.

Definition byId (ref : Reference) (m : Mod) : bool :=
  match ref_id ref with
  | Some id => String.eqb (mod_id m) id
  | None => false
  end.

(** Modelled from the spec: [isRelevant] of util/util is not among the
    files; section 4.2 describes the relevant entries as those that count
    toward totals, leaving out entries with no real requirement.  Here an
    entry counts when its mod exists in some state or its rule is a
    [requires] rule that is not ignored. *)
Definition relevant (m : ModEx) : bool :=
  match ex_state m with
  | Js.Val _ => true
  | _ => String.eqb (rule_type (collectionRule m)) "requires"
         && negb (rule_ignored (collectionRule m))
  end.

(** Modelled from the spec: [calculateCollectionSize] of util/util is not
    among the files; section 4.2 says the total size is computed from the
    full relevant set.  Here it is the sum of the declared file sizes of
    the relevant entries. *)
Definition collectionSize (mods : Dict ModEx) : Z :=
  fold_left (fun prev m => if relevant m then (prev + Js.orZero (ex_fileSize m))%Z else prev)
    (dict_values mods) 0%Z.

(** References name mods by id. *)
Definition host : Externals :=
  {| INSTALLING_NOTIFICATION_ID := "installing-collection-";
     MOD_TYPE := "collection";
     findModByRef := fun ref mods => find (byId ref) mods;
     testModReference := fun m ref => byId ref m;
     renderModName := mod_id;
     modRuleId := fun rule => orElse (ref_id (rule_reference rule)) "";
     isRelevant := relevant;
     calculateCollectionSize := collectionSize;
     getUnfulfilledNotificationId := fun id => ("collection-incomplete-" ++ id)%string |}.

Definition refTo (id : string) : Reference :=
  mkReference (Some id) None None None None.

Definition rule (type id : string) : ModRule :=
  mkRule type (refTo id) None None None false.

Definition installedMod (id : string) (rules : list ModRule) : Mod :=
  mkMod id (Js.Val "installed") "" None (id ++ "-dir")%string (Some 100%Z)
    (Some true) None rules.

Definition collectionMod (id archive : string) (rules : list ModRule) : Mod :=
  mkMod id (Js.Val "installed") "collection" (Some archive) (id ++ "-dir")%string
    None None None rules.

Definition profile : Profile := mkProfile "profile1" "skyrimse".

(** No download metadata, no remote metadata, the walk of every install
    directory reports the single file [a.esp]. *)
Definition envWith (mods : list Mod) : Env :=
  {| persistent_mods := fun gameId =>
       if String.eqb gameId "skyrimse" then Some mods else None;
     download_modInfo := fun _ => None;
     download_received := fun _ => None;
     nexus_userId := None;
     getRevisionInfo := fun _ _ _ => Resolved None;
     getCollectionInfo := fun _ => None;
     getInstalledVersion := "1.6.640";
     versionDialogAction := "Continue";
     turbowalk := fun _ => Some [mkEntry "a.esp" false "0cc175b9"];
     withSuppressedTests := false;
     now := 0%Z |}.

(** The scenario of section 8: bundle B requires A (installed, with a
    manifest that matches its files) and C (missing) and recommends D
    (missing). *)
Definition ruleA : ModRule :=
  mkRule "requires" (refTo "A") (Some [("a.esp", "0cc175b9")]) None None false.
Definition ruleC : ModRule := rule "requires" "C".
Definition ruleD : ModRule := rule "recommends" "D".
Definition modA : Mod := installedMod "A" [].
Definition bundleB : Mod := collectionMod "B" "archiveB" [ruleA; ruleC; ruleD].
Definition envB : Env := envWith [modA; bundleB].

(** A bundle whose only rule names A with the right manifest but with
    installer choices other than those recorded for A. *)
Definition ruleAChoices : ModRule :=
  mkRule "requires" (refTo "A") (Some [("a.esp", "0cc175b9")])
    (Some (Js.VObj [("Textures", Js.VStr "2K")])) None false.
Definition bundleChoices : Mod := collectionMod "B" "archiveB" [ruleAChoices].

(** A bundle that requires A (fulfilled) and then E, which is installed
    with a file the manifest of its rule does not list. *)
Definition ruleE : ModRule :=
  mkRule "requires" (refTo "E") (Some [("e.esp", "92eb5ffe")]) None None false.
Definition modE : Mod := installedMod "E" [].
Definition bundleManifest : Mod := collectionMod "B" "archiveB" [ruleA; ruleE].

(** An empty bundle. *)
Definition bundleEmpty : Mod := collectionMod "B" "archiveB" [].

(** A session that installs [bundleB], in phase [s], with [installDone]
    as given. *)
Definition sessionIn (s : Step) (done : bool) : Driver :=
  {| mProfile := Some profile; mCollection := Some bundleB; mStep := s;
     mUpdateHandlers := [7]; mInstalledMods := [modA]; mRequiredMods := [ruleC];
     mInstallingMod := Some "c.7z"; mInstallDone := done;
     mCollectionInfo := None; mRevisionInfo := None; mTotalSize := Some 100%Z;
     mOnStop := true; mPrepare := 0 |}.

(** Another profile and bundle, for a second [start]. *)
Definition profile2 : Profile := mkProfile "profile2" "skyrimse".
Definition bundle2 : Mod := collectionMod "B2" "archiveB2" [ruleC].

(** An installed revision X that requires Y and Z, both installed as its
    dependencies; Z has a rule of its own that requires Y; the new
    revision N requires Z only. *)
Definition modY : Mod := installedMod "Y" [].
Definition modZ : Mod := installedMod "Z" [rule "requires" "Y"].
Definition oldRevision : Mod :=
  collectionMod "X" "archiveX" [rule "requires" "Y"; rule "requires" "Z"].
Definition newRevision : Mod := collectionMod "N" "archiveN" [rule "requires" "Z"].
Definition modsAfterUpdate : list Mod := [oldRevision; modY; modZ; newRevision].

(** The revision was made for game version 1.5.97; the download of the
    bundle carries the revision's metadata, and the user answers the
    version dialog with [Cancel]. *)
Definition revision : RevisionInfo :=
  mkRevisionInfo "rev42" 3 None ["1.5.97"] [] "link".

Definition envCancel : Env :=
  {| persistent_mods := persistent_mods envB;
     download_modInfo := fun _ =>
       Some (mkModInfo (Some (mkIds (Some "c1") (Some "slug") (Some 3%Z) (Some "rev42")))
               (Some revision) None None);
     download_received := fun _ => None;
     nexus_userId := None;
     getRevisionInfo := fun _ _ _ => Resolved None;
     getCollectionInfo := fun _ => None;
     getInstalledVersion := "1.6.640";
     versionDialogAction := "Cancel";
     turbowalk := turbowalk envB;
     withSuppressedTests := false;
     now := 0%Z |}.

(** The state [start] leaves for the scenario of section 8. *)
Definition startedB : Driver :=
  fieldsAfter (InstallDriver.start (ext := host) envB (Some profile) (Some bundleB))
    newDriver.

(** The state [start] leaves when the version dialog is cancelled. *)
Definition cancelledB : Driver :=
  fieldsAfter (InstallDriver.start (ext := host) envCancel (Some profile) (Some bundleB))
    newDriver.

(** The state [start] leaves for the empty bundle. *)
Definition envEmpty : Env := envWith [bundleEmpty].
Definition startedEmpty : Driver :=
  fieldsAfter (InstallDriver.start (ext := host) envEmpty (Some profile) (Some bundleEmpty))
    newDriver.

(** The host during an update of X to N: the new revision is published
    under the slug [slug], downloads and installs, the user answers
    [Remove All], and ['remove-mods'] calls back as given. *)
Definition publishedRevision : RevisionInfo :=
  mkRevisionInfo "rev43" 4 (Some (mkCollectionInfo "slug" "Sample collection" None))
    [] [] "link43".

Definition updateEnv (removed : Thrown unit) : UpdateEnv :=
  {| revisionReply := Returned (Some publishedRevision);
     resolveUrlReply := Returned (Some ["https://files.example/rev43.7z"]);
     startDownloadReply := Returned "download43";
     downloadFiles := [];
     modsBefore := Some [oldRevision; modY; modZ];
     installReply := Returned "N";
     modsAfter := modsAfterUpdate;
     removeDialogReply := Returned (mkDialogResult "Remove All" None);
     reviewDialogReply := Returned (mkDialogResult "Keep All" None);
     removeReply := removed |}.

Definition userCanceled : Error := mkError true "UserCanceled" None "canceled by user".

(** A is installed with two installer options; the rule names A, its
    manifest and the same two options, with the keys in the other order. *)
Definition modAOptions : Mod :=
  mkMod "A" (Js.Val "installed") "" None "A-dir" (Some 100%Z) (Some true)
    (Some (Js.VObj [("Meshes", Js.VStr "HD"); ("Textures", Js.VStr "2K")])) [].
Definition ruleAOptions : ModRule :=
  mkRule "requires" (refTo "A") (Some [("a.esp", "0cc175b9")])
    (Some (Js.VObj [("Textures", Js.VStr "2K"); ("Meshes", Js.VStr "HD")])) None false.

(** Two bundles in one store: S requires A (100 bytes, installed), L
    requires G (1000 bytes, installed).  S is started and cancelled, then
    L is queried: the total size is still the one computed for S. *)
Definition modG : Mod :=
  mkMod "G" (Js.Val "installed") "" None "G-dir" (Some 1000%Z) (Some true) None [].
Definition bundleS : Mod := collectionMod "S" "archiveS" [rule "requires" "A"].
Definition bundleL : Mod := collectionMod "L" "archiveL" [rule "requires" "G"].
Definition envSL : Env := envWith [modA; modG; bundleS; bundleL].
Definition queriedL : Driver :=
  fieldsAfter (InstallDriver.query envSL (Some profile) (Some bundleL))
    (fieldsAfter (InstallDriver.cancel (ext := host))
       (fieldsAfter (InstallDriver.start (ext := host) envSL (Some profile) (Some bundleS))
          newDriver)).

(** The host of [envB] when it offers [withSuppressedTests]. *)
Definition envSuppressing : Env :=
  {| persistent_mods := persistent_mods envB;
     download_modInfo := download_modInfo envB;
     download_received := download_received envB;
     nexus_userId := nexus_userId envB;
     getRevisionInfo := getRevisionInfo envB;
     getCollectionInfo := getCollectionInfo envB;
     getInstalledVersion := getInstalledVersion envB;
     versionDialogAction := versionDialogAction envB;
     turbowalk := turbowalk envB;
     withSuppressedTests := true;
     now := now envB |}.

(** The host during the update of X to N when the user answers
    [Keep All]. *)
Definition updateEnvKeep : UpdateEnv :=
  {| revisionReply := Returned (Some publishedRevision);
     resolveUrlReply := Returned (Some ["https://files.example/rev43.7z"]);
     startDownloadReply := Returned "download43";
     downloadFiles := [];
     modsBefore := Some [oldRevision; modY; modZ];
     installReply := Returned "N";
     modsAfter := modsAfterUpdate;
     removeDialogReply := Returned (mkDialogResult "Keep All" None);
     reviewDialogReply := Returned (mkDialogResult "Keep All" None);
     removeReply := Returned tt |}.

(** The host of [envB] with a user signed in. *)
Definition envMember : Env :=
  {| persistent_mods := persistent_mods envB;
     download_modInfo := download_modInfo envB;
     download_received := download_received envB;
     nexus_userId := Some 77%Z;
     getRevisionInfo := getRevisionInfo envB;
     getCollectionInfo := getCollectionInfo envB;
     getInstalledVersion := getInstalledVersion envB;
     versionDialogAction := versionDialogAction envB;
     turbowalk := turbowalk envB;
     withSuppressedTests := withSuppressedTests envB;
     now := 1700000000000%Z |}.

(** The host during an update when the archive of the new revision is
    among the downloads already: ['start-download'] fails with
    [AlreadyDownloaded]. *)
Definition alreadyDownloaded : Error :=
  mkError false "AlreadyDownloaded" (Some "Sample collection-rev4.7z") "file exists".

Definition updateEnvDownloaded : UpdateEnv :=
  {| revisionReply := Returned (Some publishedRevision);
     resolveUrlReply := Returned (Some ["https://files.example/rev43.7z"]);
     startDownloadReply := Threw alreadyDownloaded;
     downloadFiles := [("download7", Some "other.7z");
                       ("download43", Some "Sample collection-rev4.7z")];
     modsBefore := Some [oldRevision; modY; modZ];
     installReply := Returned "N";
     modsAfter := modsAfterUpdate;
     removeDialogReply := Returned (mkDialogResult "Remove All" None);
     reviewDialogReply := Returned (mkDialogResult "Keep All" None);
     removeReply := Returned tt |}.

(** The host during an update to a revision that still requires Y and Z. *)
Definition sameRevision : Mod :=
  collectionMod "N" "archiveN" [rule "requires" "Y"; rule "requires" "Z"].

Definition updateEnvSame : UpdateEnv :=
  {| revisionReply := Returned (Some publishedRevision);
     resolveUrlReply := Returned (Some ["https://files.example/rev43.7z"]);
     startDownloadReply := Returned "download43";
     downloadFiles := [];
     modsBefore := Some [oldRevision; modY; modZ];
     installReply := Returned "N";
     modsAfter := [oldRevision; modY; modZ; sameRevision];
     removeDialogReply := Returned (mkDialogResult "Remove All" None);
     reviewDialogReply := Returned (mkDialogResult "Keep All" None);
     removeReply := Returned tt |}.

End Sample.

(** ** Notions the properties are stated with *)

(** Two states of the driver hold the same session: every private field
    but the [mPrepare] chain agrees. *)
Definition sameSession (d d' : Driver) : Prop :=
  mProfile d' = mProfile d /\ mCollection d' = mCollection d
  /\ mStep d' = mStep d /\ mUpdateHandlers d' = mUpdateHandlers d
  /\ mInstalledMods d' = mInstalledMods d /\ mRequiredMods d' = mRequiredMods d
  /\ mInstallingMod d' = mInstallingMod d /\ mInstallDone d' = mInstallDone d
  /\ mCollectionInfo d' = mCollectionInfo d /\ mRevisionInfo d' = mRevisionInfo d
  /\ mTotalSize d' = mTotalSize d /\ mOnStop d' = mOnStop d.

(** [continue()] called [n] times in a row. *)
Fixpoint continueTimes {ext : Externals} (env : Env) (n : nat) : M unit :=
  match n with
  | O => ret tt
  | S k => bind (InstallDriver.continue env) (fun _ => continueTimes env k)
  end.

Definition isVersionDialog (e : Event) : bool :=
  match e with ShowVersionDialog _ _ => true | _ => false end.

(** The error notifications among the host calls of a run, with their
    titles. *)
Definition errorNotifications (t : list HostCall) : list (string * Error) :=
  flat_map (fun c => match c with
                     | ShowErrorNotification title err => [(title, err)]
                     | _ => []
                     end) t.

(** A computation that shows no error notification. *)
Definition quiet {A} (m : W A) : Prop := errorNotifications (snd m) = [].

(** The test the loop of [startImpl] applies to a [requires] rule before
    it pushes it: no installed mod matches the reference, or the rule lists
    files and the files found in the mod's directory differ from them. *)
Definition unfulfilled {ext : Externals} (env : Env) (mods : list Mod) (rule : ModRule)
    : bool :=
  match findModByRef (rule_reference rule) mods with
  | None => true
  | Some modByRef =>
      InstallDriver.hasFileList rule
      && match turbowalk env (mod_installationPath modByRef) with
         | Some entries =>
             negb (isEqual (InstallDriver.presentFiles entries)
                           (orElse (rule_fileList rule) []))
         | None => false
         end
  end.

(** [rule.type === 'requires']. *)
Definition isRequires (rule : ModRule) : bool :=
  String.eqb (rule_type rule) "requires".

(** [setPendingVote], among the host calls. *)
Definition isPendingVote (e : Event) : bool :=
  match e with Dispatch (setPendingVote _ _ _ _) => true | _ => false end.

(** A call of an observer, among the host calls. *)
Definition isUpdateCB (e : Event) : bool :=
  match e with UpdateCB _ => true | _ => false end.

(** The ['remove-mods'] requests among host calls. *)
Definition isRemoveMods (c : HostCall) : bool :=
  match c with RemoveMods _ _ => true | _ => false end.

(** The host with another answer to the review dialog. *)
Definition withReviewReply (reply : Thrown DialogResult) (env : UpdateEnv) : UpdateEnv :=
  mkUpdateEnv (revisionReply env) (resolveUrlReply env) (startDownloadReply env)
    (downloadFiles env) (modsBefore env) (installReply env) (modsAfter env)
    (removeDialogReply env) reply (removeReply env).

(** * Properties *)

(** ** Stepping through a method *)
Lemma after_nil {A} (r : A * Driver * list Event) : after [] r = r.
Proof. now destruct r as [[a d] t]. Qed.

Lemma after_app {A} t1 t2 (r : A * Driver * list Event) :
  after t1 (after t2 r) = after (t1 ++ t2) r.
Proof. unfold after. cbn [fst snd]. now rewrite app_assoc. Qed.

Lemma after_triple {A} t (a : A) d t' : after t (a, d, t') = (a, d, t ++ t').
Proof. reflexivity. Qed.

Lemma bind_ret {A B} (a : A) (k : A -> M B) d : bind (ret a) k d = k a d.
Proof. unfold bind, ret. cbn [fst snd]. apply (after_nil (k a d)). Qed.

Lemma bind_get {B} (k : Driver -> M B) d : bind get k d = k d d.
Proof. unfold bind, get. cbn [fst snd]. apply (after_nil (k d d)). Qed.

Lemma bind_modify {B} f (k : unit -> M B) d : bind (modify f) k d = k tt (f d).
Proof. unfold bind, modify. cbn [fst snd]. apply (after_nil (k tt (f d))). Qed.

Lemma bind_call {B} e (k : unit -> M B) d : bind (call e) k d = after [e] (k tt d).
Proof. reflexivity. Qed.

Lemma bind_calls {B} l (k : unit -> M B) d : bind (calls l) k d = after l (k tt d).
Proof. reflexivity. Qed.

Lemma bind_assoc {A B C} (m : M A) (f : A -> M B) (k : B -> M C) d :
  bind (bind m f) k d = bind m (fun x => bind (f x) k) d.
Proof. unfold bind. cbn [fst snd]. now rewrite app_assoc. Qed.

(** Runs the straight-line part of a method. *)
Ltac mstep :=
  repeat first
    [ rewrite bind_assoc | rewrite bind_get | rewrite bind_modify
    | rewrite bind_ret | rewrite bind_call | rewrite bind_calls
    | rewrite after_triple | rewrite after_app | rewrite after_nil ].

Section DriverFacts.
Context {ext : Externals}.
Import InstallDriver.
Local Open Scope driver_scope.

Lemma sameSession_refl d : sameSession d d.
Proof. repeat split. Qed.

Lemma sameSession_awaited d : sameSession d (set_mPrepare 0 d).
Proof. repeat split. Qed.

(** Running a method that bails out right after waiting for [mPrepare]. *)
Lemma awaitPrepare_then {A} (k : M A) d :
  (awaitPrepare ;; k) d = k (set_mPrepare 0 d).
Proof.
  unfold bind, awaitPrepare, modify. simpl.
  destruct (k (set_mPrepare 0 d)) as [[a d'] t]. reflexivity.
Qed.

Lemma start_without_archive env profile collection d :
  andThen collection mod_archiveId = None ->
  start env profile collection d = (tt, set_mPrepare 0 d, []).
Proof.
  intros Hnone. unfold start. rewrite awaitPrepare_then.
  destruct collection as [c|]; [|reflexivity].
  simpl in Hnone. rewrite Hnone. reflexivity.
Qed.

Lemma query_without_archive env profile collection d :
  andThen collection mod_archiveId = None ->
  query env profile collection d = (tt, set_mPrepare 0 d, []).
Proof.
  intros Hnone. unfold query. rewrite awaitPrepare_then.
  rewrite Hnone. reflexivity.
Qed.

(** C10: [query] and [start] called with a collection that is undefined or
    has no archiveId return at once: the session fields (phase included)
    stay as they are and no call reaches the host, so no notification is
    sent and no event emitted. *)
Theorem query_start_ignore_missing_archive env profile collection d :
  andThen collection mod_archiveId = None ->
  (sameSession d (fieldsAfter (query env profile collection) d)
   /\ hostCalls (query env profile collection) d = [])
  /\ (sameSession d (fieldsAfter (start env profile collection) d)
      /\ hostCalls (start env profile collection) d = []).
Proof.
  intros Hnone. unfold fieldsAfter, hostCalls.
  rewrite (query_without_archive env profile collection d Hnone).
  rewrite (start_without_archive env profile collection d Hnone).
  simpl. auto using sameSession_awaited.
Qed.

Lemma start_while_active env profile2 bundle2 d :
  mCollection d <> None -> mInstallDone d = false ->
  start env profile2 bundle2 d = (tt, set_mPrepare 0 d, [])
  \/ start env profile2 bundle2 d
     = (tt, set_mPrepare 0 d, [SendNotification (alreadyInstalling (Some 5000%Z))]).
Proof.
  intros Hactive Hbusy.
  destruct (andThen bundle2 mod_archiveId) as [a|] eqn:Harchive.
  - right. unfold start. rewrite awaitPrepare_then.
    destruct bundle2 as [c|]; [|discriminate]. simpl in Harchive. rewrite Harchive.
    unfold bind, get. simpl. rewrite Hbusy.
    destruct (mCollection d); [reflexivity | congruence].
  - left. now apply start_without_archive.
Qed.

(** C2: while a collection is set and [installDone] is false, [start] with
    another profile and bundle is turned down: phase, collection, profile,
    installed and required lists, total size and the other session fields
    are as before, and nothing asks the host to install dependencies. *)
Theorem start_rejected_while_active env profile2 bundle2 d :
  mCollection d <> None -> mInstallDone d = false ->
  sameSession d (fieldsAfter (start env profile2 bundle2) d)
  /\ filter isInstallDependencies (hostCalls (start env profile2 bundle2) d) = [].
Proof.
  intros Hactive Hbusy. unfold fieldsAfter, hostCalls.
  destruct (start_while_active env profile2 bundle2 d Hactive Hbusy) as [E|E];
    rewrite E; simpl; auto using sameSession_awaited.
Qed.

End DriverFacts.

Section PhaseFacts.
Context {ext : Externals}.
Import InstallDriver.
Local Open Scope driver_scope.

Lemma continue_blocked env d :
  canContinue d = false -> continue env d = (tt, d, []).
Proof.
  intros Hno. unfold continue, bind, get. simpl. rewrite Hno. reflexivity.
Qed.

Lemma canContinue_without_collection d :
  mCollection d = None -> canContinue d = false.
Proof. intros Hnone. unfold canContinue. now rewrite Hnone. Qed.

Lemma continueTimes_blocked env n d :
  canContinue d = false -> continueTimes env n d = (tt, d, []).
Proof.
  intros Hno. induction n as [|n IH]; [reflexivity|].
  simpl. unfold bind. rewrite (continue_blocked env d Hno). simpl.
  now rewrite IH.
Qed.

(** [initCollectionInfo] touches [mCollectionInfo] only and calls nothing. *)
Lemma initCollectionInfo_sets env d :
  exists info, initCollectionInfo env d = (tt, set_mCollectionInfo info d, []).
Proof.
  unfold initCollectionInfo, bind, get. simpl.
  destruct (andThen (mCollection d) mod_archiveId).
  - eexists. reflexivity.
  - exists (mCollectionInfo d). destruct d; reflexivity.
Qed.

(** One [continue()] in the review phase runs [close]. *)
Lemma continue_in_review env d :
  mStep d = Review -> andThen (mCollection d) mod_archiveId <> None ->
  continue env d
  = (tt,
     set_mInstallDone true
       (set_mCollection None (fieldsAfter (initCollectionInfo env) d)),
     map UpdateCB (mUpdateHandlers d) ++ map UpdateCB (mUpdateHandlers d)).
Proof.
  intros Hstep Harchive.
  assert (Hgo : canContinue d = true).
  { unfold canContinue. rewrite Hstep.
    destruct (mCollection d); [reflexivity | now elim Harchive]. }
  destruct (initCollectionInfo_sets env d) as [info Hinfo].
  unfold continue, fieldsAfter, bind, get. cbn [fst snd]. rewrite Hgo.
  destruct (andThen (mCollection d) mod_archiveId); [|now elim Harchive].
  cbn [andb isSome]. rewrite Hinfo. cbn [fst snd].
  change (mStep (set_mCollectionInfo info d)) with (mStep d). rewrite Hstep.
  simpl. now rewrite app_nil_r.
Qed.

Lemma continueTimes_succ env n d :
  fieldsAfter (continueTimes env (S n)) d
  = fieldsAfter (continueTimes env n) (fieldsAfter (continue env) d).
Proof. reflexivity. Qed.

(** In the review phase [continue()] either does nothing or closes. *)
Lemma continue_from_review env d :
  mStep d = Review ->
  fieldsAfter (continue env) d = d
  \/ (mCollection (fieldsAfter (continue env) d) = None
      /\ mInstallDone (fieldsAfter (continue env) d) = true
      /\ mStep (fieldsAfter (continue env) d) = Review).
Proof.
  intros Hstep. destruct (canContinue d) eqn:Hgo.
  - destruct (andThen (mCollection d) mod_archiveId) as [a|] eqn:Harchive.
    + right. unfold fieldsAfter at 1 2 3.
      rewrite continue_in_review by (congruence || assumption). cbn [fst snd].
      destruct (initCollectionInfo_sets env d) as [info Hinfo].
      unfold fieldsAfter. rewrite Hinfo. cbn [fst snd]. auto.
    + left. unfold fieldsAfter, continue, bind, get. cbn [fst snd].
      rewrite Hgo, Harchive. reflexivity.
  - left. unfold fieldsAfter. now rewrite continue_blocked.
Qed.

Lemma review_stays env d n :
  mStep d = Review -> mStep (fieldsAfter (continueTimes env n) d) = Review.
Proof.
  intros Hstep. induction n as [|n IH]; [exact Hstep|].
  rewrite continueTimes_succ.
  destruct (continue_from_review env d Hstep) as [Hsame | (Hnone & _ & Hrev)].
  - now rewrite Hsame.
  - unfold fieldsAfter at 1.
    rewrite continueTimes_blocked by (now apply canContinue_without_collection).
    exact Hrev.
Qed.

(** C6, as the code has it: [continue()] while [canContinue()] is false
    changes no field and calls nothing on the host; in the review phase,
    with a collection that has an archive set, one [continue()] clears the
    collection and sets [installDone], the phase stays [review], and every
    further [continue()] is without effect. *)
Theorem continue_blocked_or_closing env d :
  (canContinue d = false -> continue env d = (tt, d, []))
  /\ (mStep d = Review -> andThen (mCollection d) mod_archiveId <> None ->
      let d1 := fieldsAfter (continue env) d in
      mCollection d1 = None /\ mInstallDone d1 = true /\ mStep d1 = Review
      /\ forall env' n, continueTimes env' n d1 = (tt, d1, [])).
Proof.
  split; [apply continue_blocked|].
  intros Hstep Harchive d1.
  assert (Hd1 : mCollection d1 = None /\ mInstallDone d1 = true /\ mStep d1 = Review).
  { subst d1. unfold fieldsAfter at 1 2 3.
    rewrite (continue_in_review env d Hstep Harchive). cbn [fst snd].
    destruct (initCollectionInfo_sets env d) as [info Hinfo].
    unfold fieldsAfter. rewrite Hinfo. cbn [fst snd]. auto. }
  destruct Hd1 as (Hnone & Hdone & Hrev). repeat split; try assumption.
  intros env' n. apply continueTimes_blocked.
  now apply canContinue_without_collection.
Qed.

(** The fields cleared by [onStop]. *)
Lemma onStop_run d :
  onStop d
  = (tt,
     set_mOnStop false
       (set_mStep Prepare
          (set_mInstalledMods [] (set_mProfile None (set_mCollection None d)))),
     match mCollection d with
     | Some c => [DismissNotification (INSTALLING_NOTIFICATION_ID ++ mod_id c)%string]
     | None => []
     end
     ++ (if mOnStop d then [SuppressedTestsReleased] else [])).
Proof.
  unfold onStop. rewrite bind_get.
  destruct d as [p c s h im rm ing done ci ri ts stop pr].
  destruct c as [c|]; destruct stop; mstep; reflexivity.
Qed.

(** C8, as the code has it: from every state [cancel()] dismisses the
    progress notification of the collection that is set, clears collection,
    profile and installed mods, puts the phase back to [prepare], releases
    the suppressed tests when [startInstall] had requested them and calls
    the registered observers; the required rules, the installing marker,
    [installDone], the total size and the cached metadata stay as they
    were. *)
Theorem cancel_tears_down d :
  let d' := fieldsAfter cancel d in
  (mCollection d' = None /\ mProfile d' = None /\ mStep d' = Prepare
   /\ mInstalledMods d' = [] /\ mOnStop d' = false)
  /\ (mRequiredMods d' = mRequiredMods d /\ mInstallingMod d' = mInstallingMod d
      /\ mInstallDone d' = mInstallDone d /\ mTotalSize d' = mTotalSize d
      /\ mCollectionInfo d' = mCollectionInfo d /\ mRevisionInfo d' = mRevisionInfo d
      /\ mUpdateHandlers d' = mUpdateHandlers d)
  /\ hostCalls cancel d
     = match mCollection d with
       | Some c => [DismissNotification (INSTALLING_NOTIFICATION_ID ++ mod_id c)%string]
       | None => []
       end
       ++ (if mOnStop d then [SuppressedTestsReleased] else [])
       ++ map UpdateCB (mUpdateHandlers d).
Proof.
  assert (Hrun : cancel d
    = (tt,
       set_mOnStop false
         (set_mStep Prepare
            (set_mInstalledMods [] (set_mProfile None (set_mCollection None d)))),
       (match mCollection d with
        | Some c => [DismissNotification (INSTALLING_NOTIFICATION_ID ++ mod_id c)%string]
        | None => []
        end
        ++ (if mOnStop d then [SuppressedTestsReleased] else []))
       ++ map UpdateCB (mUpdateHandlers d))).
  { unfold cancel, bind. rewrite onStop_run. reflexivity. }
  unfold fieldsAfter, hostCalls. rewrite Hrun. cbn [fst snd].
  rewrite <- app_assoc. repeat split; reflexivity.
Qed.

(** The host calls of the second half of [startImpl]. *)
Lemma startImplInstall_calls env profile collection mods d :
  exists n l,
    hostCalls (startImplInstall env profile collection mods) d
    = [EmitViewCollection (mod_id collection); SendNotification n; BatchDispatch l;
       DismissNotification (getUnfulfilledNotificationId (mod_id collection));
       Dispatch (setModEnabled (profile_id profile) (mod_id collection) true)].
Proof.
  unfold hostCalls, startImplInstall, updateProgress, augmentRules. mstep.
  destruct (mTotalSize d); mstep;
    destruct (requiredLoop env mods (mod_rules collection) []) as [required|b|];
    mstep; try destruct (List.length required =? 0)%nat; mstep;
    cbn [snd app]; eexists; eexists; reflexivity.
Qed.

Lemma startImplInstall_no_dialog env profile collection mods d :
  existsb isVersionDialog (snd (startImplInstall env profile collection mods d))
  = false.
Proof.
  destruct (startImplInstall_calls env profile collection mods d) as (n & l & E).
  unfold hostCalls in E. now rewrite E.
Qed.

Lemma hostCalls_after {A} t (r : A * Driver * list Event) :
  snd (after t r) = t ++ snd r.
Proof. reflexivity. Qed.

(** What [startImpl] leaves behind when the version dialog was shown and
    answered with [Cancel]. *)
Lemma startImpl_cancelled env d :
  existsb isVersionDialog (hostCalls (startImpl env) d) = true ->
  versionDialogAction env = "Cancel" ->
  let d' := fieldsAfter (startImpl env) d in
  result (startImpl env) d = RetBool false
  /\ mInstallDone d' = true /\ mStep d' = Start
  /\ mCollection d' = mCollection d /\ mProfile d' = mProfile d
  /\ mInstalledMods d' = [] /\ mRequiredMods d' = mRequiredMods d
  /\ filter isInstallDependencies (hostCalls (startImpl env) d) = [].
Proof.
  intros Hdialog Hcancel. unfold hostCalls, fieldsAfter, result in *.
  revert Hdialog. unfold startImpl. rewrite bind_get.
  destruct (mCollection d) as [collection|] eqn:Hcollection; [|discriminate].
  destruct (mProfile d) as [profile|] eqn:Hprofile; [|discriminate].
  destruct (mod_archiveId collection) as [archive|]; [|discriminate].
  mstep.
  destruct (revisionId env d) as [rid|];
    [destruct (andThen (modInfoOf env d) nexus_revisionInfo) as [r|];
       [|destruct (getRevisionInfo env rid (collectionSlug env d) (revisionNumber env d))
           as [r|msg]]|];
    mstep.
  all: match goal with
       | |- context [optZ_eqb ?a ?b] => destruct (optZ_eqb a b)
       end; mstep.
  all: match goal with
       | |- context [versionMismatch ?a ?b] => destruct (versionMismatch a b)
       end; mstep.
  all: rewrite ?Hcancel; cbn [String.eqb Ascii.eqb Bool.eqb]; mstep.
  all: rewrite ?hostCalls_after, ?existsb_app, ?startImplInstall_no_dialog.
  all: cbn; intros; repeat split; reflexivity || assumption || discriminate.
Qed.

Lemma startInstall_run env d :
  startInstall env d
  = after (if withSuppressedTests env
           then [WithSuppressedTests ["plugins-changed"]] else [])
      (startImpl env (if withSuppressedTests env then set_mOnStop true d else d)).
Proof.
  unfold startInstall. destruct (withSuppressedTests env); mstep; reflexivity.
Qed.

(** C5, as the code has it: when [startInstall] shows the version dialog
    and the answer is [Cancel], it returns [false] with [installDone] set;
    the phase is [start] (it was set before the check and is not put back),
    collection and profile stay set, the list of installed mods is empty,
    the required rules are untouched, and [startInstall] asks for no
    dependency installation. *)
Theorem version_cancel_leaves_start env d :
  existsb isVersionDialog (hostCalls (startInstall env) d) = true ->
  versionDialogAction env = "Cancel" ->
  let d' := fieldsAfter (startInstall env) d in
  result (startInstall env) d = RetBool false
  /\ mInstallDone d' = true /\ mStep d' = Start
  /\ mCollection d' = mCollection d /\ mProfile d' = mProfile d
  /\ mInstalledMods d' = [] /\ mRequiredMods d' = mRequiredMods d
  /\ filter isInstallDependencies (hostCalls (startInstall env) d) = [].
Proof.
  unfold hostCalls, fieldsAfter, result. rewrite startInstall_run.
  intros Hdialog Hcancel. rewrite hostCalls_after in Hdialog.
  assert (Hshown : existsb isVersionDialog
                     (hostCalls (startImpl env)
                        (if withSuppressedTests env then set_mOnStop true d else d))
                   = true).
  { unfold hostCalls. destruct (withSuppressedTests env); exact Hdialog. }
  pose proof (startImpl_cancelled env _ Hshown Hcancel) as Himpl.
  unfold hostCalls, fieldsAfter, result in Himpl.
  rewrite hostCalls_after, filter_app.
  destruct (withSuppressedTests env); exact Himpl.
Qed.

(** *** Progress *)

Lemma div_by_zero_not_finite a :
  Js.isFinite (Js.div (Js.Fin a) (Js.ofZ 0)) = false.
Proof.
  unfold Js.div, Js.ofZ, Js.sgn, Js.signed_inf. cbn [inject_Z Qnum Z.sgn Z.eqb].
  destruct (Z.sgn (Qnum a) =? 0)%Z; [reflexivity|].
  now destruct (Z.sgn (Qnum a) <? 0)%Z.
Qed.

Lemma add_not_finite_l x y :
  Js.isFinite x = false -> Js.isFinite (Js.add x y) = false.
Proof. destruct x, y; cbn; congruence. Qed.

Lemma add_not_finite_r x y :
  Js.isFinite y = false -> Js.isFinite (Js.add x y) = false.
Proof. destruct x, y; cbn; congruence. Qed.

Lemma mul_not_finite_l x q :
  Js.isFinite x = false -> Js.isFinite (Js.mul x (Js.Fin q)) = false.
Proof.
  destruct x; cbn; try congruence; intros _;
    destruct (Js.sgn q =? 0)%Z; try reflexivity;
    unfold Js.signed_inf;
    match goal with |- context [(?s <? 0)%Z] => now destruct (s <? 0)%Z end.
Qed.

(** A quotient of integers with a divisor other than 0, as a JavaScript
    number. *)
Lemma div_nonzero a b :
  b <> 0%Z -> Js.div (Js.ofZ a) (Js.ofZ b) = Js.Fin (inject_Z a / inject_Z b).
Proof.
  intros Hb. unfold Js.div, Js.ofZ, Js.sgn. cbn [inject_Z Qnum].
  destruct (Z.eqb_spec (Z.sgn b) 0) as [E|_]; [|reflexivity].
  apply -> Z.sgn_null_iff in E. contradiction.
Qed.

Lemma div_by_NaN a : Js.div (Js.ofZ a) Js.NaN = Js.NaN.
Proof. reflexivity. Qed.

(** C3, as the code has it: [installProgress] divides without a guard.
    With a total size other than 0 and a relevant set that is not empty
    it returns exactly
    [(downloadProgress / mTotalSize + installed / relevant) * 50], a
    number that lies between 0 and 100 if and only if the two fractions
    add up to a number between 0 and 2, which nothing in the method
    enforces.  With a total size that is undefined or 0, or with an empty
    relevant set, the result is NaN or infinite. *)
Theorem installProgress_unguarded env d profile collection :
  let mods := dict_values (getModsEx env d profile collection) in
  let bytes := downloadProgress env mods in
  let installed := Z.of_nat (List.length (installedMods mods)) in
  let relevant := Z.of_nat (List.length (totalMods mods)) in
  (forall t, mTotalSize d = Some t -> t <> 0%Z -> relevant <> 0%Z ->
     installProgress env d profile collection
     = Js.Fin ((inject_Z bytes / inject_Z t + inject_Z installed / inject_Z relevant) * 50)
     /\ (Js.between 0 100 (installProgress env d profile collection)
         <-> (0 <= inject_Z bytes / inject_Z t + inject_Z installed / inject_Z relevant
              /\ inject_Z bytes / inject_Z t + inject_Z installed / inject_Z relevant <= 2)%Q))
  /\ (mTotalSize d = None \/ mTotalSize d = Some 0%Z \/ relevant = 0%Z ->
      Js.isFinite (installProgress env d profile collection) = false).
Proof.
  intros mods bytes installed relevant. unfold installProgress. fold mods. split.
  - intros t Htotal Hsize Hrelevant.
    unfold totalSizeNumber, Js.ofNat. rewrite Htotal.
    fold bytes. fold installed. fold relevant.
    rewrite !div_nonzero by assumption. cbn [Js.add Js.mul Js.between].
    split; [reflexivity|].
    set (x := (inject_Z bytes / inject_Z t + inject_Z installed / inject_Z relevant)%Q).
    split; intros [Hlow Hhigh]; split; lra.
  - intros [Hnone | [Hzero | Hempty]]; apply mul_not_finite_l.
    + apply add_not_finite_l. unfold totalSizeNumber. rewrite Hnone.
      now rewrite div_by_NaN.
    + apply add_not_finite_l. unfold totalSizeNumber. rewrite Hzero.
      apply div_by_zero_not_finite.
    + apply add_not_finite_r. unfold Js.ofNat. fold relevant. rewrite Hempty.
      apply div_by_zero_not_finite.
Qed.

End PhaseFacts.

(** ** [_.isEqual] on installer options *)

Lemma isEqual_objects fs gs :
  Js.isEqual (Js.VObj fs) (Js.VObj gs)
  = Nat.eqb (List.length fs) (List.length gs)
    && forallb (fun kv => match Js.field (fst kv) gs with
                          | Some w => Js.isEqual (snd kv) w
                          | None => false
                          end) fs.
Proof.
  cbn [Js.isEqual]. f_equal.
  induction fs as [|[k v] fs IH]; [reflexivity|].
  cbn [forallb fst snd]. now rewrite <- IH.
Qed.

Lemma field_permutation k gs gs' :
  NoDup (map fst gs) -> Permutation gs gs' -> Js.field k gs = Js.field k gs'.
Proof.
  intros Hkeys Hperm.
  induction Hperm as [|[k0 v0] l l' Hperm IH|[k1 v1] [k2 v2] l|l l' l'' H1 IH1 H2 IH2].
  - reflexivity.
  - unfold Js.field in *. cbn [find fst]. destruct (String.eqb k0 k); [reflexivity|].
    apply IH. now inversion Hkeys.
  - unfold Js.field. cbn [find fst].
    destruct (String.eqb_spec k1 k) as [E1|_], (String.eqb_spec k2 k) as [E2|_];
      try reflexivity.
    subst. inversion Hkeys as [|? ? Hnotin _]. elim Hnotin. now left.
  - rewrite IH1 by assumption. apply IH2.
    apply (Permutation_NoDup (l := map fst l)); [now apply Permutation_map | assumption].
Qed.

Lemma forallb_permutation {A} (f : A -> bool) l l' :
  Permutation l l' -> forallb f l = forallb f l'.
Proof.
  induction 1 as [|x l l' _ IH|x y l|l l' l'' _ IH1 _ IH2]; cbn.
  - reflexivity.
  - now rewrite IH.
  - now destruct (f x), (f y).
  - now rewrite IH1.
Qed.

(** The comparison of two objects does not depend on the order in which
    the keys of either were inserted. *)
Lemma isEqual_key_order fs fs' gs gs' :
  NoDup (map fst gs) -> Permutation fs fs' -> Permutation gs gs' ->
  Js.isEqual (Js.VObj fs) (Js.VObj gs) = Js.isEqual (Js.VObj fs') (Js.VObj gs').
Proof.
  intros Hkeys Hfs Hgs. rewrite !isEqual_objects.
  rewrite (Permutation_length Hfs), (Permutation_length Hgs). f_equal.
  rewrite (forallb_permutation _ _ _ Hfs). clear Hfs.
  induction fs' as [|[k v] fs' IH]; [reflexivity|].
  cbn [forallb fst snd]. now rewrite IH, (field_permutation k gs gs' Hkeys Hgs).
Qed.

(** An array and an object are never equal, whatever they hold, and two
    arrays are compared index by index. *)
Lemma isEqual_arrays xs ys fs :
  Js.isEqual (Js.VArr xs) (Js.VObj fs) = false
  /\ Js.isEqual (Js.VObj fs) (Js.VArr xs) = false
  /\ (Js.isEqual (Js.VArr xs) (Js.VArr ys) = true ->
      List.length xs = List.length ys
      /\ forall i x y, nth_error xs i = Some x -> nth_error ys i = Some y ->
                       Js.isEqual x y = true).
Proof.
  refine (conj eq_refl (conj eq_refl _)). cbn [Js.isEqual].
  revert ys. induction xs as [|x xs IH]; intros [|y ys] Heq; try discriminate.
  - split; [reflexivity|]. now intros [|i].
  - apply andb_prop in Heq as [Hhead Htail]. destruct (IH _ Htail) as [Hlen Hnth].
    split; [cbn; now rewrite Hlen|].
    intros [|i] x' y'; cbn; [intros [= <-] [= <-]; exact Hhead | apply Hnth].
Qed.

(** A rule without options is compared as the empty object: it matches a
    mod without options or with an empty object of options, and no mod
    with an option, an array or anything else. *)
Lemma installerChoicesMatch_without_options rule modByRef :
  rule_installerChoices rule = None \/ rule_installerChoices rule = Some Js.VNull ->
  InstallDriver.installerChoicesMatch rule modByRef
  = match mod_installerChoices modByRef with
    | None | Some Js.VNull | Some (Js.VObj []) => true
    | Some _ => false
    end.
Proof.
  unfold InstallDriver.installerChoicesMatch.
  intros [-> | ->]; cbn [Js.orEmptyObject];
    destruct (mod_installerChoices modByRef) as [[| | | | |[|f fs]]|]; reflexivity.
Qed.

(** ** The loop over the rules in [startImpl] *)
Section LoopFacts.
Context {ext : Externals}.
Import InstallDriver.

(** One turn of the loop on a [requires] rule that fails the test. *)
Lemma requiredLoop_push env mods rule rest required :
  isRequires rule = true -> unfulfilled env mods rule = true ->
  requiredLoop env mods (rule :: rest) required
  = requiredLoop env mods rest (required ++ [rule]).
Proof.
  unfold isRequires, unfulfilled. intros Hreq Hun. cbn [requiredLoop].
  rewrite Hreq. cbn [negb].
  destruct (findModByRef (rule_reference rule) mods) as [modByRef|]; [|reflexivity].
  destruct (hasFileList rule); [|discriminate].
  destruct (turbowalk env (mod_installationPath modByRef)) as [entries|]; [|discriminate].
  cbn [andb] in Hun. now rewrite Hun.
Qed.

Lemma requiredLoop_skip env mods rule rest required :
  isRequires rule = false ->
  requiredLoop env mods (rule :: rest) required = requiredLoop env mods rest required.
Proof.
  unfold isRequires. intros Hreq. cbn [requiredLoop]. now rewrite Hreq.
Qed.

(** X1: when no [requires] rule of the collection is fulfilled, the loop
    runs to its end and has collected exactly the [requires] rules, in
    order. *)
Theorem requiredLoop_collects_unfulfilled env mods rules required :
  (forall rule, In rule rules -> isRequires rule = true ->
                unfulfilled env mods rule = true) ->
  requiredLoop env mods rules required = LoopDone (required ++ filter isRequires rules).
Proof.
  revert required. induction rules as [|rule rest IH]; intros required Hall.
  - cbn. now rewrite app_nil_r.
  - destruct (isRequires rule) eqn:Hreq.
    + rewrite requiredLoop_push by (auto using in_eq).
      rewrite IH by (intros r Hr; apply Hall; now right).
      cbn [filter]. rewrite Hreq. now rewrite <- app_assoc.
    + rewrite requiredLoop_skip by assumption.
      rewrite IH by (intros r Hr; apply Hall; now right).
      cbn [filter]. now rewrite Hreq.
Qed.

(** X2: the first [requires] rule that is found installed and passes the
    file check ends [startImpl]: the loop returns whether the installer
    options of the rule and of the mod differ under [_.isEqual], and the
    rules collected before it are dropped. *)
Theorem requiredLoop_returns_at_fulfilled env mods before rule rest required modByRef :
  (forall r, In r before -> isRequires r = true -> unfulfilled env mods r = true) ->
  isRequires rule = true ->
  findModByRef (rule_reference rule) mods = Some modByRef ->
  (hasFileList rule = false
   \/ exists entries,
        turbowalk env (mod_installationPath modByRef) = Some entries
        /\ isEqual (presentFiles entries) (orElse (rule_fileList rule) []) = true) ->
  requiredLoop env mods (before ++ rule :: rest) required
  = LoopReturned (negb (installerChoicesMatch rule modByRef)).
Proof.
  revert required. induction before as [|r before IH]; intros required Hall Hreq Hfound Hfiles.
  - cbn [app requiredLoop]. unfold isRequires in Hreq. rewrite Hreq, Hfound. cbn [negb].
    destruct Hfiles as [Hno | (entries & Hwalk & Heq)].
    + now rewrite Hno.
    + rewrite Hwalk, Heq. now destruct (hasFileList rule).
  - cbn [app]. destruct (isRequires r) eqn:Hr.
    + rewrite requiredLoop_push by (auto using in_eq).
      apply IH; auto. intros r' Hr'. apply Hall. now right.
    + rewrite requiredLoop_skip by assumption.
      apply IH; auto. intros r' Hr'. apply Hall. now right.
Qed.

(** X3: [mRequiredMods] is assigned only when the loop ran to its end;
    when the loop returned, the field keeps its value and [startImpl]
    hands the loop's boolean to its caller. *)
Theorem startImplInstall_required_rules env profile collection mods d :
  let d' := fieldsAfter (startImplInstall env profile collection mods) d in
  let res := result (startImplInstall env profile collection mods) d in
  match requiredLoop env mods (mod_rules collection) [] with
  | LoopDone required => mRequiredMods d' = required /\ res = RetUndefined
  | LoopReturned b => mRequiredMods d' = mRequiredMods d /\ res = RetBool b
  | LoopStuck => mRequiredMods d' = mRequiredMods d /\ res = NeverSettles
  end.
Proof.
  unfold fieldsAfter, result, startImplInstall, updateProgress, augmentRules. mstep.
  destruct (mTotalSize d); mstep;
    destruct (requiredLoop env mods (mod_rules collection) []) as [required|b|];
    mstep; try destruct (List.length required =? 0)%nat; mstep;
    cbn; split; reflexivity.
Qed.

End LoopFacts.

(** ** Facts about the revision update *)

Section UpdateFacts.
Context {ext : Externals}.
Import EventHandlers.
Local Open Scope workflow_scope.

Lemma find_none_iff {A} (f : A -> bool) l :
  find f l = None <-> forall x, In x l -> f x = false.
Proof.
  split; [apply find_none|].
  induction l as [|a l IH]; intros Hall; [reflexivity|].
  cbn. rewrite (Hall a (or_introl eq_refl)). apply IH.
  intros x Hx. apply Hall. now right.
Qed.

Lemma In_notCandidates oldRules mods oldModId newModId Z :
  In Z (notCandidates oldRules mods oldModId newModId)
  <-> In Z mods /\ includesMod (candidates oldRules mods) Z = false
      /\ mod_id Z <> oldModId /\ mod_id Z <> newModId.
Proof.
  unfold notCandidates. rewrite filter_In, andb_true_iff, !negb_true_iff, orb_false_iff.
  rewrite !String.eqb_neq. intuition congruence.
Qed.

Lemma In_obsoleteOf newRules cands others Y :
  In Y (obsoleteOf newRules cands others)
  <-> In Y cands /\ references newRules Y = false
      /\ forall Z, In Z others -> references (mod_rules Z) Y = false.
Proof.
  unfold obsoleteOf. rewrite !filter_In, !negb_true_iff.
  rewrite <- (find_none_iff (fun other => references (mod_rules other) Y) others).
  destruct (find (fun other => references (mod_rules other) Y) others);
    cbn; intuition congruence.
Qed.

(** With a candidate around and the new mod in the store, [obsolete] is
    the filtered list. *)
Lemma obsolete_returns oldRules mods oldModId newModId newMod Y :
  In Y (candidates oldRules mods) ->
  modById mods newModId = Some newMod ->
  obsolete oldRules mods oldModId newModId
  = Returned (obsoleteOf (mod_rules newMod) (candidates oldRules mods)
                (notCandidates oldRules mods oldModId newModId)).
Proof.
  intros HY Hnew. unfold obsolete. rewrite Hnew.
  destruct (candidates oldRules mods); [contradiction | reflexivity].
Qed.

(** C7, as the code has it: a former dependency Y of the old revision that
    was installed as a dependency is obsolete exactly when the rules of the
    new revision do not reference it and no installed mod other than the
    candidates and the old and new revisions references it; so Y is not
    obsolete when some installed mod Z references it, provided Z is neither
    a candidate itself nor the old or the new revision. *)
Theorem obsolete_characterised oldRules mods oldModId newModId newMod Y :
  In Y (candidates oldRules mods) ->
  modById mods newModId = Some newMod ->
  exists obs,
    obsolete oldRules mods oldModId newModId = Returned obs
    /\ (In Y obs <->
        references (mod_rules newMod) Y = false
        /\ forall Z, In Z mods ->
             includesMod (candidates oldRules mods) Z = false ->
             mod_id Z <> oldModId -> mod_id Z <> newModId ->
             references (mod_rules Z) Y = false)
    /\ (forall Z, In Z mods ->
          includesMod (candidates oldRules mods) Z = false ->
          mod_id Z <> oldModId -> mod_id Z <> newModId ->
          references (mod_rules Z) Y = true -> ~ In Y obs).
Proof.
  intros HY Hnew. eexists. split; [now apply (obsolete_returns _ _ _ _ newMod Y)|].
  assert (Hiff : In Y (obsoleteOf (mod_rules newMod) (candidates oldRules mods)
                         (notCandidates oldRules mods oldModId newModId))
                 <-> references (mod_rules newMod) Y = false
                     /\ forall Z, In Z mods ->
                          includesMod (candidates oldRules mods) Z = false ->
                          mod_id Z <> oldModId -> mod_id Z <> newModId ->
                          references (mod_rules Z) Y = false).
  { rewrite In_obsoleteOf. split.
    - intros (_ & Hnewrules & Hothers). split; [exact Hnewrules|].
      intros Z HZ Hnc Hold Hnw. apply Hothers. now apply In_notCandidates.
    - intros (Hnewrules & Hothers). repeat split; try assumption.
      intros Z HZ. apply In_notCandidates in HZ as (HZ & Hnc & Hold & Hnw).
      now apply Hothers. }
  split; [exact Hiff|].
  intros Z HZ Hnc Hold Hnw Href Hobs. apply Hiff in Hobs as (_ & Hothers).
  rewrite (Hothers Z HZ Hnc Hold Hnw) in Href. discriminate.
Qed.

Lemma errorNotifications_app t1 t2 :
  errorNotifications (t1 ++ t2) = errorNotifications t1 ++ errorNotifications t2.
Proof. apply flat_map_app. Qed.

Lemma quiet_wret {A} (a : A) : quiet (wret a).
Proof. reflexivity. Qed.

Lemma quiet_throw {A} e : quiet (@throw A e).
Proof. reflexivity. Qed.

Lemma quiet_await {A} (reply : Thrown A) : quiet (await reply).
Proof. reflexivity. Qed.

Lemma quiet_wbind {A B} (m : W A) (k : A -> W B) :
  quiet m -> (forall a, quiet (k a)) -> quiet (wbind m k).
Proof.
  unfold quiet, wbind. intros Hm Hk. destruct m as [[a|e] t]; [|exact Hm].
  specialize (Hk a). destruct (k a) as [r t']. cbn [snd] in *.
  now rewrite errorNotifications_app, Hm, Hk.
Qed.

Lemma quiet_tryCatch {A} (m : W A) (handler : Error -> W A) :
  quiet m -> (forall e, quiet (handler e)) -> quiet (tryCatch m handler).
Proof.
  unfold quiet, tryCatch. intros Hm Hh. destruct m as [[a|e] t]; [exact Hm|].
  specialize (Hh e). destruct (handler e) as [r t']. cbn [snd] in *.
  now rewrite errorNotifications_app, Hm, Hh.
Qed.

(** Walks through a workflow whose host calls are spelled out. *)
Ltac quiet_walk :=
  repeat first
    [ apply quiet_wret | apply quiet_throw | apply quiet_await
    | reflexivity
    | apply quiet_wbind; [|intros]
    | apply quiet_tryCatch; [|intros]
    | match goal with
      | |- quiet (match ?x with _ => _ end) => destruct x
      | |- quiet (if ?b then _ else _) => destruct b
      end ].

(** Nothing inside the [try] block shows an error notification. *)
Lemma collectionUpdateBody_quiet env gameId collectionSlug revisionNumber oldModId :
  quiet (collectionUpdateBody env gameId collectionSlug revisionNumber oldModId).
Proof.
  unfold collectionUpdateBody, startDownload, askAboutObsolete. quiet_walk.
Qed.

(** [collectionUpdate] never throws: its [catch] handles every error. *)
Lemma collectionUpdate_returns env gameId collectionSlug revisionNumber oldModId :
  fst (collectionUpdate env gameId collectionSlug revisionNumber oldModId) = Returned tt.
Proof.
  unfold collectionUpdate, tryCatch.
  destruct (collectionUpdateBody env gameId collectionSlug revisionNumber oldModId)
    as [[[]|err] t]; [reflexivity|].
  now destruct (err_isUserCanceled err).
Qed.

(** C9: whatever the host answers, a run of the update workflow that
    throws anything but a user cancellation shows exactly one error
    notification, titled "Failed to download collection" and carrying the
    error; a run that ends normally or is cancelled by the user shows none.
    The handler registered by [onCollectionUpdate] adds nothing to that. *)
Theorem update_errors_notified_once env gameId collectionSlug revisionNumber oldModId :
  let body := collectionUpdateBody env gameId collectionSlug revisionNumber oldModId in
  let expected := match fst body with
                  | Threw err =>
                      if err_isUserCanceled err
                      then []
                      else [("Failed to download collection", err)]
                  | Returned _ => []
                  end in
  errorNotifications
    (snd (collectionUpdate env gameId collectionSlug revisionNumber oldModId))
  = expected
  /\ forall d,
       errorNotifications
         (snd (onCollectionUpdate env gameId collectionSlug (Some revisionNumber)
                 "nexus" oldModId d))
       = expected.
Proof.
  intros body expected.
  assert (Hrun : errorNotifications
                   (snd (collectionUpdate env gameId collectionSlug revisionNumber oldModId))
                 = expected).
  { pose proof (collectionUpdateBody_quiet env gameId collectionSlug revisionNumber oldModId)
      as Hquiet.
    subst expected body. unfold collectionUpdate, tryCatch, quiet in *.
    destruct (collectionUpdateBody env gameId collectionSlug revisionNumber oldModId)
      as [[[]|err] t]; cbn [fst snd] in *; [exact Hquiet|].
    destruct (err_isUserCanceled err); cbn [wret hostCall snd];
      rewrite errorNotifications_app, Hquiet; reflexivity. }
  split; [exact Hrun|].
  intros d. unfold onCollectionUpdate. cbn [String.eqb Ascii.eqb Bool.eqb negb snd].
  pose proof (collectionUpdate_returns env gameId collectionSlug revisionNumber oldModId)
    as Hret.
  unfold tryCatch.
  destruct (collectionUpdate env gameId collectionSlug revisionNumber oldModId)
    as [[[]|err] t]; [exact Hrun | discriminate].
Qed.

End UpdateFacts.

(** ** Concrete runs on the sample host *)
Section Runs.
Import Sample.
Existing Instance host.
Import InstallDriver.

(** C1 on the code: in the scenario, the loop of [startImpl] meets rule A
    first, finds A installed with matching files, and returns from
    [startImpl]; the assignment to [mRequiredMods] is never reached, so the
    required rules are the empty list of the fresh driver and not [[C]].
    The phase is [start], and [continue()] then asks once for the
    dependencies of B. *)
Theorem scenario_required_rules_not_computed :
  requiredLoop envB [modA; bundleB] (mod_rules bundleB) [] = LoopReturned false
  /\ mRequiredMods startedB = []
  /\ mStep startedB = Start
  /\ hostCalls (continue envB) startedB
     = [EmitInstallDependencies "profile1" "skyrimse" ["B"] true]
  /\ mStep (fieldsAfter (continue envB) startedB) = Installing.
Proof.
  unfold startedB.
  repeat split; vm_compute; reflexivity.
Qed.

(** C4 on the code: a rule whose manifest matches but whose installer
    choices differ from those recorded for the mod is not pushed to the
    required rules, [startImpl] returns [true] instead; and a rule whose
    manifest does not match is lost again when a later fulfilled rule makes
    [startImpl] return, as is one that follows a fulfilled rule. *)
Theorem fulfilled_rule_leaves_startImpl :
  (installerChoicesMatch ruleAChoices modA = false
   /\ requiredLoop envB [modA; bundleChoices] [ruleAChoices] [] = LoopReturned true
   /\ mRequiredMods
        (fieldsAfter (start (envWith [modA; bundleChoices]) (Some profile)
                        (Some bundleChoices)) newDriver) = [])
  /\ (isEqual (presentFiles [mkEntry "a.esp" false "0cc175b9"])
              (orElse (rule_fileList ruleE) []) = false
      /\ requiredLoop envB [modA; modE] [ruleE; ruleA] [] = LoopReturned false
      /\ requiredLoop envB [modA; modE] [ruleA; ruleE] [] = LoopReturned false
      /\ mRequiredMods
           (fieldsAfter (start (envWith [modA; modE; bundleManifest]) (Some profile)
                           (Some bundleManifest)) newDriver) = []).
Proof.
  split.
  - repeat split; vm_compute; reflexivity.
  - repeat split; vm_compute; reflexivity.
Qed.

(** C2 at a sample state: a session for B is being installed when [start]
    is called for another bundle. *)
Lemma start_rejected_while_active_witness :
  (mCollection (sessionIn Installing false) <> None
   /\ mInstallDone (sessionIn Installing false) = false)
  /\ sameSession (sessionIn Installing false)
       (fieldsAfter (start envB (Some profile2) (Some bundle2)) (sessionIn Installing false))
  /\ filter isInstallDependencies
       (hostCalls (start envB (Some profile2) (Some bundle2)) (sessionIn Installing false))
     = [].
Proof.
  split.
  - split; [discriminate | reflexivity].
  - apply (start_rejected_while_active envB (Some profile2) (Some bundle2)
             (sessionIn Installing false)); [discriminate | reflexivity].
Defined.

(** C10 at a sample state: [query] and [start] without a collection. *)
Lemma query_start_ignore_missing_archive_witness :
  (sameSession (sessionIn Review true)
     (fieldsAfter (query envB (Some profile) None) (sessionIn Review true))
   /\ hostCalls (query envB (Some profile) None) (sessionIn Review true) = [])
  /\ (sameSession (sessionIn Review true)
        (fieldsAfter (start envB (Some profile) None) (sessionIn Review true))
      /\ hostCalls (start envB (Some profile) None) (sessionIn Review true) = []).
Proof.
  apply (query_start_ignore_missing_archive envB (Some profile) None
           (sessionIn Review true)).
  reflexivity.
Defined.

(** C3 refuted on the code, twice.  For the empty bundle, in the state
    [start] leaves (total size 0, nothing relevant), the progress is NaN,
    which is neither 0 nor any number between 0 and 100, and that is what
    the progress notification of [start] carries.  And after S was started
    and cancelled and L was queried, the total size is still the 100 bytes
    of S while the 1000 bytes of L are counted: a finished download then
    reports the progress (1000 / 100 + 1 / 1) * 50 = 550. *)
Lemma progress_outside_range :
  (mTotalSize startedEmpty = Some 0%Z
   /\ installProgress envEmpty startedEmpty (Some profile) bundleEmpty = Js.NaN
   /\ Js.NaN <> Js.Fin 0
   /\ ~ Js.between 0 100 (installProgress envEmpty startedEmpty (Some profile) bundleEmpty)
   /\ In (SendNotification
            {| noti_id := Some "installing-collection-B"; noti_type := "activity";
               noti_title := Some "Installing Collection"; noti_message := "B";
               noti_progress := Some Js.NaN; noti_displayMS := None |})
         (hostCalls (start envEmpty (Some profile) (Some bundleEmpty)) newDriver))
  /\ (mTotalSize queriedL = Some 100%Z
      /\ hostCalls (didFinishDownload envSL) queriedL
         = [SendNotification
              {| noti_id := Some "installing-collection-L"; noti_type := "activity";
                 noti_title := Some "Installing Collection"; noti_message := "L";
                 noti_progress :=
                   Some (installProgress envSL queriedL (Some profile) bundleL);
                 noti_displayMS := None |}]
      /\ installProgress envSL queriedL (Some profile) bundleL
         = Js.Fin ((inject_Z 1000 / inject_Z 100 + inject_Z 1 / inject_Z 1) * 50)
      /\ ((inject_Z 1000 / inject_Z 100 + inject_Z 1 / inject_Z 1) * 50 == 550)%Q
      /\ ~ Js.between 0 100 (installProgress envSL queriedL (Some profile) bundleL)).
Proof.
  assert (Hnan : installProgress envEmpty startedEmpty (Some profile) bundleEmpty = Js.NaN)
    by (vm_compute; reflexivity).
  assert (Hstale : installProgress envSL queriedL (Some profile) bundleL
                   = Js.Fin ((inject_Z 1000 / inject_Z 100 + inject_Z 1 / inject_Z 1) * 50))
    by (vm_compute; reflexivity).
  split.
  - refine (conj _ (conj Hnan (conj _ (conj _ _)))).
    + vm_compute; reflexivity.
    + discriminate.
    + rewrite Hnan. intros [].
    + vm_compute. right. left. reflexivity.
  - refine (conj _ (conj _ (conj Hstale (conj _ _)))).
    + vm_compute; reflexivity.
    + vm_compute; reflexivity.
    + vm_compute; reflexivity.
    + rewrite Hstale. cbn [Js.between]. intros [_ Hhigh].
      vm_compute in Hhigh. apply Hhigh. reflexivity.
Qed.

(** C3 at sample states: in the scenario of section 8 (total size 100,
    100 bytes counted, one of two relevant entries installed) the progress
    is (100 / 100 + 1 / 2) * 50, within the range; for the empty bundle it
    is not finite. *)
Lemma installProgress_unguarded_witness :
  installProgress envB startedB (Some profile) bundleB
  = Js.Fin ((inject_Z 100 / inject_Z 100 + inject_Z 1 / inject_Z 2) * 50)
  /\ Js.between 0 100 (installProgress envB startedB (Some profile) bundleB)
  /\ Js.isFinite (installProgress envEmpty startedEmpty (Some profile) bundleEmpty) = false.
Proof.
  destruct (proj1 (installProgress_unguarded envB startedB (Some profile) bundleB)
              100%Z eq_refl) as [Hvalue Hrange].
  - discriminate.
  - discriminate.
  - refine (conj Hvalue (conj _ _)).
    + apply Hrange. vm_compute. split; discriminate.
    + apply (proj2 (installProgress_unguarded envEmpty startedEmpty (Some profile)
                      bundleEmpty)).
      right. right. reflexivity.
Defined.

(** C5 refuted on the code: [start] on a bundle made for another game
    version, with the dialog answered by [Cancel], ends with [installDone]
    set but in phase [start], not [prepare], with the bundle still set; a
    [continue()] after that asks for the dependencies of B. *)
Lemma version_cancel_phase_is_start :
  existsb isVersionDialog
    (hostCalls (start envCancel (Some profile) (Some bundleB)) newDriver) = true
  /\ versionDialogAction envCancel = "Cancel"
  /\ mInstallDone cancelledB = true
  /\ mStep cancelledB = Start
  /\ mStep cancelledB <> Prepare
  /\ mCollection cancelledB = Some bundleB
  /\ hostCalls (continue envCancel) cancelledB
     = [EmitInstallDependencies "profile1" "skyrimse" ["B"] true].
Proof.
  assert (Hstep : mStep cancelledB = Start) by (vm_compute; reflexivity).
  refine (conj _ (conj _ (conj _ (conj Hstep (conj _ (conj _ _)))))).
  - vm_compute; reflexivity.
  - reflexivity.
  - vm_compute; reflexivity.
  - rewrite Hstep. discriminate.
  - vm_compute; reflexivity.
  - vm_compute; reflexivity.
Qed.

(** C5 at a sample state: [startInstall] for B after [query], with the
    dialog cancelled. *)
Lemma version_cancel_leaves_start_witness :
  let d := sessionIn Query false in
  (existsb isVersionDialog (hostCalls (startInstall envCancel) d) = true
   /\ versionDialogAction envCancel = "Cancel")
  /\ result (startInstall envCancel) d = RetBool false
  /\ mInstallDone (fieldsAfter (startInstall envCancel) d) = true
  /\ mStep (fieldsAfter (startInstall envCancel) d) = Start
  /\ mCollection (fieldsAfter (startInstall envCancel) d) = mCollection d
  /\ mProfile (fieldsAfter (startInstall envCancel) d) = mProfile d
  /\ mInstalledMods (fieldsAfter (startInstall envCancel) d) = []
  /\ mRequiredMods (fieldsAfter (startInstall envCancel) d) = mRequiredMods d
  /\ filter isInstallDependencies (hostCalls (startInstall envCancel) d) = [].
Proof.
  intros d. split.
  - split; [vm_compute; reflexivity | reflexivity].
  - apply (version_cancel_leaves_start envCancel d);
      [vm_compute; reflexivity | reflexivity].
Defined.

(** C6 refuted on the code: however often [continue()] is called in the
    review phase of the sample session, the phase is never [prepare]. *)
Lemma review_never_reaches_prepare :
  ~ exists n,
      mStep (fieldsAfter (continueTimes envB n) (sessionIn Review false)) = Prepare.
Proof.
  intros [n Hn].
  rewrite (review_stays envB (sessionIn Review false) n eq_refl) in Hn.
  discriminate.
Qed.

(** C6 at sample states: a fresh driver cannot continue; the sample
    session in the review phase closes. *)
Lemma continue_blocked_or_closing_witness :
  (canContinue newDriver = false /\ continue envB newDriver = (tt, newDriver, []))
  /\ (let d1 := fieldsAfter (continue envB) (sessionIn Review false) in
      mCollection d1 = None /\ mInstallDone d1 = true /\ mStep d1 = Review
      /\ forall env' n, continueTimes env' n d1 = (tt, d1, [])).
Proof.
  split.
  - split; [reflexivity|].
    apply (proj1 (continue_blocked_or_closing envB newDriver)). reflexivity.
  - apply (proj2 (continue_blocked_or_closing envB (sessionIn Review false)));
      [reflexivity | discriminate].
Defined.

(** C8 refuted on the code: after [cancel()] on the sample session the
    required rules, the installing marker, [installDone] and the total size
    are what they were, not cleared. *)
Lemma cancel_keeps_required_rules :
  let d' := fieldsAfter cancel (sessionIn Installing true) in
  mRequiredMods d' = [ruleC]
  /\ mInstallingMod d' = Some "c.7z"
  /\ mInstallDone d' = true
  /\ mTotalSize d' = Some 100%Z
  /\ mRequiredMods d' <> [] /\ mInstallingMod d' <> None /\ mInstallDone d' <> false.
Proof.
  cbv zeta.
  assert (Hrun : fieldsAfter cancel (sessionIn Installing true)
                 = set_mOnStop false
                     (set_mStep Prepare
                        (set_mInstalledMods []
                           (set_mProfile None
                              (set_mCollection None (sessionIn Installing true))))))
    by (vm_compute; reflexivity).
  rewrite Hrun. cbn.
  refine (conj eq_refl (conj eq_refl (conj eq_refl (conj eq_refl (conj _ (conj _ _))))));
    discriminate.
Qed.

End Runs.

Section UpdateRuns.
Import Sample.
Existing Instance host.
Import EventHandlers.

(** C7 refuted on the code: X required Y and Z, the new revision N
    requires Z only, and Z, an installed mod that is neither X nor N,
    references Y; Z being a candidate itself, it is not asked, and Y is
    obsolete. *)
Lemma referenced_by_candidate_still_obsolete :
  obsolete (mod_rules oldRevision) modsAfterUpdate "X" "N" = Returned [modY]
  /\ In modZ modsAfterUpdate
  /\ mod_id modZ <> "X" /\ mod_id modZ <> "N"
  /\ references (mod_rules modZ) modY = true
  /\ In modY (candidates (mod_rules oldRevision) modsAfterUpdate)
  /\ includesMod (candidates (mod_rules oldRevision) modsAfterUpdate) modZ = true.
Proof.
  refine (conj _ (conj _ (conj _ (conj _ (conj _ (conj _ _)))))).
  - vm_compute; reflexivity.
  - right. right. left. reflexivity.
  - discriminate.
  - discriminate.
  - vm_compute; reflexivity.
  - vm_compute. left. reflexivity.
  - vm_compute; reflexivity.
Qed.

(** C7 at the sample store: Y is a candidate and N is installed. *)
Lemma obsolete_characterised_witness :
  (In modY (candidates (mod_rules oldRevision) modsAfterUpdate)
   /\ modById modsAfterUpdate "N" = Some newRevision)
  /\ exists obs,
       obsolete (mod_rules oldRevision) modsAfterUpdate "X" "N" = Returned obs
       /\ (In modY obs <->
           references (mod_rules newRevision) modY = false
           /\ forall Z, In Z modsAfterUpdate ->
                includesMod (candidates (mod_rules oldRevision) modsAfterUpdate) Z = false ->
                mod_id Z <> "X" -> mod_id Z <> "N" ->
                references (mod_rules Z) modY = false)
       /\ (forall Z, In Z modsAfterUpdate ->
             includesMod (candidates (mod_rules oldRevision) modsAfterUpdate) Z = false ->
             mod_id Z <> "X" -> mod_id Z <> "N" ->
             references (mod_rules Z) modY = true -> ~ In modY obs).
Proof.
  assert (HY : In modY (candidates (mod_rules oldRevision) modsAfterUpdate))
    by (vm_compute; left; reflexivity).
  split.
  - split; [exact HY | reflexivity].
  - apply (obsolete_characterised (mod_rules oldRevision) modsAfterUpdate "X" "N"
             newRevision modY HY).
    reflexivity.
Defined.

(** Three runs of the update of X to N: removal succeeds, removal is
    cancelled by the user, removal fails. *)
Example update_run_succeeds :
  collectionUpdate (updateEnv (Returned tt)) "skyrimse" "slug" 4 "X"
  = (Returned tt,
     [GetRevision "slug" 4; ResolveCollectionUrl "link43";
      StartDownload ["https://files.example/rev43.7z"] "Sample collection" 4;
      AnalyticsClick; StartInstallDownload "download43";
      ShowRemoveDialog 1 "Sample collection";
      MarkNotDependency "skyrimse" [];
      RemoveMods "skyrimse" [ItemId "X"; ItemMod modY]]).
Proof. vm_compute. reflexivity. Qed.

Example update_run_cancelled :
  errorNotifications
    (snd (collectionUpdate (updateEnv (Threw userCanceled)) "skyrimse" "slug" 4 "X"))
  = [].
Proof. vm_compute. reflexivity. Qed.

Example update_run_fails :
  errorNotifications
    (snd (collectionUpdate (updateEnv (Threw (plainError "EPERM"))) "skyrimse" "slug" 4 "X"))
  = [("Failed to download collection", plainError "EPERM")]
  /\ errorNotifications
       (snd (collectionUpdate (updateEnv (Returned tt)) "skyrimse" "other-slug" 4 "X"))
     = [("Failed to download collection", invalidCollection "other-slug")].
Proof. split; vm_compute; reflexivity. Qed.

End UpdateRuns.

Section LoopRuns.
Import Sample.
Existing Instance host.
Import InstallDriver.

(** X1 at sample rules: with C and D missing and no rule for A, the loop
    collects C. *)
Lemma requiredLoop_collects_unfulfilled_witness :
  requiredLoop envB [modA; bundleB] [ruleC; ruleD] [] = LoopDone ([] ++ [ruleC]).
Proof.
  apply (requiredLoop_collects_unfulfilled envB [modA; bundleB] [ruleC; ruleD] []).
  intros rule [<- | [<- | []]] Hreq; [reflexivity | discriminate].
Defined.

(** X2 at sample rules: rule E fails the file check; the rule for A
    passes it and lists the options A was installed with, its keys in
    another order, so the options are equal and the loop returns
    [false]. *)
Lemma requiredLoop_returns_at_fulfilled_witness :
  installerChoicesMatch ruleAOptions modAOptions = true
  /\ requiredLoop envB [modAOptions; modE] ([ruleE] ++ ruleAOptions :: [ruleC]) []
     = LoopReturned false.
Proof.
  split; [reflexivity|].
  change (LoopReturned false)
    with (LoopReturned (negb (installerChoicesMatch ruleAOptions modAOptions))).
  apply (requiredLoop_returns_at_fulfilled envB [modAOptions; modE] [ruleE] ruleAOptions
           [ruleC] [] modAOptions).
  - intros r [<- | []] _. reflexivity.
  - reflexivity.
  - reflexivity.
  - right. exists [mkEntry "a.esp" false "0cc175b9"]. split; reflexivity.
Defined.

End LoopRuns.

(** ** More facts about the driver *)

Lemma fields_after {A} t (r : A * Driver * list Event) :
  snd (fst (after t r)) = snd (fst r).
Proof. reflexivity. Qed.

Lemma result_after {A} t (r : A * Driver * list Event) :
  fst (fst (after t r)) = fst (fst r).
Proof. reflexivity. Qed.

Lemma bind_run {A B} (m : M A) (k : A -> M B) d a d' t :
  m d = (a, d', t) -> bind m k d = after t (k a d').
Proof. intros E. unfold bind. now rewrite E. Qed.

Lemma bind_unfold {A B} (m : M A) (k : A -> M B) d :
  bind m k d = after (snd (m d)) (k (fst (fst (m d))) (snd (fst (m d)))).
Proof. reflexivity. Qed.

Lemma hostCalls_bind {A B} (m : M A) (k : A -> M B) d :
  snd (bind m k d) = snd (m d) ++ snd (k (fst (fst (m d))) (snd (fst (m d)))).
Proof. reflexivity. Qed.

Lemma triggerUpdate_run d :
  InstallDriver.triggerUpdate d = (tt, d, map UpdateCB (mUpdateHandlers d)).
Proof. unfold InstallDriver.triggerUpdate. now rewrite bind_get. Qed.

(** Runs a method up to and through its calls of [triggerUpdate]. *)
Ltac mrun :=
  repeat first
    [ rewrite (bind_run _ _ _ _ _ _ (triggerUpdate_run _))
    | rewrite triggerUpdate_run
    | progress mstep ].

Section LifecycleFacts.
Context {ext : Externals}.
Import InstallDriver.
Local Open Scope driver_scope.

Lemma no_signal_in_updates l :
  filter isInstallDependencies (map UpdateCB l) = [].
Proof. induction l as [|h l IH]; [reflexivity | exact IH]. Qed.

(** What the second half of [startImpl] leaves alone. *)
Lemma startImplInstall_frame env profile collection mods d :
  let d' := fieldsAfter (startImplInstall env profile collection mods) d in
  mCollection d' = mCollection d /\ mProfile d' = mProfile d
  /\ mStep d' = mStep d /\ mInstalledMods d' = mInstalledMods d
  /\ mInstallingMod d' = mInstallingMod d
  /\ mUpdateHandlers d' = mUpdateHandlers d
  /\ mRevisionInfo d' = mRevisionInfo d
  /\ (forall t, mTotalSize d = Some t -> mTotalSize d' = Some t).
Proof.
  unfold fieldsAfter, startImplInstall, updateProgress, augmentRules. mstep.
  destruct (mTotalSize d) as [t0|] eqn:Hsize; mstep;
    destruct (requiredLoop env mods (mod_rules collection) []) as [required|b|];
    mstep; try destruct (List.length required =? 0)%nat; mstep;
    cbn; repeat split; try reflexivity; intros t Ht; congruence.
Qed.

Lemma startImplInstall_no_signal env profile collection mods d :
  filter isInstallDependencies (snd (startImplInstall env profile collection mods d)) = [].
Proof.
  destruct (startImplInstall_calls env profile collection mods d) as (n & l & E).
  unfold hostCalls in E. now rewrite E.
Qed.

(** [startImpl] asks for no dependency installation, whatever it does. *)
Lemma startImpl_no_signal env d :
  filter isInstallDependencies (snd (startImpl env d)) = [].
Proof.
  unfold startImpl. rewrite bind_get.
  destruct (mCollection d) as [collection|]; [|reflexivity].
  destruct (mProfile d) as [profile|]; [|reflexivity].
  destruct (mod_archiveId collection) as [archive|]; [|reflexivity].
  mstep.
  destruct (revisionId env d) as [rid|];
    [destruct (andThen (modInfoOf env d) nexus_revisionInfo) as [r|];
       [|destruct (getRevisionInfo env rid (collectionSlug env d) (revisionNumber env d))
           as [r|msg]]|];
    mstep.
  all: match goal with
       | |- context [optZ_eqb ?a ?b] => destruct (optZ_eqb a b)
       end; mstep.
  all: match goal with
       | |- context [versionMismatch ?a ?b] => destruct (versionMismatch a b)
       end; mstep.
  all: try match goal with
       | |- context [String.eqb ?a "Cancel"] => destruct (String.eqb a "Cancel")
       end; mstep.
  all: rewrite ?hostCalls_after, ?filter_app, ?startImplInstall_no_signal.
  all: reflexivity.
Qed.

(** The fields [startImpl] resets and those it keeps, once it has found a
    collection with an archive and a profile. *)
Lemma startImpl_resets env d collection profile archive :
  mCollection d = Some collection -> mod_archiveId collection = Some archive ->
  mProfile d = Some profile ->
  let d' := fieldsAfter (startImpl env) d in
  mCollection d' = Some collection /\ mProfile d' = Some profile
  /\ mStep d' = Start /\ mInstalledMods d' = [] /\ mInstallingMod d' = None
  /\ mUpdateHandlers d' = mUpdateHandlers d
  /\ (forall t, mTotalSize d = Some t -> mTotalSize d' = Some t).
Proof.
  intros Hcollection Harchive Hprofile. unfold fieldsAfter, startImpl.
  rewrite bind_get, Hcollection, Hprofile, Harchive. mstep.
  destruct (revisionId env d) as [rid|];
    [destruct (andThen (modInfoOf env d) nexus_revisionInfo) as [r|];
       [|destruct (getRevisionInfo env rid (collectionSlug env d) (revisionNumber env d))
           as [r|msg]]|];
    mstep.
  all: match goal with
       | |- context [optZ_eqb ?a ?b] => destruct (optZ_eqb a b)
       end; mstep.
  all: match goal with
       | |- context [versionMismatch ?a ?b] => destruct (versionMismatch a b)
       end; mstep.
  all: try match goal with
       | |- context [String.eqb ?a "Cancel"] => destruct (String.eqb a "Cancel")
       end; mstep.
  all: lazymatch goal with
       | |- context [startImplInstall ?e ?p ?c ?m ?s] =>
           pose proof (startImplInstall_frame e p c m s) as Hframe;
           unfold fieldsAfter in Hframe; cbn zeta in Hframe;
           destruct Hframe as (F1 & F2 & F3 & F4 & F5 & F6 & _ & F8);
           rewrite ?fields_after;
           refine (conj _ (conj _ (conj _ (conj _ (conj _ (conj _ _))))));
           [ rewrite F1 | rewrite F2 | rewrite F3 | rewrite F4 | rewrite F5
           | rewrite F6 | intros t Ht; apply F8 ];
           cbn; (reflexivity || assumption)
       | |- _ =>
           cbn; repeat split; (reflexivity || assumption || (intros t Ht; exact Ht))
       end.
Qed.

(** X4: in the start phase, with a collection that has an archive and
    with a profile, [continue()] emits one ['install-dependencies'] for the
    collection and the profile, moves to the installing phase and calls
    the observers; apart from the refreshed collection info no other field
    changes. *)
Theorem continue_from_start_begins env d collection profile archive :
  mStep d = Start -> mCollection d = Some collection ->
  mod_archiveId collection = Some archive -> mProfile d = Some profile ->
  continue env d
  = (tt,
     set_mStep Installing (fieldsAfter (initCollectionInfo env) d),
     EmitInstallDependencies (profile_id profile) (profile_gameId profile)
       [mod_id collection] true
     :: map UpdateCB (mUpdateHandlers d)).
Proof.
  intros Hstep Hcollection Harchive Hprofile.
  destruct (initCollectionInfo_sets env d) as [info Hinfo].
  unfold continue, fieldsAfter. rewrite bind_get.
  unfold canContinue. rewrite Hcollection, Hstep. cbn [andThen andb].
  rewrite Harchive. cbn [isSome].
  rewrite (bind_run _ _ _ _ _ _ Hinfo), Hinfo. mstep.
  cbn [mStep set_mCollectionInfo]. rewrite Hstep. cbn [steps]. unfold begin.
  mstep. cbn [mCollection mProfile set_mCollectionInfo].
  rewrite Hcollection, Hprofile. mstep.
  rewrite triggerUpdate_run. reflexivity.
Qed.

Lemma acknowledge_no_signal (res : Ret) d :
  filter isInstallDependencies
    (snd (match res with
          | RetBool false | NeverSettles => ret tt
          | _ => triggerUpdate
          end d)) = [].
Proof.
  destruct res as [|[|]|]; rewrite ?triggerUpdate_run; cbn [snd ret];
    auto using no_signal_in_updates.
Qed.

(** X5: only in the start phase does [continue()] ask the host to install
    dependencies; in every other phase, [startInstall] included, it emits
    no ['install-dependencies']. *)
Theorem continue_signals_only_from_start env d :
  mStep d <> Start ->
  filter isInstallDependencies (hostCalls (continue env) d) = [].
Proof.
  intros Hstep. unfold hostCalls, continue. rewrite bind_get.
  destruct (canContinue d && isSome (andThen (mCollection d) mod_archiveId));
    [|reflexivity].
  destruct (initCollectionInfo_sets env d) as [info Hinfo].
  rewrite (bind_run _ _ _ _ _ _ Hinfo). mstep.
  cbn [mStep set_mCollectionInfo].
  rewrite hostCalls_bind, filter_app, acknowledge_no_signal, app_nil_r.
  destruct (mStep d); cbn [steps]; try (now elim Hstep).
  - reflexivity.
  - reflexivity.
  - rewrite startInstall_run, hostCalls_after, filter_app, startImpl_no_signal.
    now destruct (withSuppressedTests env).
  - reflexivity.
  - reflexivity.
  - reflexivity.
  - unfold close. mrun. rewrite hostCalls_after. cbn [snd ret].
    rewrite app_nil_r. apply no_signal_in_updates.
Qed.

(** X6: [query] is a preview: whatever it is called with, it leaves the
    installed mods, the required rules, the installing marker,
    [installDone] and the total size alone, and all it ever calls on the
    host is the warning that a collection is already being installed, or
    the observers. *)
Theorem query_is_a_preview env profile collection d :
  let d' := fieldsAfter (query env profile collection) d in
  (mInstalledMods d' = mInstalledMods d /\ mRequiredMods d' = mRequiredMods d
   /\ mInstallingMod d' = mInstallingMod d /\ mInstallDone d' = mInstallDone d
   /\ mTotalSize d' = mTotalSize d /\ mUpdateHandlers d' = mUpdateHandlers d)
  /\ (hostCalls (query env profile collection) d = []
      \/ hostCalls (query env profile collection) d
         = [SendNotification (alreadyInstalling None)]
      \/ hostCalls (query env profile collection) d
         = map UpdateCB (mUpdateHandlers d)).
Proof.
  unfold fieldsAfter, hostCalls, query. rewrite awaitPrepare_then.
  destruct (andThen collection mod_archiveId) as [archive|].
  - rewrite bind_get. cbn [mInstallDone mCollection set_mPrepare].
    destruct (negb (mInstallDone d) && isSome (mCollection d)).
    + cbn. split; [repeat split | right; left; reflexivity].
    + mstep.
      destruct (initCollectionInfo_sets env
                  (set_mStep Query
                     (set_mCollection collection (set_mProfile profile (set_mPrepare 0 d)))))
        as [info Hinfo].
      rewrite (bind_run _ _ _ _ _ _ Hinfo). mrun. cbn.
      split; [repeat split | right; right; reflexivity].
  - cbn. split; [repeat split | left; reflexivity].
Qed.

Lemma getModsEx_of_profile env d d' profile collection :
  getModsEx env d (Some profile) collection = getModsEx env d' (Some profile) collection.
Proof. reflexivity. Qed.

(** X7: on a driver that has no collection, or whose installation is done,
    [start] with a profile and a collection that has an archive begins a
    session for them: afterwards they are the driver's profile and
    collection, the phase is [start], no mod is installed or installing,
    and the total size is the one computed for the new collection. *)
Theorem start_begins_session env profile collection archive d :
  mod_archiveId collection = Some archive ->
  mCollection d = None \/ mInstallDone d = true ->
  let d' := fieldsAfter (start env (Some profile) (Some collection)) d in
  mCollection d' = Some collection /\ mProfile d' = Some profile
  /\ mStep d' = Start /\ mInstalledMods d' = [] /\ mInstallingMod d' = None
  /\ mTotalSize d'
     = Some (calculateCollectionSize (getModsEx env d (Some profile) collection))
  /\ mUpdateHandlers d' = mUpdateHandlers d.
Proof.
  intros Harchive Hidle. unfold fieldsAfter, start. rewrite awaitPrepare_then.
  rewrite Harchive, bind_get. cbn [mInstallDone mCollection set_mPrepare].
  assert (Hfree : negb (mInstallDone d) && isSome (mCollection d) = false).
  { destruct Hidle as [E|E]; rewrite E; [apply andb_false_r | reflexivity]. }
  rewrite Hfree. mstep. rewrite bind_unfold, fields_after, startInstall_run.
  rewrite result_after, fields_after.
  set (s := if withSuppressedTests env then set_mOnStop true _ else _).
  assert (Hs : mCollection s = Some collection /\ mProfile s = Some profile
               /\ mUpdateHandlers s = mUpdateHandlers d
               /\ mTotalSize s
                  = Some (calculateCollectionSize (getModsEx env d (Some profile) collection))).
  { subst s. destruct (withSuppressedTests env); cbn; repeat split; reflexivity. }
  destruct Hs as (Hc & Hp & Hh & Ht).
  pose proof (startImpl_resets env s collection profile archive Hc Harchive Hp) as Hreset.
  unfold fieldsAfter in Hreset. cbn zeta in Hreset.
  destruct Hreset as (R1 & R2 & R3 & R4 & R5 & R6 & R7).
  specialize (R7 _ Ht).
  destruct (startImpl env s) as [[res s'] t] eqn:Hrun. cbn [fst snd] in *.
  destruct (initCollectionInfo_sets env s') as [info Hinfo].
  assert (Hend : snd (fst (match res with
                           | NeverSettles => ret tt
                           | _ => bind (initCollectionInfo env) (fun _ => triggerUpdate)
                           end s'))
                 = s' \/
                 snd (fst (match res with
                           | NeverSettles => ret tt
                           | _ => bind (initCollectionInfo env) (fun _ => triggerUpdate)
                           end s'))
                 = set_mCollectionInfo info s').
  { destruct res as [|b|]; [right | right | left; reflexivity];
      rewrite (bind_run _ _ _ _ _ _ Hinfo); mrun; reflexivity. }
  destruct Hend as [E|E]; rewrite E; cbn;
    rewrite ?R1, ?R2, ?R3, ?R4, ?R5, ?R6, ?R7, ?Hh; repeat split; reflexivity.
Qed.

(** X8: [start] without a profile, on a driver that is free, adopts the
    collection and stops there: [startInstall] asks the host, if it has
    [withSuppressedTests], to suppress the [plugins-changed] test, and
    [startImpl] then returns [false] at once.  So the phase,
    [installDone] and the lists are as they were, the total size is that
    of an empty set of mods, the suppression just asked for is left
    pending ([mOnStop] holds its release), and the host calls are that
    request, if made, followed by the observers. *)
Theorem start_without_profile env collection archive d :
  mod_archiveId collection = Some archive ->
  mCollection d = None \/ mInstallDone d = true ->
  let d' := fieldsAfter (start env None (Some collection)) d in
  mCollection d' = Some collection /\ mProfile d' = None
  /\ mStep d' = mStep d /\ mInstallDone d' = mInstallDone d
  /\ mInstalledMods d' = mInstalledMods d /\ mRequiredMods d' = mRequiredMods d
  /\ mTotalSize d' = Some (calculateCollectionSize [])
  /\ mOnStop d' = (if withSuppressedTests env then true else mOnStop d)
  /\ hostCalls (start env None (Some collection)) d
     = (if withSuppressedTests env
        then [WithSuppressedTests ["plugins-changed"]] else [])
       ++ map UpdateCB (mUpdateHandlers d).
Proof.
  intros Harchive Hidle. unfold fieldsAfter, hostCalls, start.
  rewrite awaitPrepare_then, Harchive, bind_get.
  cbn [mInstallDone mCollection set_mPrepare].
  assert (Hfree : negb (mInstallDone d) && isSome (mCollection d) = false).
  { destruct Hidle as [E|E]; rewrite E; [apply andb_false_r | reflexivity]. }
  rewrite Hfree. mstep. unfold startInstall, startImpl.
  destruct (withSuppressedTests env); mstep;
    cbn [mCollection mProfile set_mTotalSize set_mCollection set_mProfile
         set_mPrepare set_mOnStop]; mstep.
  all: match goal with
       | |- context [bind (initCollectionInfo ?e) _ ?s] =>
           destruct (initCollectionInfo_sets e s) as [info Hinfo];
           rewrite (bind_run _ _ _ _ _ _ Hinfo)
       end; mrun; cbn; repeat split; reflexivity.
Qed.

Lemma startImplInstall_no_vote env profile collection mods d :
  filter isPendingVote (snd (startImplInstall env profile collection mods d)) = [].
Proof.
  destruct (startImplInstall_calls env profile collection mods d) as (n & l & E).
  unfold hostCalls in E. now rewrite E.
Qed.

(** X9: once [startImpl] has a collection with an archive and a profile,
    it marks the revision for a vote exactly when the member id of the
    revision's author, as known after the metadata lookup, differs from the
    id of the logged-in user; it does so at most once. *)
Theorem startImpl_requests_vote env d collection profile archive :
  mCollection d = Some collection -> mod_archiveId collection = Some archive ->
  mProfile d = Some profile ->
  let author :=
    andThen (andThen (mRevisionInfo (fieldsAfter (startImpl env) d)) rev_collection)
            col_memberId in
  filter isPendingVote (hostCalls (startImpl env) d)
  = if optZ_eqb author (nexus_userId env)
    then []
    else [Dispatch (setPendingVote (revisionId env d) (collectionSlug env d)
                      (revisionNumber env d) (now env))].
Proof.
  intros Hcollection Harchive Hprofile. unfold fieldsAfter, hostCalls, startImpl.
  rewrite bind_get, Hcollection, Hprofile, Harchive. mstep.
  destruct (revisionId env d) as [rid|];
    [destruct (andThen (modInfoOf env d) nexus_revisionInfo) as [r|];
       [|destruct (getRevisionInfo env rid (collectionSlug env d) (revisionNumber env d))
           as [r|msg]]|];
    mstep.
  all: match goal with
       | |- context [versionMismatch ?a ?b] => destruct (versionMismatch a b)
       end; mstep.
  all: try match goal with
       | |- context [String.eqb ?a "Cancel"] => destruct (String.eqb a "Cancel")
       end; mstep.
  all: cbv zeta;
       match goal with
       | |- context [if optZ_eqb ?a ?b then ret tt else _] =>
           destruct (optZ_eqb a b) eqn:Hsame
       end; mstep;
       rewrite ?fields_after, ?hostCalls_after, ?filter_app.
  all: lazymatch goal with
       | |- context [startImplInstall ?e ?p ?c ?m ?s] =>
           pose proof (startImplInstall_frame e p c m s) as Hframe;
           unfold fieldsAfter in Hframe; cbn zeta in Hframe;
           destruct Hframe as (_ & _ & _ & _ & _ & _ & F7 & _);
           rewrite F7, (startImplInstall_no_vote e p c m s)
       | |- _ => idtac
       end.
  all: cbn [mRevisionInfo set_mRevisionInfo set_mStep set_mInstallDone
            set_mInstallingMod set_mInstalledMods ret fst snd] in *;
       rewrite Hsame; reflexivity.
Qed.

End LifecycleFacts.

(** ** Facts about the listeners *)
Section ListenerFacts.
Context {ext : Externals}.
Import InstallDriver.
Local Open Scope driver_scope.

(** [updateProgress] for a collection: one notification under the
    collection's id, and no field but an unset total size changes. *)
Lemma updateProgress_run env profile collection d :
  exists size n,
    updateProgress env profile (Some collection) d
    = (tt, set_mTotalSize size d, [SendNotification n])
    /\ (forall t, mTotalSize d = Some t -> size = Some t)
    /\ (mTotalSize d = None ->
        size = Some (calculateCollectionSize (getModsEx env d profile collection)))
    /\ noti_id n = Some (INSTALLING_NOTIFICATION_ID ++ mod_id collection)%string.
Proof.
  unfold updateProgress. rewrite bind_get.
  destruct (mTotalSize d) as [t0|] eqn:Hsize; mstep.
  - exists (Some t0). eexists. split; [|split; [|split]].
    + replace (set_mTotalSize (Some t0) d) with d
        by (destruct d; cbn in Hsize; now subst).
      reflexivity.
    + intros t Ht. congruence.
    + discriminate.
    + reflexivity.
  - eexists. eexists. split; [reflexivity | split; [|split]].
    + discriminate.
    + reflexivity.
    + reflexivity.
Qed.

(** X10: the total size is computed once: a progress update finds it set
    after the first one and keeps it, whatever the store, the profile or
    the collection it is given. *)
Theorem updateProgress_caches_total_size env1 env2 profile1 profile2 c1 c2 d :
  let d1 := fieldsAfter (updateProgress env1 profile1 (Some c1)) d in
  let d2 := fieldsAfter (updateProgress env2 profile2 (Some c2)) d1 in
  (exists t, mTotalSize d1 = Some t) /\ mTotalSize d2 = mTotalSize d1
  /\ (forall t, mTotalSize d = Some t -> mTotalSize d2 = Some t).
Proof.
  unfold fieldsAfter.
  destruct (updateProgress_run env1 profile1 c1 d) as (s1 & n1 & E1 & K1 & N1 & _).
  rewrite E1. cbn [fst snd].
  destruct (updateProgress_run env2 profile2 c2 (set_mTotalSize s1 d))
    as (s2 & n2 & E2 & K2 & _).
  rewrite E2. cbn [fst snd mTotalSize set_mTotalSize] in *.
  assert (Hset : exists t, s1 = Some t).
  { destruct (mTotalSize d) as [t|] eqn:Hd; [exists t; now apply K1|].
    eexists. now apply N1. }
  destruct Hset as [t Ht]. split; [now exists t|]. split.
  - rewrite (K2 t Ht). now rewrite Ht.
  - intros t' Ht'. rewrite (K1 t' Ht') in *. now apply K2.
Qed.

Lemma find_existsb {A} (f : A -> bool) l :
  isSome (find f l) = existsb f l.
Proof.
  induction l as [|a l IH]; [reflexivity|]. cbn. now destruct (f a).
Qed.

(** X11: ['did-install-mod'] records a mod as installed only if the store
    holds it and one of the required rules matches it; otherwise the list
    of installed mods is as before.  In no case does it touch the
    collection, the profile, the phase, the required rules or
    [installDone]. *)
Theorem didInstallMod_records_required_only env hasExtra gameId modId d :
  let d' := fieldsAfter (didInstallMod env hasExtra gameId modId) d in
  (mInstalledMods d' = mInstalledMods d
   \/ exists m,
        andThen (persistent_mods env gameId) (fun mods => storeMod mods modId) = Some m
        /\ existsb (fun rule => testModReference m (rule_reference rule)) (mRequiredMods d)
           = true
        /\ mInstalledMods d' = mInstalledMods d ++ [m])
  /\ mCollection d' = mCollection d /\ mProfile d' = mProfile d
  /\ mStep d' = mStep d /\ mRequiredMods d' = mRequiredMods d
  /\ mInstallDone d' = mInstallDone d.
Proof.
  unfold fieldsAfter, didInstallMod. rewrite bind_get.
  destruct (andThen (persistent_mods env gameId) (fun mods => storeMod mods modId))
    as [m|]; [|mrun; cbn; auto 10].
  pose proof (find_existsb (fun rule => testModReference m (rule_reference rule))
                (mRequiredMods d)) as Hfind.
  destruct (find (fun iter => testModReference m (rule_reference iter)) (mRequiredMods d))
    as [required|]; [|mrun; cbn; auto 10].
  cbn [isSome] in Hfind. mstep.
  destruct (mCollection d) as [collection|] eqn:Hcollection;
    [destruct (ref_description (rule_reference required)) as [description|]|].
  - destruct (updateProgress_run env (mProfile d) collection
                (set_mInstalledMods (mInstalledMods d ++ [m]) d))
      as (size & n & E & _).
    rewrite (bind_run _ _ _ _ _ _ E).
    destruct (hasExtra required); mrun; cbn;
      (split; [right; exists m; auto | auto 10]).
  - mrun. cbn. split; [right; exists m; auto | auto 10].
  - mrun. cbn. split; [right; exists m; auto | auto 10].
Qed.

Lemma storeMod_id mods modId m : storeMod mods modId = Some m -> mod_id m = modId.
Proof.
  unfold storeMod. intros Hfind. apply find_some in Hfind as [_ E].
  now apply String.eqb_eq.
Qed.

(** X12: with the mods of the game in the store, a finished batch of
    dependency installations that is not about the driver's collection (no
    collection is set, or the batch belongs to another mod) changes no
    field of the driver, sends and dismisses no notification, emits no
    event and calls no observer. *)
Theorem dependencies_of_other_mod_ignored env gameId modId recommendations mods d :
  persistent_mods env gameId = Some mods ->
  (forall c, mCollection d = Some c -> mod_id c <> modId) ->
  fieldsAfter (onDidInstallDependencies env gameId modId recommendations) d = d
  /\ hostCalls (onDidInstallDependencies env gameId modId recommendations) d = [].
Proof.
  intros Hmods Hother. unfold fieldsAfter, hostCalls, onDidInstallDependencies.
  rewrite Hmods, bind_get.
  assert (Hno : match mCollection d with
                | Some c => String.eqb modId (mod_id c)
                | None => false
                end = false).
  { destruct (mCollection d) as [c|]; [|reflexivity].
    apply String.eqb_neq. intros E. now apply (Hother c). }
  rewrite Hno. mstep. split; reflexivity.
Qed.

(** A required pass that ends with a rule unresolved keeps the phase and
    sets [installDone]. *)
Lemma required_pass_incomplete env gameId mods c c' d :
  persistent_mods env gameId = Some mods ->
  mCollection d = Some c -> storeMod mods (mod_id c) = Some c' ->
  existsb (incompleteRule false mods) (mod_rules c') = true ->
  let d' := fieldsAfter (onDidInstallDependencies env gameId (mod_id c) false) d in
  mCollection d' = Some c' /\ mStep d' = mStep d /\ mInstallDone d' = true.
Proof.
  intros Hmods Hcollection Hstored Hleft. cbv zeta.
  unfold fieldsAfter, onDidInstallDependencies.
  rewrite Hmods, bind_get, Hcollection, String.eqb_refl, Hstored. mstep.
  rewrite <- find_existsb in Hleft.
  destruct (find (incompleteRule false mods) (mod_rules c')) as [rule|];
    [|discriminate].
  cbn [negb]. mrun. cbn. auto.
Qed.

(** X13: when the required pass for the driver's collection ends and the
    collection is still in the store, the driver takes the stored
    collection, dismisses the progress notification and calls the
    observers; it moves to the review phase if every [requires] rule that
    is not ignored matches an installed mod, and otherwise stays in its
    phase with [installDone] set and the installing marker cleared. *)
Theorem required_pass_finished env gameId mods c c' d :
  persistent_mods env gameId = Some mods ->
  mCollection d = Some c -> storeMod mods (mod_id c) = Some c' ->
  let run := onDidInstallDependencies env gameId (mod_id c) false in
  let d' := fieldsAfter run d in
  hostCalls run d
  = DismissNotification (INSTALLING_NOTIFICATION_ID ++ mod_id c)%string
    :: map UpdateCB (mUpdateHandlers d)
  /\ mCollection d' = Some c' /\ mProfile d' = mProfile d
  /\ mRequiredMods d' = mRequiredMods d /\ mInstalledMods d' = mInstalledMods d
  /\ if existsb (incompleteRule false mods) (mod_rules c')
     then mStep d' = mStep d /\ mInstallDone d' = true /\ mInstallingMod d' = None
     else mStep d' = Review /\ mInstallDone d' = mInstallDone d
          /\ mInstallingMod d' = mInstallingMod d.
Proof.
  intros Hmods Hcollection Hstored. cbv zeta.
  unfold fieldsAfter, hostCalls, onDidInstallDependencies.
  rewrite Hmods, bind_get, Hcollection, String.eqb_refl, Hstored. mstep.
  rewrite <- find_existsb.
  destruct (find (incompleteRule false mods) (mod_rules c')) as [rule|];
    cbn [negb isSome].
  - mrun. cbn. rewrite ?app_nil_r. auto 10.
  - destruct (initCollectionInfo_sets env (set_mCollection (Some c') d)) as [info Hinfo].
    mstep. rewrite (bind_run _ _ _ _ _ _ Hinfo). mrun. cbn. rewrite ?app_nil_r. auto 10.
Qed.

(** X14: the optional pass for the driver's collection ends without a
    call of the observers.  If a [requires] or [recommends] rule that is
    not ignored still matches no installed mod, the session is torn down
    (no collection, no profile, phase [prepare], no installed mods);
    otherwise the driver moves to the review phase. *)
Theorem optional_pass_finished env gameId mods c c' d :
  persistent_mods env gameId = Some mods ->
  mCollection d = Some c -> storeMod mods (mod_id c) = Some c' ->
  let run := onDidInstallDependencies env gameId (mod_id c) true in
  let d' := fieldsAfter run d in
  filter isUpdateCB (hostCalls run d) = []
  /\ if existsb (incompleteRule true mods) (mod_rules c')
     then mCollection d' = None /\ mProfile d' = None /\ mStep d' = Prepare
          /\ mInstalledMods d' = []
          /\ hostCalls run d
             = [DismissNotification (INSTALLING_NOTIFICATION_ID ++ mod_id c)%string;
                DismissNotification (INSTALLING_NOTIFICATION_ID ++ mod_id c)%string]
               ++ (if mOnStop d then [SuppressedTestsReleased] else [])
     else mCollection d' = Some c' /\ mStep d' = Review
          /\ mInstalledMods d' = mInstalledMods d
          /\ hostCalls run d
             = [DismissNotification (INSTALLING_NOTIFICATION_ID ++ mod_id c)%string].
Proof.
  intros Hmods Hcollection Hstored. cbv zeta.
  pose proof (storeMod_id _ _ _ Hstored) as Hid.
  unfold fieldsAfter, hostCalls, onDidInstallDependencies.
  rewrite Hmods, bind_get, Hcollection, String.eqb_refl, Hstored. mstep.
  rewrite <- find_existsb.
  destruct (find (incompleteRule true mods) (mod_rules c')) as [rule|];
    cbn [negb isSome].
  - mstep. rewrite (bind_run _ _ _ _ _ _ (onStop_run _)). mrun.
    cbn [mCollection set_mCollection mOnStop]. rewrite Hid.
    destruct (mOnStop d); cbn; auto 10.
  - destruct (initCollectionInfo_sets env (set_mCollection (Some c') d)) as [info Hinfo].
    mstep. rewrite (bind_run _ _ _ _ _ _ Hinfo). mrun. cbn. auto 10.
Qed.

(** [continue()] in the installing phase, once the installation is done. *)
Lemma continue_finishes_installing env d c archive :
  mStep d = Installing -> mInstallDone d = true ->
  mCollection d = Some c -> mod_archiveId c = Some archive ->
  continue env d
  = (tt, set_mStep Review (fieldsAfter (initCollectionInfo env) d),
     map UpdateCB (mUpdateHandlers d)).
Proof.
  intros Hstep Hdone Hcollection Harchive.
  destruct (initCollectionInfo_sets env d) as [info Hinfo].
  unfold continue, fieldsAfter. rewrite bind_get.
  unfold canContinue. rewrite Hcollection, Hstep, Hdone. cbn [andThen andb].
  rewrite Harchive. cbn [isSome].
  rewrite (bind_run _ _ _ _ _ _ Hinfo), Hinfo. mstep.
  cbn [mStep set_mCollectionInfo]. rewrite Hstep. cbn [steps]. unfold finishInstalling.
  mrun. reflexivity.
Qed.

(** X15: a required pass that leaves rules unresolved does not advance
    the installing phase by itself, but it makes [continue()] possible,
    and that [continue()] leads to the review phase. *)
Theorem leftovers_acknowledged_by_continue env env' gameId mods c c' archive d :
  persistent_mods env gameId = Some mods ->
  mCollection d = Some c -> storeMod mods (mod_id c) = Some c' ->
  mod_archiveId c' = Some archive -> mStep d = Installing ->
  existsb (incompleteRule false mods) (mod_rules c') = true ->
  let d' := fieldsAfter (onDidInstallDependencies env gameId (mod_id c) false) d in
  mStep d' = Installing /\ canContinue d' = true
  /\ mStep (fieldsAfter (continue env') d') = Review
  /\ mCollection (fieldsAfter (continue env') d') = Some c'.
Proof.
  intros Hmods Hcollection Hstored Harchive Hstep Hleft d'.
  destruct (required_pass_incomplete env gameId mods c c' d Hmods Hcollection Hstored Hleft)
    as (Hc' & Hs & Hdone).
  fold d' in Hc', Hs, Hdone.
  rewrite Hstep in Hs.
  assert (Hgo : canContinue d' = true).
  { unfold canContinue. now rewrite Hc', Hs. }
  pose proof (continue_finishes_installing env' d' c' archive Hs Hdone Hc' Harchive)
    as Hcontinue.
  destruct (initCollectionInfo_sets env' d') as [info Hinfo].
  unfold fieldsAfter in Hcontinue. rewrite Hinfo in Hcontinue. cbn [fst snd] in Hcontinue.
  unfold fieldsAfter. rewrite Hcontinue. cbn. auto.
Qed.

(** X16: ['will-install-dependencies'] calls nothing on the host and never
    touches the profile.  It changes the driver only to adopt a
    collection: no collection was set, the pass is the optional one, a
    profile is known (the driver's, else the one of the event), and the mod
    of the event is in the store with the type of a collection; the driver
    then holds that mod in the installing phase. *)
Theorem optional_install_adopts_collection env profileById modId recommendations d :
  let run := willInstallDependencies env profileById modId recommendations in
  hostCalls run d = []
  /\ mProfile (fieldsAfter run d) = mProfile d
  /\ (fieldsAfter run d = d
      \/ (mCollection d = None /\ recommendations = true
          /\ exists profile mods m,
               Js.nullish (mProfile d) profileById = Some profile
               /\ persistent_mods env (profile_gameId profile) = Some mods
               /\ storeMod mods modId = Some m /\ mod_type m = MOD_TYPE
               /\ fieldsAfter run d = set_mStep Installing (set_mCollection (Some m) d))).
Proof.
  cbv zeta. unfold hostCalls, fieldsAfter, willInstallDependencies. rewrite bind_get.
  destruct (Js.nullish (mProfile d) profileById) as [profile|] eqn:Hprofile;
    [|cbn; auto].
  destruct (mCollection d) as [c|] eqn:Hcollection; [cbn; auto|].
  destruct (persistent_mods env (profile_gameId profile)) as [mods|] eqn:Hmods;
    [|cbn; auto].
  destruct (storeMod mods modId) as [m|] eqn:Hstored; [|cbn; auto].
  destruct (String.eqb (mod_type m) MOD_TYPE) eqn:Htype; [|cbn; auto].
  destruct recommendations; [|cbn; auto].
  cbn [andb]. mstep. cbn [fst snd]. split; [reflexivity|]. split; [reflexivity|].
  right. repeat split. exists profile, mods, m.
  apply String.eqb_eq in Htype. auto 10.
Qed.

Lemma continue_finishes_recommendations env d c archive :
  mStep d = Recommendations ->
  mCollection d = Some c -> mod_archiveId c = Some archive ->
  continue env d
  = (tt, set_mStep Review (fieldsAfter (initCollectionInfo env) d),
     map UpdateCB (mUpdateHandlers d)).
Proof.
  intros Hstep Hcollection Harchive.
  destruct (initCollectionInfo_sets env d) as [info Hinfo].
  unfold continue, fieldsAfter. rewrite bind_get.
  unfold canContinue. rewrite Hcollection, Hstep. cbn [andThen andb].
  rewrite Harchive. cbn [isSome].
  rewrite (bind_run _ _ _ _ _ _ Hinfo), Hinfo. mstep.
  cbn [mStep set_mCollectionInfo]. rewrite Hstep. cbn [steps]. unfold finishInstalling.
  mrun. reflexivity.
Qed.

(** X17: with a collection that has an archive, [installRecommended] asks
    the host to install the collection's rules as an optional pass, calls
    the observers and enters the recommendations phase, in which
    [continue()] is possible and leads to the review phase with the
    collection kept. *)
Theorem recommended_round_returns_to_review env d c archive :
  mCollection d = Some c -> mod_archiveId c = Some archive ->
  let d1 := fieldsAfter installRecommended d in
  installRecommended d
  = (Finished, set_mStep Recommendations d,
     EmitInstallFromDependencies (mod_id c) (mod_rules c) true
     :: map UpdateCB (mUpdateHandlers d))
  /\ canContinue d1 = true
  /\ mStep (fieldsAfter (continue env) d1) = Review
  /\ mCollection (fieldsAfter (continue env) d1) = Some c.
Proof.
  intros Hcollection Harchive.
  assert (Hrun : installRecommended d
                 = (Finished, set_mStep Recommendations d,
                    EmitInstallFromDependencies (mod_id c) (mod_rules c) true
                    :: map UpdateCB (mUpdateHandlers d))).
  { unfold installRecommended. rewrite bind_get, Hcollection. mrun.
    unfold after, ret. cbn [fst snd]. now rewrite app_nil_r. }
  unfold fieldsAfter at 1. rewrite Hrun. cbn [fst snd].
  split; [reflexivity|].
  assert (Hgo : canContinue (set_mStep Recommendations d) = true).
  { unfold canContinue. cbn. now rewrite Hcollection. }
  split; [exact Hgo|].
  pose proof (continue_finishes_recommendations env (set_mStep Recommendations d) c
                archive eq_refl Hcollection Harchive) as Hcontinue.
  destruct (initCollectionInfo_sets env (set_mStep Recommendations d)) as [info Hinfo].
  unfold fieldsAfter in Hcontinue. rewrite Hinfo in Hcontinue. cbn [fst snd] in Hcontinue.
  unfold fieldsAfter. rewrite Hcontinue. cbn. auto.
Qed.

End ListenerFacts.

(** ** More facts about the revision update *)
Section UpdateWorkflowFacts.
Context {ext : Externals}.
Import EventHandlers.
Local Open Scope workflow_scope.

(** X18: when the host knows no such revision, or the revision belongs to
    a collection with another slug, the update stops right after the
    lookup: nothing is downloaded, installed or removed, and the one
    further host call is the error notification. *)
Theorem update_aborts_before_download env gameId collectionSlug revisionNumber oldModId :
  revisionReply env = Returned None
  \/ (exists latest collection,
        revisionReply env = Returned (Some latest)
        /\ rev_collection latest = Some collection
        /\ col_slug collection <> collectionSlug) ->
  exists err,
    err_isUserCanceled err = false
    /\ collectionUpdate env gameId collectionSlug revisionNumber oldModId
       = (Returned tt,
          [GetRevision collectionSlug revisionNumber;
           ShowErrorNotification "Failed to download collection" err]).
Proof.
  intros [Hnone | (latest & collection & Hlatest & Hcol & Hslug)].
  - exists (invalidRevision collectionSlug revisionNumber). split; [reflexivity|].
    unfold collectionUpdate, collectionUpdateBody. rewrite Hnone. reflexivity.
  - exists (invalidCollection collectionSlug). split; [reflexivity|].
    unfold collectionUpdate, collectionUpdateBody. rewrite Hlatest. cbn [await hostCall wbind].
    rewrite Hcol. apply not_eq_sym, String.eqb_neq in Hslug. rewrite Hslug.
    reflexivity.
Qed.

Lemma findDownload_found files fileName id :
  findDownload files fileName = Some id ->
  exists localPath, In (id, localPath) files /\ localPath = fileName.
Proof.
  unfold findDownload.
  destruct (find (fun kv => optStr_eqb (snd kv) fileName) files) as [[k v]|] eqn:Hfind;
    [|discriminate].
  intros [= <-]. apply find_some in Hfind as [Hin Heq]. exists v. split; [exact Hin|].
  cbn in Heq. destruct v as [v|], fileName as [f|]; try discriminate; [|reflexivity].
  now apply String.eqb_eq in Heq as ->.
Qed.

(** X19: when ['start-download'] fails, the download step recovers only
    from an error named [AlreadyDownloaded] whose file is the local path
    of a download in the store; it then goes on with that download's id.
    Every other failure is thrown on unchanged. *)
Theorem failed_download_recovers_only_if_present env latest collection urls err :
  startDownloadReply env = Threw err ->
  let outcome := startDownload env latest collection (Some urls) in
  snd outcome = [StartDownload urls (col_name collection) (rev_revision latest)]
  /\ (fst outcome = Threw err
      \/ exists id localPath,
           fst outcome = Returned id
           /\ err_name err = "AlreadyDownloaded"
           /\ In (id, localPath) (downloadFiles env)
           /\ localPath = err_fileName err).
Proof.
  intros Hfail. cbv zeta. unfold startDownload. rewrite Hfail.
  cbn [hostCall await wbind tryCatch].
  destruct (String.eqb (err_name err) "AlreadyDownloaded") eqn:Hname;
    [|cbn; auto].
  destruct (findDownload (downloadFiles env) (err_fileName err)) as [id|] eqn:Hfound;
    [|cbn; auto].
  cbn. split; [reflexivity|]. right.
  destruct (findDownload_found _ _ _ Hfound) as (localPath & Hin & Hpath).
  exists id, localPath. apply String.eqb_eq in Hname. auto.
Qed.

Lemma In_definedOnly {A} (x : A) l :
  In x (InstallDriver.definedOnly l) <-> In (Some x) l.
Proof.
  induction l as [|[a|] l IH]; cbn; [tauto | | ].
  - rewrite IH. split; intros [E|H]; auto; left; congruence.
  - rewrite IH. split; [auto | intros [E|H]; [discriminate | exact H]].
Qed.

Lemma In_candidates oldRules mods m :
  In m (candidates oldRules mods)
  <-> mod_installedAsDependency m = Some true
      /\ exists rule, In rule oldRules /\ isDependency rule = true
                      /\ findModByRef (rule_reference rule) mods = Some m.
Proof.
  unfold candidates. rewrite filter_In, In_definedOnly, in_map_iff. split.
  - intros ((rule & Hfound & Hrule) & Hflag). apply filter_In in Hrule as [Hin Hdep].
    split; [|now exists rule].
    destruct (mod_installedAsDependency m) as [[|]|]; congruence.
  - intros (Hflag & rule & Hin & Hdep & Hfound). split.
    + exists rule. split; [exact Hfound | now apply filter_In].
    + now rewrite Hflag.
Qed.

(** X20: every mod the update calls obsolete is flagged as installed as a
    dependency and is what a [requires] or [recommends] rule of the old
    revision resolves to, and no such rule of the new revision references
    it. *)
Theorem obsolete_are_flagged_dependencies oldRules mods oldModId newModId obs m :
  obsolete oldRules mods oldModId newModId = Returned obs -> In m obs ->
  mod_installedAsDependency m = Some true
  /\ (exists rule, In rule oldRules /\ isDependency rule = true
                   /\ findModByRef (rule_reference rule) mods = Some m)
  /\ exists newMod, modById mods newModId = Some newMod
                    /\ references (mod_rules newMod) m = false.
Proof.
  unfold obsolete. intros Hobs Hin.
  destruct (candidates oldRules mods) as [|c0 cs] eqn:Hcands.
  - injection Hobs as <-. contradiction.
  - destruct (modById mods newModId) as [newMod|]; [|discriminate].
    injection Hobs as <-. rewrite <- Hcands in Hin.
    apply In_obsoleteOf in Hin as (Hcand & Hnew & _).
    apply In_candidates in Hcand as (Hflag & Hrule). eauto.
Qed.

(** Splits a run of the workflow into the cases of what the host
    answers. *)
Ltac answer_cases :=
  repeat
    (cbn [wbind await hostCall wret throw tryCatch fst snd app andThen negb
          dlg_action dlg_input];
     match goal with
     | |- context [revisionReply ?e] => destruct (revisionReply e) as [[?latest|]|?err]
     | |- context [match rev_collection ?l with _ => _ end] =>
         destruct (rev_collection l) as [?collection|]
     | |- context [String.eqb ?a ?b] => destruct (String.eqb a b)
     | |- context [resolveUrlReply ?e] => destruct (resolveUrlReply e) as [[?urls|]|?err]
     | |- context [startDownloadReply ?e] => destruct (startDownloadReply e) as [?dl|?err]
     | |- context [match findDownload ?f ?n with _ => _ end] =>
         destruct (findDownload f n) as [?dl|]
     | |- context [modsBefore ?e] => destruct (modsBefore e) as [?mods|]
     | |- context [match modById ?m ?i with _ => _ end] =>
         destruct (modById m i) as [?oldMod|]
     | |- context [installReply ?e] => destruct (installReply e) as [?newModId|?err]
     | |- context [match obsolete ?r ?m ?o ?n with _ => _ end] =>
         destruct (obsolete r m o n) as [?obs|?err]
     | |- context [if (0 <? ?n)%nat then _ else _] => destruct (0 <? n)%nat
     | |- context [removeDialogReply ?e] => destruct (removeDialogReply e) as [?result|?err]
     | |- context [reviewDialogReply ?e] => destruct (reviewDialogReply e) as [?review|?err]
     | |- context [match dlg_input ?r with _ => _ end] =>
         destruct (dlg_input r) as [?input|]
     | |- context [removeReply ?e] => destruct (removeReply e) as [[]|?err]
     end).

(** What the [try] block asks to remove: nothing when it throws before the
    removal, else the old revision first. *)
Lemma removal_of_body env gameId collectionSlug revisionNumber oldModId :
  let body := collectionUpdateBody env gameId collectionSlug revisionNumber oldModId in
  (filter isRemoveMods (snd body) = [] /\ exists err, fst body = Threw err)
  \/ exists rest,
       filter isRemoveMods (snd body) = [RemoveMods gameId (ItemId oldModId :: rest)].
Proof.
  cbv zeta. unfold collectionUpdateBody, startDownload, askAboutObsolete.
  answer_cases.
  all: cbn [fst snd filter isRemoveMods app];
       first [ left; split; [reflexivity | eexists; reflexivity]
             | right; eexists; reflexivity ].
Qed.

(** X21: whatever the host and the user answer, an update asks at most
    once for the removal of mods; the request is for the game of the
    update and names the old revision first; and a run whose [try] block
    ends without an error has made the request. *)
Theorem old_revision_is_removed env gameId collectionSlug revisionNumber oldModId :
  let run := collectionUpdate env gameId collectionSlug revisionNumber oldModId in
  let body := collectionUpdateBody env gameId collectionSlug revisionNumber oldModId in
  (List.length (filter isRemoveMods (snd run)) <= 1)%nat
  /\ (forall game items, In (RemoveMods game items) (snd run) ->
        game = gameId /\ exists rest, items = ItemId oldModId :: rest)
  /\ (fst body = Returned tt ->
      exists rest, In (RemoveMods gameId (ItemId oldModId :: rest)) (snd run)).
Proof.
  cbv zeta.
  pose proof (removal_of_body env gameId collectionSlug revisionNumber oldModId) as Hbody.
  cbv zeta in Hbody.
  assert (Hrun : filter isRemoveMods
                   (snd (collectionUpdate env gameId collectionSlug revisionNumber oldModId))
                 = filter isRemoveMods
                     (snd (collectionUpdateBody env gameId collectionSlug revisionNumber
                             oldModId))).
  { unfold collectionUpdate, tryCatch.
    destruct (collectionUpdateBody env gameId collectionSlug revisionNumber oldModId)
      as [[[]|err] t]; [reflexivity|].
    destruct (err_isUserCanceled err); cbn [wret hostCall snd];
      rewrite filter_app; cbn; now rewrite app_nil_r. }
  assert (Hin : forall game items,
             In (RemoveMods game items)
                (snd (collectionUpdate env gameId collectionSlug revisionNumber oldModId))
             <-> In (RemoveMods game items)
                   (filter isRemoveMods
                      (snd (collectionUpdateBody env gameId collectionSlug revisionNumber
                              oldModId)))).
  { intros game items. rewrite <- Hrun, filter_In. cbn. tauto. }
  rewrite Hrun.
  destruct Hbody as [(Hnone & err & Hthrew) | (rest & Hone)].
  - rewrite Hnone. split; [cbn; lia|]. split.
    + intros game items H. apply Hin in H. rewrite Hnone in H. contradiction.
    + rewrite Hthrew. discriminate.
  - rewrite Hone. split; [cbn; lia|]. split.
    + intros game items H. apply Hin in H. rewrite Hone in H.
      destruct H as [[= <- <-]|[]]. split; [reflexivity | now exists rest].
    + intros _. exists rest. apply Hin. rewrite Hone. now left.
Qed.

Lemma splitByInput_from input removed kept :
  fold_left
    (fun prev kv =>
       if (snd kv : bool)
       then (fst prev ++ [ItemId (fst kv)], snd prev)
       else (fst prev, snd prev ++ [ItemId (fst kv)]))
    input (removed, kept)
  = (removed ++ map (fun kv => ItemId (fst kv)) (filter (fun kv => snd kv) input),
     kept ++ map (fun kv => ItemId (fst kv)) (filter (fun kv => negb (snd kv)) input)).
Proof.
  revert removed kept. induction input as [|[k v] input IH]; intros removed kept.
  - cbn. now rewrite !app_nil_r.
  - cbn [fold_left fst snd]. destruct v; cbn [fst snd filter negb map]; rewrite IH;
      now rewrite <- ?app_assoc.
Qed.

Lemma filter_split_length {A} (f : A -> bool) l :
  List.length (filter f l) + List.length (filter (fun x => negb (f x)) l)
  = List.length l.
Proof.
  induction l as [|a l IH]; [reflexivity|]. cbn. destruct (f a); cbn; lia.
Qed.

(** X22: the reduction over the dialog's input splits its keys by their
    value: the keys set to [true] are removed, the others kept, each in the
    order of the input, so that every key falls in exactly one of the two
    lists. *)
Theorem splitByInput_partitions input :
  splitByInput input
  = (map (fun kv => ItemId (fst kv)) (filter (fun kv => snd kv) input),
     map (fun kv => ItemId (fst kv)) (filter (fun kv => negb (snd kv)) input))
  /\ List.length (fst (splitByInput input)) + List.length (snd (splitByInput input))
     = List.length input.
Proof.
  assert (Hsplit : splitByInput input
    = (map (fun kv => ItemId (fst kv)) (filter (fun kv => snd kv) input),
       map (fun kv => ItemId (fst kv)) (filter (fun kv => negb (snd kv)) input))).
  { unfold splitByInput. now rewrite splitByInput_from. }
  split; [exact Hsplit|]. rewrite Hsplit. cbn [fst snd]. rewrite !length_map.
  apply (filter_split_length (fun kv : string * bool => snd kv)).
Qed.

(** X23: the boxes ticked in the review dialog are not read: two runs
    whose review dialogs end with the same action but different inputs make
    the same host calls; what is removed after a review comes from the
    input of the first dialog. *)
Theorem review_selection_is_not_read env gameId collectionSlug revisionNumber oldModId
    action input1 input2 :
  collectionUpdate (withReviewReply (Returned (mkDialogResult action input1)) env)
    gameId collectionSlug revisionNumber oldModId
  = collectionUpdate (withReviewReply (Returned (mkDialogResult action input2)) env)
      gameId collectionSlug revisionNumber oldModId.
Proof.
  unfold collectionUpdate, collectionUpdateBody, startDownload, askAboutObsolete.
  cbn [withReviewReply revisionReply resolveUrlReply startDownloadReply downloadFiles
       modsBefore installReply modsAfter removeDialogReply reviewDialogReply removeReply
       dlg_action dlg_input].
  answer_cases; reflexivity.
Qed.

(** X24: an update that leaves no mod obsolete shows no dialog: with the
    revision found under the requested slug, downloaded and installed, the
    old revision in the store and the removal succeeding, the host calls
    are the lookup, the download, the installation, an empty batch of
    attribute changes and the removal of the old revision alone. *)
Theorem update_without_orphans_asks_nothing env gameId collectionSlug revisionNumber
    oldModId latest collection urls dlId oldMod newModId :
  revisionReply env = Returned (Some latest) ->
  rev_collection latest = Some collection -> col_slug collection = collectionSlug ->
  resolveUrlReply env = Returned (Some urls) ->
  startDownloadReply env = Returned dlId ->
  andThen (modsBefore env) (fun mods => modById mods oldModId) = Some oldMod ->
  installReply env = Returned newModId ->
  obsolete (mod_rules oldMod) (modsAfter env) oldModId newModId = Returned [] ->
  removeReply env = Returned tt ->
  collectionUpdate env gameId collectionSlug revisionNumber oldModId
  = (Returned tt,
     [GetRevision collectionSlug revisionNumber;
      ResolveCollectionUrl (rev_downloadLink latest);
      StartDownload urls (col_name collection) (rev_revision latest);
      AnalyticsClick; StartInstallDownload dlId;
      MarkNotDependency gameId []; RemoveMods gameId [ItemId oldModId]]).
Proof.
  intros Hlatest Hcol Hslug Hurls Hdl Hold Hnew Hobs Hremoved.
  unfold collectionUpdate, collectionUpdateBody, startDownload.
  rewrite Hlatest. cbn [hostCall await wbind]. rewrite Hcol, Hslug, String.eqb_refl.
  cbn [negb]. rewrite Hurls. cbn [hostCall await wbind tryCatch]. rewrite Hdl, Hold.
  cbn [wret wbind]. rewrite Hnew. cbn [wbind]. rewrite Hobs. cbn [wbind Nat.ltb Nat.leb
    List.length wret snd fst hostCall]. rewrite Hremoved. reflexivity.
Qed.

(** X25: when the update leaves mods obsolete and the first dialog is
    answered with [Keep All] or [Remove All], the review dialog is not
    opened, and [ops.keep] resp. [ops.remove] is the list of obsolete mods
    itself: mod objects, not mod ids.  With [Keep All] the batch of
    attribute changes is built from those objects, one per obsolete mod,
    and ['remove-mods'] names the old revision alone; with [Remove All]
    the batch is empty and ['remove-mods'] is given the id of the old
    revision followed by the objects. *)
Theorem obsolete_kept_or_removed_together env gameId collectionSlug revisionNumber
    oldModId latest collection urls dlId oldMod newModId obs result :
  revisionReply env = Returned (Some latest) ->
  rev_collection latest = Some collection -> col_slug collection = collectionSlug ->
  resolveUrlReply env = Returned (Some urls) ->
  startDownloadReply env = Returned dlId ->
  andThen (modsBefore env) (fun mods => modById mods oldModId) = Some oldMod ->
  installReply env = Returned newModId ->
  obsolete (mod_rules oldMod) (modsAfter env) oldModId newModId = Returned obs ->
  obs <> [] ->
  removeDialogReply env = Returned result ->
  dlg_action result = "Keep All" \/ dlg_action result = "Remove All" ->
  removeReply env = Returned tt ->
  let keep := String.eqb (dlg_action result) "Keep All" in
  collectionUpdate env gameId collectionSlug revisionNumber oldModId
  = (Returned tt,
     [GetRevision collectionSlug revisionNumber;
      ResolveCollectionUrl (rev_downloadLink latest);
      StartDownload urls (col_name collection) (rev_revision latest);
      AnalyticsClick; StartInstallDownload dlId;
      ShowRemoveDialog (List.length obs) (col_name collection);
      MarkNotDependency gameId (if keep then map ItemMod obs else []);
      RemoveMods gameId
        (ItemId oldModId :: (if keep then [] else map ItemMod obs))]).
Proof.
  intros Hlatest Hcol Hslug Hurls Hdl Hold Hnew Hobs Hsome Hreply Haction Hremoved.
  unfold collectionUpdate, collectionUpdateBody, startDownload, askAboutObsolete.
  rewrite Hlatest. cbn [hostCall await wbind]. rewrite Hcol, Hslug, String.eqb_refl.
  cbn [negb]. rewrite Hurls. cbn [hostCall await wbind tryCatch]. rewrite Hdl, Hold.
  cbn [wret wbind]. rewrite Hnew. cbn [wbind]. rewrite Hobs.
  destruct obs as [|o obs]; [congruence|].
  cbn [wbind Nat.ltb Nat.leb List.length wret snd fst hostCall await].
  rewrite Hreply, Hremoved. cbn [wbind await].
  destruct Haction as [-> | ->]; reflexivity.
Qed.

End UpdateWorkflowFacts.

(** ** Facts about the rules of a collection *)
Section RuleFacts.
Context {ext : Externals}.
Import InstallDriver.
Local Open Scope driver_scope.

Lemma dict_set_keys {V} k (v : V) d k' :
  In k' (map fst (dict_set k v d)) <-> k' = k \/ In k' (map fst d).
Proof.
  induction d as [|[k0 v0] d IH]; cbn.
  - intuition.
  - destruct (String.eqb k k0) eqn:E; cbn.
    + apply String.eqb_eq in E as <-. intuition.
    + rewrite IH. intuition.
Qed.

Lemma dict_set_NoDup {V} k (v : V) d :
  NoDup (map fst d) -> NoDup (map fst (dict_set k v d)).
Proof.
  induction d as [|[k0 v0] d IH]; cbn; intros Hnd.
  - constructor; [intros [] | constructor].
  - destruct (String.eqb k k0) eqn:E; cbn.
    + apply String.eqb_eq in E as <-. exact Hnd.
    + inversion Hnd as [|? ? Hnotin Hrest]; subst. constructor; [|now apply IH].
      rewrite dict_set_keys. intros [-> | Hin]; [|contradiction].
      now rewrite String.eqb_refl in E.
Qed.

Lemma dict_set_In {V} k (v : V) d k' v' :
  In (k', v') (dict_set k v d) -> (k' = k /\ v' = v) \/ In (k', v') d.
Proof.
  induction d as [|[k0 v0] d IH]; cbn.
  - intros [[= <- <-]|[]]. now left.
  - destruct (String.eqb k k0) eqn:E; cbn.
    + intros [[= <- <-]|Hin]; [now left | right; now right].
    + intros [Heq|Hin]; [right; now left|]. destruct (IH Hin) as [?|?]; [now left|].
      right; now right.
Qed.

Lemma dict_set_last {V} k (v : V) d : In (k, v) (dict_set k v d).
Proof.
  induction d as [|[k0 v0] d IH]; cbn; [now left|].
  destruct (String.eqb k k0); [now left | now right].
Qed.

(** X26: the table [getModsEx] builds has one entry per rule id: its keys
    are distinct, every entry is keyed by the id of a [requires] or
    [recommends] rule of the collection and pairs that rule with the mod
    the rule's reference finds among the game's mods, and the last
    dependency rule of the collection is always in the table. *)
Theorem getModsEx_entries env d profile collection :
  let table := getModsEx env d profile collection in
  NoDup (map fst table)
  /\ (forall k v, In (k, v) table ->
        exists p mods rule,
          Js.nullish profile (mProfile d) = Some p
          /\ persistent_mods env (profile_gameId p) = Some mods
          /\ In rule (mod_rules collection) /\ isDependency rule = true
          /\ k = modRuleId rule
          /\ v = mkModEx (findModByRef (rule_reference rule) mods) rule)
  /\ (forall p mods rules rule,
        Js.nullish profile (mProfile d) = Some p ->
        persistent_mods env (profile_gameId p) = Some mods ->
        mod_rules collection = rules ++ [rule] -> isDependency rule = true ->
        In (modRuleId rule, mkModEx (findModByRef (rule_reference rule) mods) rule) table).
Proof.
  unfold getModsEx.
  destruct (Js.nullish profile (mProfile d)) as [p|] eqn:Hp;
    [|cbn; refine (conj _ (conj _ _)); [constructor | intros ? ? [] | discriminate]].
  destruct (persistent_mods env (profile_gameId p)) as [mods|] eqn:Hmods;
    [|cbn; refine (conj _ (conj _ _));
      [constructor | intros ? ? [] | intros ? ? ? ? [= <-]; congruence]].
  cbn zeta.
  set (step := fun (prev : Dict ModEx) rule =>
                 if isDependency rule
                 then dict_set (modRuleId rule)
                        (mkModEx (findModByRef (rule_reference rule) mods) rule) prev
                 else prev).
  assert (Hinv : forall rules acc,
            NoDup (map fst acc) ->
            NoDup (map fst (fold_left step rules acc))
            /\ forall k v, In (k, v) (fold_left step rules acc) ->
                 In (k, v) acc
                 \/ exists rule, In rule rules /\ isDependency rule = true
                      /\ k = modRuleId rule
                      /\ v = mkModEx (findModByRef (rule_reference rule) mods) rule).
  { induction rules as [|r rules IH]; intros acc Hnd; cbn [fold_left].
    - split; [exact Hnd | now left].
    - assert (Hnd' : NoDup (map fst (step acc r))).
      { unfold step. destruct (isDependency r); [now apply dict_set_NoDup | exact Hnd]. }
      destruct (IH _ Hnd') as [Hnd'' Hin]. split; [exact Hnd''|].
      intros k v Hkv. destruct (Hin _ _ Hkv) as [Hacc | (rule & Hr & Hdep & Hk & Hv)].
      + unfold step in Hacc. destruct (isDependency r) eqn:Hdep; [|now left].
        apply dict_set_In in Hacc as [[-> ->] | Hacc]; [|now left].
        right. exists r. repeat split; [now left | exact Hdep].
      + right. exists rule. repeat split; [now right | exact Hdep | exact Hk | exact Hv]. }
  refine (conj _ (conj _ _)).
  - apply Hinv. constructor.
  - intros k v Hkv. destruct (Hinv (mod_rules collection) [] (NoDup_nil _)) as [_ Hin].
    destruct (Hin _ _ Hkv) as [[] | (rule & Hr & Hdep & Hk & Hv)].
    exists p, mods, rule. repeat split; assumption.
  - intros p' mods' rules rule [= <-] Hmods' Hrules Hdep.
    rewrite Hmods in Hmods'. injection Hmods' as <-.
    rewrite Hrules, fold_left_app. cbn [fold_left]. unfold step at 1. rewrite Hdep.
    apply dict_set_last.
Qed.

Lemma matchRepo_ids rule file :
  matchRepo rule (Some file) = true ->
  exists repo modId fileId,
    ref_repo (rule_reference rule) = Some repo
    /\ repo_modId repo = Some modId /\ repo_fileId repo = Some fileId
    /\ file_modId file = Some modId /\ file_fileId file = Some fileId
    /\ modId <> 0%Z /\ fileId <> 0%Z.
Proof.
  unfold matchRepo.
  destruct (ref_repo (rule_reference rule)) as [repo|] eqn:Hrepo; [|discriminate].
  cbn [andThen]. destruct (repo_modId repo) as [m|] eqn:Hm; [|discriminate].
  destruct (repo_fileId repo) as [f|] eqn:Hf; [|discriminate].
  destruct (file_modId file) as [m'|] eqn:Hm', (file_fileId file) as [f'|] eqn:Hf';
    cbn; rewrite ?andb_false_r; try discriminate.
  destruct (Z.eqb_spec m' 0), (Z.eqb_spec f' 0); cbn; try discriminate.
  intros H. apply andb_prop in H as [Em Ef].
  apply Z.eqb_eq in Em as ->, Ef as ->. exists repo, m', f'.
  repeat apply conj; assumption || reflexivity.
Qed.

(** X27: [augmentRules] changes no field of the driver and dispatches one
    batch.  Each action of the batch adds, to the collection, a rule of the
    collection whose reference names a repository mod and file, with
    nothing changed but [extra.fileName], which becomes the [uri] of a file
    of the revision with the same, non-zero, mod and file ids.  Without
    revision information the batch is empty. *)
Theorem augmentRules_names_matching_files profile collection d :
  exists acts,
    augmentRules profile collection d = (tt, d, [BatchDispatch acts])
    /\ (mRevisionInfo d = None -> acts = [])
    /\ forall a, In a acts ->
         exists rule file repo modId fileId info,
           In rule (mod_rules collection)
           /\ mRevisionInfo d = Some info /\ In (Some file) (rev_modFiles info)
           /\ ref_repo (rule_reference rule) = Some repo
           /\ repo_modId repo = Some modId /\ repo_fileId repo = Some fileId
           /\ file_modId file = Some modId /\ file_fileId file = Some fileId
           /\ modId <> 0%Z /\ fileId <> 0%Z
           /\ a = addModRule (profile_gameId profile) (mod_id collection)
                    (mkRule (rule_type rule) (rule_reference rule) (rule_fileList rule)
                       (rule_installerChoices rule) (Some (file_uri file))
                       (rule_ignored rule)).
Proof.
  exists (definedOnly (map (augmentRule d profile collection) (mod_rules collection))).
  assert (Hacts : forall a,
            In a (definedOnly (map (augmentRule d profile collection)
                                 (mod_rules collection))) ->
            exists rule file repo modId fileId info,
              In rule (mod_rules collection)
              /\ mRevisionInfo d = Some info /\ In (Some file) (rev_modFiles info)
              /\ ref_repo (rule_reference rule) = Some repo
              /\ repo_modId repo = Some modId /\ repo_fileId repo = Some fileId
              /\ file_modId file = Some modId /\ file_fileId file = Some fileId
              /\ modId <> 0%Z /\ fileId <> 0%Z
              /\ a = addModRule (profile_gameId profile) (mod_id collection)
                       (mkRule (rule_type rule) (rule_reference rule)
                          (rule_fileList rule) (rule_installerChoices rule)
                          (Some (file_uri file)) (rule_ignored rule))).
  { intros a Ha. apply In_definedOnly, in_map_iff in Ha as (rule & Hrule & Hin).
    unfold augmentRule in Hrule.
    destruct (ref_repo (rule_reference rule)) as [repo0|] eqn:Hrepo; [|discriminate].
    destruct (mRevisionInfo d) as [info|] eqn:Hinfo; [|discriminate].
    destruct (find (fun iter => matchRepo rule iter) (rev_modFiles info))
      as [[file|]|] eqn:Hfind; try discriminate.
    apply find_some in Hfind as [Hfile Hmatch].
    destruct (matchRepo_ids _ _ Hmatch)
      as (repo & modId & fileId & Hrepo' & Hm & Hf & Hm' & Hf' & Hnz & Hnz').
    exists rule, file, repo, modId, fileId, info.
    injection Hrule as <-. repeat split; assumption. }
  refine (conj _ (conj _ Hacts)).
  - reflexivity.
  - intros Hnone.
    destruct (definedOnly (map (augmentRule d profile collection) (mod_rules collection)))
      as [|a acts]; [reflexivity|].
    destruct (Hacts a (or_introl eq_refl)) as (? & ? & ? & ? & ? & info & _ & Hinfo & _).
    congruence.
Qed.

End RuleFacts.

(** ** The further facts at sample sessions *)
Section SampleSessions.
Import Sample.
Existing Instance host.
Import InstallDriver.
Import EventHandlers.

(** X4 at the scenario: from [start], [continue()] asks for the
    dependencies of B and notifies the one listener. *)
Lemma continue_from_start_begins_witness :
  hostCalls (continue envB) (sessionIn Start false)
  = [EmitInstallDependencies "profile1" "skyrimse" ["B"] true; UpdateCB 7].
Proof.
  unfold hostCalls.
  rewrite (continue_from_start_begins envB (sessionIn Start false) bundleB profile
             "archiveB" eq_refl eq_refl eq_refl eq_refl).
  reflexivity.
Defined.

(** X5 at the scenario: in [review], [continue()] asks for nothing. *)
Lemma continue_signals_only_from_start_witness :
  filter isInstallDependencies (hostCalls (continue envB) (sessionIn Review false)) = [].
Proof.
  apply (continue_signals_only_from_start envB (sessionIn Review false)).
  discriminate.
Defined.

(** X7 at the scenario: [start] on a fresh driver. *)
Lemma start_begins_session_witness :
  mCollection startedB = Some bundleB /\ mProfile startedB = Some profile
  /\ mStep startedB = Start.
Proof.
  destruct (start_begins_session envB profile bundleB "archiveB" newDriver eq_refl
              (or_introl eq_refl)) as (Hcollection & Hprofile & Hstep & _).
  exact (conj Hcollection (conj Hprofile Hstep)).
Defined.

(** X8 at the scenario, on a host that offers [withSuppressedTests]:
    [start] without a profile on a fresh driver asks for the suppression
    and leaves it pending. *)
Lemma start_without_profile_witness :
  mStep (fieldsAfter (start envSuppressing None (Some bundleB)) newDriver) = Prepare
  /\ mTotalSize (fieldsAfter (start envSuppressing None (Some bundleB)) newDriver)
     = Some 0%Z
  /\ mOnStop (fieldsAfter (start envSuppressing None (Some bundleB)) newDriver) = true
  /\ hostCalls (start envSuppressing None (Some bundleB)) newDriver
     = [WithSuppressedTests ["plugins-changed"]].
Proof.
  destruct (start_without_profile envSuppressing bundleB "archiveB" newDriver eq_refl
              (or_introl eq_refl))
    as (_ & _ & Hstep & _ & _ & _ & Hsize & Hpending & Hcalls).
  exact (conj Hstep (conj Hsize (conj Hpending Hcalls))).
Defined.

(** X9 at the scenario with a user signed in: the collection has no known
    author, so feedback is requested. *)
Lemma startImpl_requests_vote_witness :
  List.length (filter isPendingVote (hostCalls (startImpl envMember) (sessionIn Query false)))
  = 1%nat.
Proof.
  rewrite (startImpl_requests_vote envMember (sessionIn Query false) bundleB profile
             "archiveB" eq_refl eq_refl eq_refl).
  reflexivity.
Defined.

(** X12 at the scenario: the dependencies of a mod that is not the
    collection being installed. *)
Lemma dependencies_of_other_mod_ignored_witness :
  fieldsAfter (onDidInstallDependencies envB "skyrimse" "A" false) (sessionIn Installing false)
  = sessionIn Installing false.
Proof.
  apply (dependencies_of_other_mod_ignored envB "skyrimse" "A" false [modA; bundleB]
           (sessionIn Installing false) eq_refl).
  intros c [= <-]. discriminate.
Defined.

(** X13 at the scenario: the required pass over B is over. *)
Lemma required_pass_finished_witness :
  hostCalls (onDidInstallDependencies envB "skyrimse" "B" false) (sessionIn Installing false)
  = [DismissNotification "installing-collection-B"; UpdateCB 7].
Proof.
  exact (proj1 (required_pass_finished envB "skyrimse" [modA; bundleB] bundleB bundleB
                  (sessionIn Installing false) eq_refl eq_refl eq_refl)).
Defined.

(** X14 at the scenario: the optional pass over B is over. *)
Lemma optional_pass_finished_witness :
  filter isUpdateCB
    (hostCalls (onDidInstallDependencies envB "skyrimse" "B" true)
       (sessionIn Recommendations false)) = [].
Proof.
  exact (proj1 (optional_pass_finished envB "skyrimse" [modA; bundleB] bundleB bundleB
                  (sessionIn Recommendations false) eq_refl eq_refl eq_refl)).
Defined.

(** X15 at the scenario: C is still missing after the required pass, and
    [continue()] goes on to the review. *)
Lemma leftovers_acknowledged_by_continue_witness :
  mStep (fieldsAfter (continue envB)
           (fieldsAfter (onDidInstallDependencies envB "skyrimse" "B" false)
              (sessionIn Installing false))) = Review.
Proof.
  exact (proj1 (proj2 (proj2
    (leftovers_acknowledged_by_continue envB envB "skyrimse" [modA; bundleB] bundleB
       bundleB "archiveB" (sessionIn Installing false)
       eq_refl eq_refl eq_refl eq_refl eq_refl eq_refl)))).
Defined.

(** X17 at the scenario: the optional mods of B are asked for from the
    review. *)
Lemma recommended_round_returns_to_review_witness :
  hostCalls installRecommended (sessionIn Review false)
  = [EmitInstallFromDependencies "B" [ruleA; ruleC; ruleD] true; UpdateCB 7]
  /\ mStep (fieldsAfter (continue envB)
              (fieldsAfter installRecommended (sessionIn Review false))) = Review.
Proof.
  destruct (recommended_round_returns_to_review envB (sessionIn Review false) bundleB
              "archiveB" eq_refl eq_refl) as (Hrun & _ & Hstep & _).
  split; [|exact Hstep].
  unfold hostCalls. rewrite Hrun. reflexivity.
Defined.

(** X18 at the sample update: the revision is published under [slug],
    the update was asked for [other]. *)
Lemma update_aborts_before_download_witness :
  exists err,
    err_isUserCanceled err = false
    /\ collectionUpdate (updateEnv (Returned tt)) "skyrimse" "other" 4 "X"
       = (Returned tt,
          [GetRevision "other" 4;
           ShowErrorNotification "Failed to download collection" err]).
Proof.
  apply (update_aborts_before_download (updateEnv (Returned tt)) "skyrimse" "other" 4 "X").
  right. exists publishedRevision, (mkCollectionInfo "slug" "Sample collection" None).
  repeat split. discriminate.
Defined.

(** X19 at the sample update: the archive is among the downloads. *)
Lemma failed_download_recovers_only_if_present_witness :
  snd (startDownload updateEnvDownloaded publishedRevision
         (mkCollectionInfo "slug" "Sample collection" None)
         (Some ["https://files.example/rev43.7z"]))
  = [StartDownload ["https://files.example/rev43.7z"] "Sample collection" 4].
Proof.
  exact (proj1 (failed_download_recovers_only_if_present updateEnvDownloaded
                  publishedRevision (mkCollectionInfo "slug" "Sample collection" None)
                  ["https://files.example/rev43.7z"] alreadyDownloaded eq_refl)).
Defined.

(** X20 at the sample update: Y is obsolete. *)
Lemma obsolete_are_flagged_dependencies_witness :
  mod_installedAsDependency modY = Some true.
Proof.
  exact (proj1 (obsolete_are_flagged_dependencies (mod_rules oldRevision) modsAfterUpdate
                  "X" "N" [modY] modY eq_refl (or_introl eq_refl))).
Defined.

(** X24 at the sample update to a revision that still requires Y and Z. *)
Lemma update_without_orphans_asks_nothing_witness :
  collectionUpdate updateEnvSame "skyrimse" "slug" 4 "X"
  = (Returned tt,
     [GetRevision "slug" 4; ResolveCollectionUrl "link43";
      StartDownload ["https://files.example/rev43.7z"] "Sample collection" 4;
      AnalyticsClick; StartInstallDownload "download43";
      MarkNotDependency "skyrimse" []; RemoveMods "skyrimse" [ItemId "X"]]).
Proof.
  exact (update_without_orphans_asks_nothing updateEnvSame "skyrimse" "slug" 4 "X"
           publishedRevision (mkCollectionInfo "slug" "Sample collection" None)
           ["https://files.example/rev43.7z"] "download43" oldRevision "N"
           eq_refl eq_refl eq_refl eq_refl eq_refl eq_refl eq_refl eq_refl eq_refl).
Defined.

(** X25 at the sample update: Y is obsolete; the user answers
    [Remove All], resp. [Keep All]. *)
Lemma obsolete_kept_or_removed_together_witness :
  collectionUpdate (updateEnv (Returned tt)) "skyrimse" "slug" 4 "X"
  = (Returned tt,
     [GetRevision "slug" 4; ResolveCollectionUrl "link43";
      StartDownload ["https://files.example/rev43.7z"] "Sample collection" 4;
      AnalyticsClick; StartInstallDownload "download43";
      ShowRemoveDialog 1 "Sample collection";
      MarkNotDependency "skyrimse" [];
      RemoveMods "skyrimse" [ItemId "X"; ItemMod modY]])
  /\ collectionUpdate updateEnvKeep "skyrimse" "slug" 4 "X"
     = (Returned tt,
        [GetRevision "slug" 4; ResolveCollectionUrl "link43";
         StartDownload ["https://files.example/rev43.7z"] "Sample collection" 4;
         AnalyticsClick; StartInstallDownload "download43";
         ShowRemoveDialog 1 "Sample collection";
         MarkNotDependency "skyrimse" [ItemMod modY];
         RemoveMods "skyrimse" [ItemId "X"]]).
Proof.
  split.
  - refine (obsolete_kept_or_removed_together (updateEnv (Returned tt)) "skyrimse" "slug"
              4 "X" publishedRevision (mkCollectionInfo "slug" "Sample collection" None)
              ["https://files.example/rev43.7z"] "download43" oldRevision "N" [modY]
              (mkDialogResult "Remove All" None)
              eq_refl eq_refl eq_refl eq_refl eq_refl eq_refl eq_refl _ _ eq_refl _
              eq_refl);
      [vm_compute; reflexivity | discriminate | right; reflexivity].
  - refine (obsolete_kept_or_removed_together updateEnvKeep "skyrimse" "slug"
              4 "X" publishedRevision (mkCollectionInfo "slug" "Sample collection" None)
              ["https://files.example/rev43.7z"] "download43" oldRevision "N" [modY]
              (mkDialogResult "Keep All" None)
              eq_refl eq_refl eq_refl eq_refl eq_refl eq_refl eq_refl _ _ eq_refl _
              eq_refl);
      [vm_compute; reflexivity | discriminate | left; reflexivity].
Defined.

End SampleSessions.
